(* ===== verification/_CoqProject ===== *)
-Q . S2P
Prelude.v
NdArray.v
PyObjects.v
PyStrings.v
CoordinateIndex.v
BudgetFile.v
FluxAccumulator.v
StepMachine.v
HeapLoop.v
Aggregation.v
Float64.v
PlotPrep.v
Plotting.v
Script.v
PathConfig.v
Run.v
