(* ===== verification/Prelude.v ===== *)
(** * LARV-DSR: verification of the MODFLOW cell-budget post-processing script

    The repository holds one Python script,
    [src/python/Post_process_MF_binary_output_4Ibraheem.py].  It reads the
    binary cell-by-cell budget file of a MODFLOW model through flopy, turns
    the per-step list of RIVER LEAKAGE records into a dense array
    (time, layer, row, column) and runs a few numpy aggregations on it.
    Its parts, in the order the data flows:

    - the path set-up (lines 12-16): a hard-coded Windows directory joined
      with the file name by [os.path.join], then opened by flopy;
    - the coordinate table (lines 29-39): [np.arange] of the 2*102*217 cell
      ids, [reshape]d to (2,102,217); for every id a linear [np.argwhere]
      search yields its (layer,row,col), stored in the dict [id_dict];
    - the budget-file reader (lines 16-19, 43, 51): flopy's [CellBudgetFile];
      the script calls [get_unique_record_names], [get_kstpkper] and
      [get_data], which looks the text up among the record names and raises
      [Exception] when none contains it;
    - the accumulator (lines 42-70): for each (kstp,kper) it takes the first
      record array of '   RIVER LEAKAGE', starts from [np.zeros], and for
      each entry (node, q) adds q at [id_dict[node]]; the step arrays are
      appended to [rivflx], a line is printed per step, and the list is
      stacked by [np.array];
    - the queries (lines 79-114): layer sum then time mean, grand total,
      conversion to acre-feet, a half-open time slice [10:20] of layer 0;
    - the plot (lines 118-121): a copy of the mean map whose zeros are set
      to NaN in place, drawn by [plt.imshow] and displayed by [plt.show];
    - what the user sees: the record table (line 18), a line per step
      (line 67) and the figure (line 121).

    ** Files

    - [Prelude] (this file): Python errors as the values of a result monad
      (stdpp's [≫=] and [x ← c; k]), [foldM] for a Python [for] loop that can
      raise, with its invariant and [mapM] lemmas, the numeric interface
      [Num] of the flux values with its law classes [AddLaws]/[FieldLaws],
      the instance on exact rationals [Qc], numpy's reduction
      [np_reduce]/[np_sum], the hint database [flux].
    - [NdArray]: the numpy semantics the script relies on: Python index
      normalisation ([py_index]), [a[l,r,c] += x] ([iadd3]), [np.zeros],
      [np.arange], C-order [reshape]/[ravel], [unravel_index], [argwhere].
    - [PyObjects]: Python's array objects by address: a [store], object
      creation ([alloc]) and in-place writes ([store_write]).
    - [PyStrings]: the Python string operations flopy and [os.path] use
      ([upper], [lower], [in], [startswith], [s[-1]]), and string lemmas.
    - [CoordinateIndex]: the table [id_dict] built the way the script builds
      it, the arithmetic decomposition the spec asks for, the refinement
      between them, and the interface [CellIndex] the accumulator is proved
      against.
    - [BudgetFile]: the interface of flopy's reader as a class
      [CellBudgetFile] with its laws [CellBudgetFileLaws] (what [get_data]
      does with a text the file does or does not hold), and an in-memory
      archive implementing both.
    - [FluxAccumulator]: one step of the loop and the whole loop as
      functions ([process_step], [collect_steps]).
    - [StepMachine]: the same loop as a statement-level state machine
      ([step], an inductive relation, and [step_fn], its executable form)
      whose configurations also carry the lines printed at line 67.
    - [HeapLoop]: the same loop over array objects: line 59 makes a new
      object, line 64 writes into it, line 66 appends a reference.
    - [Aggregation]: the stack and the queries, and the equalities between
      them.
    - [Float64]: the instance of [Num] on IEEE binary64 (Rocq's primitive
      floats), numpy's float64.
    - [PlotPrep]: lines 118-119 over variables naming array objects.
    - [Plotting]: lines 120-121: pyplot's figures, [imshow] keeping a copy
      of the data with its non-finite cells masked, [show].
    - [Script]: the script from line 29 to the end, and the spec's worked
      scenario.
    - [PathConfig]: lines 12-16: [ntpath.join] and [posixpath.join] written
      out from CPython, the opening of the file in a file system that maps
      names to archives, and [program], the whole script from line 12.
    - [Run]: the whole script with what it writes, in a writer and error
      monad [io]: the loop is [StepMachine]'s, the plot [Plotting]'s.

    ** Numbers

    Flux values are numpy float64.  The model is generic in the value type
    through the class [Num] (zero, +, *, /, integer literal).  Theorems that
    hold for every evaluation order of float code (shapes, errors, which
    additions happen in which order) are stated for any [Num]; theorems that
    regroup sums need [AddLaws] (commutative monoid) and those about means
    and unit conversion need [FieldLaws]; they hold on [Qc], and [Float64]
    shows on concrete inputs that they fail on float64.  numpy sums fewer
    than eight contiguous floats one by one, as [np_sum] does, and longer
    runs by partial pairwise summation, which [np_sum] equals only in exact
    arithmetic.  Indices, cell ids and (kstp,kper) keys are Python integers,
    modelled as [Z]; list positions are [nat].

    ** Theorems

    - Cell table ([CoordinateIndex]): the table the script builds by
      searching with [argwhere] is, key by key, the spec's arithmetic
      decomposition [resolve]; it is a bijection between ids in range and
      coordinates in the grid and raises [KeyError] outside; reading
      MODFLOW's 1-based node numbers through it shifts every flux one cell.
    - Accumulator ([FluxAccumulator]): every cell of a step's volume holds
      the sum of its entries in record order; duplicates add up; an id out
      of range raises [KeyError] and a step without the text [IndexError];
      the steps come out in [get_kstpkper] order, one volume per step.
    - Loop machine ([StepMachine]): every reachable configuration satisfies
      the loop invariant (rule induction on [rtc step]); every configuration
      reaches a final one; the final configuration is [collect_steps]'s
      result, so the two models of the loop agree (refinement); a run that
      raises has printed exactly the steps before the failing one.
    - Loop over objects ([HeapLoop]): it computes [collect_steps]'s volumes
      in pairwise distinct new objects and touches no older object, so no
      volume is shared between steps or changed after its step.
    - Queries ([Aggregation]): the three ways to the grand total agree in
      exact arithmetic; the query of line 111 sums, cell by cell, layer 0
      of steps 10 to 19, and on a run of at most 10 steps returns zeros;
      the mean map of line 79 totals [rivflx.sum()] divided by the number
      of steps.
    - Floats ([Float64]): checks on fixed float64 inputs, which the
      findings rest on rather than properties: the modelled conversion
      reproduces bit for bit the value the script's comment records at line
      91 from the one at line 86; the spec's single conversion factor and
      its three-paths total differ from what the script computes.
    - Plot preparation ([PlotPrep]): the in-place mask reaches only the
      copy; the masked map has no element equal to 0.
    - Script ([Script]): the whole script equals the same pipeline run with
      [resolve] in place of the searched table, on every budget file; its
      results have the shapes the comments record; the spec's scenario
      evaluates on the full 2*102*217 grid (a test, [spec_scenario]); a
      file with no step raises;
      [rivflx.shape] (line 73) is (T, 2, 102, 217), or (0,) with no step;
      a file without the text raises flopy's [Exception], proved against
      the reader's laws, for every reader that satisfies them.
    - Paths ([PathConfig]): lemmas behind the finding on line 14: joining a
      directory and a plain file name puts '\' between them under [ntpath]
      and '/' under [posixpath], so the input is found at
      'C:\Temp\ibraheem\DSModel_09.ccf' on Windows only, and [program]
      raises [FileNotFoundError] at line 16 elsewhere.
    - Plot ([Plotting]): the figure displayed shows the mean map with a
      blank cell exactly where it holds 0, -0.0, NaN or an infinity.
    - Run ([Run]): the run with its output computes exactly [program]'s
      values and exceptions; a run that returns has written the record
      table, one line per step in order and one figure, a run that raises
      the record table and the lines of a prefix of the steps.

    ** Bounds and fuel

    Every loop of the script runs over a finite list (the cell ids, the
    (kstp,kper) keys, the entries of a record), so every function is
    structural; the state machine's [exec n] runs at most [n] steps and is
    used only to build witnesses, and termination of the machine is a
    theorem, not a fuel bound.  The grid is a parameter (L, R, C) in every
    theorem but those of [Script], stated on the model's (2, 102, 217) and
    evaluated through the refinement theorem, since the searched table is
    quadratic in the 44268 cells.

    ** Findings

    The script indexes [id_dict] with MODFLOW's node numbers, which are
    1-based, while the table is 0-based; an empty file raises [IndexError]
    at line 79 instead of producing an empty result; a step without the
    text raises [IndexError] at line 56; only the first record array of a
    step is read, yet a ragged second array raises [ValueError] at line
    54; a text the file does not hold raises flopy's bare [Exception] at
    line 51, not the spec's start-up [ComponentNotFoundError]; the input
    path is Windows-only; on float64 the total paths and the conversion by
    one factor differ; the [10:20] query returns zeros on short runs; the
    budget file is never closed; a failing step is not named.

    ** Not modelled

    The record table of line 18 is modelled by the names it lists, not by
    flopy's text layout (which also shows each record's storage method).
    The bare expressions of lines 19, 73 and 80-81 write nothing when the
    file runs as a script; their values are modelled (the record names,
    [ndarray_shape], [shape2]).  matplotlib's rendering (colormap, pixels)
    is not modelled: [Plotting] stops at the masked data of the image.
    The imports (lines 6-10) only bind module names.  [os.path.join]
    is modelled for the two arguments of line 14 and ASCII strings.  The
    binary format of the budget file is read by flopy, a library; its
    reader is modelled by its interface ([BudgetFile]), for MODFLOW-2005
    records of method 2 or 5, whose [entry[1]] is the flow (in a MODFLOW 6
    record of method 6 it is a second node).  Line 54 follows numpy 1.24
    and later, where stacking ragged record arrays raises [ValueError].
    [plt.show] is modelled for an interactive backend; a non-interactive
    one (Agg) displays nothing and leaves the figures open.
*)
From stdpp Require Import base list sets.
From Stdlib Require Import ZArith Lia QArith Qcanon.

Declare Scope flux_scope.
Delimit Scope flux_scope with flux.

Create HintDb flux.

(** Close a decidable proposition on concrete data by evaluation. *)
Ltac eval_decide := apply (bool_decide_unpack _); vm_compute; exact I.

(** ** Python exceptions as values *)

(** The exceptions the script can raise on the paths it takes. *)
Inductive py_error : Type :=
  | IndexError   (** index out of bounds, [x[0]] of an empty array *)
  | KeyError     (** dict lookup of a missing key *)
  | ValueError   (** [reshape] to a wrong size, ragged [np.array] *)
  | NameError    (** a variable read before it is bound *)
  | PyException  (** Python's base [Exception], which flopy raises *)
  | FileNotFoundError. (** [open] of a path that names no file *)

Inductive result (A : Type) : Type :=
  | Ok (a : A)
  | Err (e : py_error).
Arguments Ok {A} a.
Arguments Err {A} e.

#[export] Instance result_ret : MRet result := λ _ a, Ok a.
#[export] Instance result_bind : MBind result := λ _ _ f r,
  match r with Ok a => f a | Err e => Err e end.

Definition of_option {A} (e : py_error) (o : option A) : result A :=
  match o with Some a => Ok a | None => Err e end.

(** Whether a computation returned. *)
Definition is_ok {A} (r : result A) : bool := match r with Ok _ => true | Err _ => false end.

Lemma is_ok_Ok {A} (r : result A) : is_ok r = true → ∃ a, r = Ok a.
Proof. destruct r; [eauto|done]. Qed.

(** A Python [for] loop over [l] whose body updates [acc] and may raise. *)
Fixpoint foldM {A B} (f : A → B → result A) (acc : A) (l : list B) : result A :=
  match l with
  | [] => Ok acc
  | x :: l' => f acc x ≫= λ acc', foldM f acc' l'
  end.

(** ** Flux values *)

Class Num (V : Type) := {
  num_zero : V;
  num_add : V → V → V;
  num_mul : V → V → V;
  num_div : V → V → V;
  num_of_Z : Z → V
}.

Notation "x ⊕ y" := (num_add x y) (at level 50, left associativity) : flux_scope.
Notation "x ⊗ y" := (num_mul x y) (at level 40, left associativity) : flux_scope.
Notation "x ⊘ y" := (num_div x y) (at level 40, left associativity) : flux_scope.
Notation "'𝟎'" := num_zero : flux_scope.
Open Scope flux_scope.

Class AddLaws (V : Type) `{Num V} : Prop := {
  add_assoc_law : ∀ x y z : V, x ⊕ (y ⊕ z) = x ⊕ y ⊕ z;
  add_comm_law : ∀ x y : V, x ⊕ y = y ⊕ x;
  add_zero_l_law : ∀ x : V, 𝟎 ⊕ x = x
}.

Class FieldLaws (V : Type) `{Num V} : Prop := {
  mul_assoc_law : ∀ x y z : V, x ⊗ (y ⊗ z) = x ⊗ y ⊗ z;
  mul_div_law : ∀ x y z : V, x ⊗ y ⊘ z = x ⊗ (y ⊘ z);
  div_add_distr_law : ∀ x y z : V, (x ⊕ y) ⊘ z = x ⊘ z ⊕ y ⊘ z;
  zero_div_law : ∀ z : V, 𝟎 ⊘ z = 𝟎;
  div_mul_cancel_law : ∀ (x : V) (n : Z), n ≠ 0%Z → x ⊘ num_of_Z n ⊗ num_of_Z n = x
}.

(** Exact rationals: the arithmetic the spec's equalities are meant in. *)
#[export] Instance Qc_num : Num Qc := {|
  num_zero := Q2Qc 0;
  num_add := Qcplus;
  num_mul := Qcmult;
  num_div := Qcdiv;
  num_of_Z := λ z, Q2Qc (inject_Z z)
|}.

(** ** numpy's reductions *)

(** [np.add.reduce] along an axis: the first element, then each next one
    added on the right; the identity when the axis is empty. *)
Definition np_reduce {A} (op : A → A → A) (unit : A) (l : list A) : A :=
  match l with
  | [] => unit
  | x :: xs => foldl op x xs
  end.

Definition np_sum `{Num V} (l : list V) : V := np_reduce num_add 𝟎 l.

#[export] Instance Qc_eq_decision : EqDecision Qc := Qc_eq_dec.

#[export] Instance Qc_add_laws : AddLaws Qc.
Proof.
  split; intros; simpl.
  - apply Qcplus_assoc.
  - apply Qcplus_comm.
  - apply Qcplus_0_l.
Qed.

#[export] Instance Qc_field_laws : FieldLaws Qc.
Proof.
  split; intros; simpl; unfold Qcdiv.
  - apply Qcmult_assoc.
  - symmetry. apply Qcmult_assoc.
  - apply Qcmult_plus_distr_l.
  - apply Qcmult_0_l.
  - rewrite <- Qcmult_assoc, (Qcmult_comm (/ _)), Qcmult_inv_r, Qcmult_1_r; [done|].
    intros Hz. apply H.
    assert (Hq : (inject_Z n == 0)%Q).
    { rewrite <- (Qred_correct (inject_Z n)), <- (Qred_correct 0).
      change (Qred (inject_Z n)) with (this (Q2Qc (inject_Z n))).
      rewrite Hz. reflexivity. }
    unfold Qeq in Hq. simpl in Hq. lia.
Qed.

Section Sums.
Context `{Num V} `{!AddLaws V}.

Lemma foldl_add_shift (a x : V) (l : list V) :
  foldl num_add (a ⊕ x) l = a ⊕ foldl num_add x l.
Proof.
  revert x. induction l as [|y l IH]; intros x; simpl; [done|].
  rewrite <- add_assoc_law. apply IH.
Qed.

Lemma add_swap_middle (a b c d : V) : a ⊕ b ⊕ (c ⊕ d) = a ⊕ c ⊕ (b ⊕ d).
Proof.
  rewrite <- !add_assoc_law. f_equal. rewrite !add_assoc_law. f_equal. apply add_comm_law.
Qed.

Lemma np_sum_nil : np_sum (V:=V) [] = 𝟎.
Proof. done. Qed.

Lemma np_sum_cons (x : V) (l : list V) : np_sum (x :: l) = x ⊕ np_sum l.
Proof.
  unfold np_sum. destruct l as [|y l]; simpl.
  - by rewrite add_comm_law, add_zero_l_law.
  - by rewrite foldl_add_shift.
Qed.

Lemma np_sum_app (l1 l2 : list V) : np_sum (l1 ++ l2) = np_sum l1 ⊕ np_sum l2.
Proof.
  induction l1 as [|x l1 IH]; cbn [app].
  - by rewrite np_sum_nil, add_zero_l_law.
  - by rewrite !np_sum_cons, IH, add_assoc_law.
Qed.

Lemma np_sum_concat (ls : list (list V)) : np_sum (concat ls) = np_sum (np_sum <$> ls).
Proof.
  induction ls as [|l ls IH]; cbn [concat fmap list_fmap]; [done|].
  by rewrite np_sum_app, np_sum_cons, IH.
Qed.

Lemma np_sum_zeros (n : nat) : np_sum (replicate n 𝟎) = (𝟎 : V).
Proof.
  induction n as [|n IH]; cbn [replicate]; [done|].
  by rewrite np_sum_cons, IH, add_zero_l_law.
Qed.
End Sums.

#[export] Hint Rewrite @np_sum_nil @np_sum_cons @np_sum_app @np_sum_concat : flux.

(** ** The result monad *)

Section ResultLemmas.
Context {A B : Type}.

Lemma foldM_cons (f : A → B → result A) (a : A) (x : B) (l : list B) :
  foldM f a (x :: l) = f a x ≫= λ a', foldM f a' l.
Proof. done. Qed.

Lemma foldM_ext (f g : A → B → result A) (a : A) (l : list B) :
  (∀ acc x, f acc x = g acc x) → foldM f a l = foldM g a l.
Proof.
  intros Hfg. revert a. induction l as [|x l IH]; intros a; [done|].
  rewrite !foldM_cons, Hfg. destruct (g a x); [apply IH|done].
Qed.

Lemma foldM_app (f : A → B → result A) (a : A) (l1 l2 : list B) :
  foldM f a (l1 ++ l2) = foldM f a l1 ≫= λ a', foldM f a' l2.
Proof.
  revert a. induction l1 as [|x l1 IH]; intros a; simpl; [done|].
  destruct (f a x); simpl; [apply IH|done].
Qed.

(** A loop whose body never raises computes a left fold. *)
Lemma foldM_total (f : A → B → result A) (g : A → B → A) (a : A) (l : list B) :
  (∀ acc x, x ∈ l → f acc x = Ok (g acc x)) →
  foldM f a l = Ok (foldl g a l).
Proof.
  revert a. induction l as [|x l IH]; intros a Hf; simpl; [done|].
  rewrite Hf by set_solver. apply IH. intros. apply Hf. set_solver.
Qed.

Lemma mapM_result_cons (f : A → result B) (x : A) (l : list A) :
  mapM f (x :: l) = (y ← f x; ys ← mapM f l; Ok (y :: ys)).
Proof. done. Qed.

(** A loop that appends [f x] for each [x] is [mapM f]. *)
Lemma foldM_append (f : A → result B) (acc : list B) (l : list A) :
  foldM (λ acc x, v ← f x; Ok (acc ++ [v])) acc l =
  (vs ← mapM f l; Ok (acc ++ vs)).
Proof.
  revert acc. induction l as [|x l IH]; intros acc; simpl.
  - by rewrite app_nil_r.
  - destruct (f x) as [v|e]; simpl; [|done].
    rewrite IH. destruct (mapM f l); simpl; [|done].
    by rewrite <- app_assoc.
Qed.

Lemma mapM_result_length (f : A → result B) (l : list A) (vs : list B) :
  mapM f l = Ok vs → length vs = length l.
Proof.
  revert vs. induction l as [|x l IH]; intros vs; simpl.
  - by intros [= <-].
  - destruct (f x); simpl; [|done].
    destruct (mapM f l) eqn:E; simpl; [|done].
    intros [= <-]. simpl. by rewrite (IH _ eq_refl).
Qed.

Lemma mapM_result_lookup (f : A → result B) (l : list A) (vs : list B) (i : nat) (x : A) :
  mapM f l = Ok vs → l !! i = Some x → ∃ v, f x = Ok v ∧ vs !! i = Some v.
Proof.
  revert vs i. induction l as [|y l IH]; intros vs i; simpl; [done|].
  destruct (f y) as [v|] eqn:Ef; simpl; [|done].
  destruct (mapM f l) as [ws|] eqn:E; simpl; [|done].
  intros [= <-]. destruct i as [|i]; simpl.
  - intros [= <-]. eauto.
  - apply IH. done.
Qed.

Lemma mapM_result_Ok (f : A → result B) (g : A → B) (l : list A) :
  (∀ x, x ∈ l → f x = Ok (g x)) → mapM f l = Ok (g <$> l).
Proof.
  induction l as [|x l IH]; intros Hf; simpl; [done|].
  rewrite Hf by set_solver. simpl. rewrite IH; [done|].
  intros. apply Hf. set_solver.
Qed.
(** A loop over [f] returns when [f] returns on every element. *)
Lemma mapM_result_Forall (f : A → result B) (P : B → Prop) (l : list A) :
  (∀ x, x ∈ l → ∃ v, f x = Ok v ∧ P v) → ∃ vs, mapM f l = Ok vs ∧ Forall P vs.
Proof.
  induction l as [|x l IH]; intros Hf; simpl; [by exists []|].
  destruct (Hf x) as (v & -> & Hv); [set_solver|]. simpl.
  destruct IH as (vs & -> & Hvs); [intros; apply Hf; set_solver|].
  exists (v :: vs). split; [done|by constructor].
Qed.

(** A property every successful iteration keeps holds of the loop's result. *)
Lemma foldM_invariant (P : A → Prop) (f : A → B → result A) (a r : A) (l : list B) :
  (∀ acc x acc', f acc x = Ok acc' → P acc → P acc') → P a → foldM f a l = Ok r → P r.
Proof.
  intros Hf. revert a. induction l as [|x l IH]; intros a Ha; cbn; [by intros [= <-]|].
  destruct (f a x) as [a'|] eqn:E; cbn; [|done]. apply IH. by eapply Hf.
Qed.

(** Every result of a successful loop over [f] is a result of [f]. *)
Lemma mapM_result_Forall_inv (f : A → result B) (P : B → Prop) (l : list A) (vs : list B) :
  (∀ x v, f x = Ok v → P v) → mapM f l = Ok vs → Forall P vs.
Proof.
  intros Hf. revert vs. induction l as [|x l IH]; intros vs; cbn; [by intros [= <-]|].
  destruct (f x) as [v|] eqn:E; cbn; [|done].
  destruct (mapM f l) as [ws|] eqn:E'; cbn; [|done]. intros [= <-].
  constructor; [by eapply Hf|by apply IH].
Qed.

(** A loop over [f] raises the first exception [f] raises. *)
Lemma mapM_result_raise (f : A → result B) (l1 l2 : list A) (x : A) (e : py_error) :
  (∀ y, y ∈ l1 → ∃ v, f y = Ok v) → f x = Err e → mapM f (l1 ++ x :: l2) = Err e.
Proof.
  intros Hok Hx. induction l1 as [|y l1 IH]; simpl.
  - by rewrite Hx.
  - destruct (Hok y) as [v ->]; [set_solver|]. simpl.
    rewrite IH; [done|]. intros. apply Hok. set_solver.
Qed.
End ResultLemmas.

Lemma filter_none {A} (P : A → Prop) `{∀ x, Decision (P x)} (l : list A) :
  Forall (λ x, ¬ P x) l → filter P l = [].
Proof.
  induction 1 as [|x l Hx _ IH]; [done|]. by rewrite filter_cons_False.
Qed.
