(* ===== verification/NdArray.v ===== *)
(** * The numpy operations the script uses

    A 3-D array is a nested list (layer, row, column); a 4-D array is a list
    of those.  Python's negative indices and its [IndexError] are written
    out in [py_index]; [a[l, r, c] += x] is [iadd3]; [np.zeros], [np.arange],
    the C-order [reshape] and [ravel], [np.unravel_index], [np.argwhere] and
    the element-wise [==] follow numpy's documented semantics (numpy is a
    library the script calls, not code of the repository). *)
From S2P Require Import Prelude.
From stdpp Require Import base list sets.
From Stdlib Require Import ZArith Lia.

Abbreviation coord := (Z * Z * Z)%type.
Abbreviation array3 A := (list (list (list A))).

(** ** Indexing *)

(** Python's normalisation of index [i] into a sequence of length [n]. *)
Definition py_index (n : nat) (i : Z) : result nat :=
  if decide (0 ≤ i < Z.of_nat n)%Z then Ok (Z.to_nat i)
  else if decide (- Z.of_nat n ≤ i < 0)%Z then Ok (Z.to_nat (i + Z.of_nat n))
  else Err IndexError.

(** [l[i]] *)
Definition py_get {A} (l : list A) (i : Z) : result A :=
  n ← py_index (length l) i; of_option IndexError (l !! n).

(** [l[i] = f(l[i])], raising what [f] raises. *)
Definition py_modify {A} (f : A → result A) (l : list A) (i : Z) : result (list A) :=
  n ← py_index (length l) i;
  x ← of_option IndexError (l !! n);
  y ← f x;
  Ok (<[n := y]> l).

(** [a[l, r, c]] *)
Definition get3 {A} (a : array3 A) (ix : coord) : result A :=
  let '(l, r, c) := ix in
  pl ← py_get a l; row ← py_get pl r; py_get row c.

(** [a[l, r, c] += x] *)
Definition iadd3 `{Num V} (a : array3 V) (ix : coord) (x : V) : result (array3 V) :=
  let '(l, r, c) := ix in
  py_modify (λ pl, py_modify (λ row, py_modify (λ v, Ok (v ⊕ x)) row c) pl r) a l.

(** The element at list positions [(i, j, k)], when there is one. *)
Definition at3 {A} (a : array3 A) (i j k : nat) : option A :=
  a !! i ≫= λ pl, pl !! j ≫= λ row, row !! k.

(** [a.shape == (L, R, C)] *)
Definition shape3 {A} (L R C : nat) (a : array3 A) : Prop :=
  length a = L ∧ Forall (λ pl, length pl = R ∧ Forall (λ row, length row = C) pl) a.

#[export] Instance shape3_dec {A} L R C (a : array3 A) : Decision (shape3 L R C a).
Proof. unfold shape3. apply _. Defined.

(** ** Constructors *)

(** [np.zeros((L, R, C))] *)
Definition np_zeros3 `{Num V} (L R C : nat) : array3 V :=
  replicate L (replicate R (replicate C 𝟎)).

(** [np.arange(start, stop)] *)
Definition np_arange (start stop : Z) : list Z := seqZ start (stop - start).

(** Splitting a buffer into [k] consecutive pieces of [n] elements. *)
Fixpoint chunks {A} (k n : nat) (l : list A) : list (list A) :=
  match k with
  | 0 => []
  | S k' => take n l :: chunks k' n (drop n l)
  end.

(** [flat.reshape((L, R, C))]: C order; [ValueError] on a size mismatch. *)
Definition np_reshape3 {A} (L R C : nat) (flat : list A) : result (array3 A) :=
  if decide (length flat = L * R * C) then Ok (chunks R C <$> chunks L (R * C) flat)
  else Err ValueError.

(** [a.ravel()]: the elements in C order. *)
Definition np_ravel3 {A} (a : array3 A) : list A := concat (concat a).

(** The shape numpy records for a well-formed nested list. *)
Definition dims3 {A} (a : array3 A) : nat * nat * nat :=
  (length a, default 0 (length <$> head a), default 0 (length <$> (head a ≫= head))).

(** [a == v], element-wise. *)
Definition np_eq3 {A} `{EqDecision A} (a : array3 A) (v : A) : array3 bool :=
  map (map (map (λ x, bool_decide (x = v)))) a.

(** [np.unravel_index(n, (L, R, C))] for an in-range flat index: numpy
    takes the remainders from the last axis to the first. *)
Definition np_unravel_index3 (shape : nat * nat * nat) (n : nat) : coord :=
  let '(L, R, C) := shape in
  (Z.of_nat ((n / C / R) mod L), Z.of_nat ((n / C) mod R), Z.of_nat (n mod C)).

(** The flat positions of the [true] elements, from position [i] on. *)
Fixpoint flatnonzero_from (i : nat) (l : list bool) : list nat :=
  match l with
  | [] => []
  | b :: l' => if b then i :: flatnonzero_from (S i) l' else flatnonzero_from (S i) l'
  end.

(** [np.argwhere(a)]: the multi-indices of the [true] elements, in C order
    ([np.transpose(np.nonzero(a))]). *)
Definition np_argwhere3 (a : array3 bool) : list coord :=
  np_unravel_index3 (dims3 a) <$> flatnonzero_from 0 (np_ravel3 a).

(** [f] applied at list positions [(i, j, k)]. *)
Definition alter3 {A} (f : A → A) (i j k : nat) (a : array3 A) : array3 A :=
  alter (alter (alter f k) j) i a.

(** ** Reshape and ravel *)

Section Reshape.
Context {A : Type}.

Lemma length_chunks (k n : nat) (l : list A) : length (chunks k n l) = k.
Proof. revert l. induction k; intros l; simpl; auto. Qed.

Lemma chunks_lengths (k n : nat) (l : list A) :
  length l = k * n → Forall (λ x, length x = n) (chunks k n l).
Proof.
  revert l. induction k as [|k IH]; intros l Hl; simpl; constructor.
  - rewrite length_take. lia.
  - apply IH. rewrite length_drop. lia.
Qed.

Lemma concat_chunks (k n : nat) (l : list A) :
  length l = k * n → concat (chunks k n l) = l.
Proof.
  revert l. induction k as [|k IH]; intros l Hl; simpl.
  - symmetry. apply nil_length_inv. lia.
  - rewrite IH by (rewrite length_drop; lia). apply take_drop.
Qed.

Lemma np_reshape3_ok (L R C : nat) (flat : list A) :
  length flat = L * R * C →
  np_reshape3 L R C flat = Ok (chunks R C <$> chunks L (R * C) flat).
Proof. intros H. unfold np_reshape3. by rewrite decide_True. Qed.

(** Reshaping then ravelling gives the buffer back. *)
Lemma np_ravel3_reshape3 (L R C : nat) (flat : list A) (a : array3 A) :
  np_reshape3 L R C flat = Ok a → np_ravel3 a = flat.
Proof.
  unfold np_reshape3. case_decide as Hl; [|done]. intros [= <-].
  unfold np_ravel3. rewrite <- (concat_chunks L (R * C) flat) at 2 by lia.
  assert (Hf := chunks_lengths L (R * C) flat ltac:(lia)).
  revert Hf; generalize (chunks L (R * C) flat); intros xs Hf.
  induction Hf as [|x xs' Hx _ IH]; [done|].
  rewrite fmap_cons. cbn [concat]. rewrite concat_app, IH, concat_chunks by lia. done.
Qed.

Lemma np_reshape3_shape (L R C : nat) (flat : list A) (a : array3 A) :
  np_reshape3 L R C flat = Ok a → shape3 L R C a.
Proof.
  unfold np_reshape3. case_decide as Hl; [|done]. intros [= <-]. split.
  - by rewrite length_fmap, length_chunks.
  - apply Forall_fmap. eapply Forall_impl; [apply chunks_lengths; lia|].
    intros x Hx. split; [apply length_chunks|]. by apply chunks_lengths.
Qed.

Lemma dims3_shape (L R C : nat) (a : array3 A) :
  shape3 L R C a → 0 < L → 0 < R → dims3 a = (L, R, C).
Proof.
  intros [HL HF] HL0 HR0. destruct a as [|pl a]; simpl in *; [lia|].
  apply Forall_cons in HF as [[HR HFr] _].
  destruct pl as [|row pl]; simpl in *; [lia|].
  apply Forall_cons in HFr as [HC _]. unfold dims3; simpl. by rewrite HL, HR, HC.
Qed.
End Reshape.

Lemma np_ravel3_map {A B} (f : A → B) (a : array3 A) :
  np_ravel3 (map (map (map f)) a) = map f (np_ravel3 a).
Proof.
  unfold np_ravel3. induction a as [|pl a IH]; simpl; [done|].
  rewrite !concat_app, IH, map_app. f_equal.
  clear. induction pl; simpl; [done|]. by rewrite map_app, IHpl.
Qed.

Lemma np_eq3_shape {A} `{EqDecision A} L R C (a : array3 A) (v : A) :
  shape3 L R C a → shape3 L R C (np_eq3 a v).
Proof.
  intros [HL HF]. unfold np_eq3. split; [by rewrite length_map|].
  apply Forall_map. eapply Forall_impl; [exact HF|]. intros pl [HR HFr].
  split; [by rewrite length_map|]. apply Forall_map.
  eapply Forall_impl; [exact HFr|]. intros row HC. by rewrite length_map.
Qed.

(** ** Flat positions and [unravel_index] *)

Lemma np_arange_cons (m : Z) (n : nat) :
  np_arange m (m + Z.of_nat (S n)) = m :: np_arange (m + 1) (m + 1 + Z.of_nat n).
Proof.
  unfold np_arange. rewrite seqZ_cons by lia. f_equal; f_equal; lia.
Qed.

(** Exactly one element of [np.arange(m, m+n) == v] is true, at [v - m],
    when [v] is in range, and none otherwise. *)
Lemma flatnonzero_arange (i : nat) (m v : Z) (n : nat) :
  flatnonzero_from i (map (λ x, bool_decide (x = v)) (np_arange m (m + Z.of_nat n))) =
  if decide (m ≤ v < m + Z.of_nat n)%Z then [i + Z.to_nat (v - m)] else [].
Proof.
  revert i m. induction n as [|n IH]; intros i m.
  - unfold np_arange. rewrite Z.add_0_r, Z.sub_diag. simpl.
    rewrite decide_False by lia. done.
  - rewrite np_arange_cons. simpl. rewrite IH.
    case_bool_decide as Hv.
    + subst v. rewrite decide_False, decide_True by lia. f_equal. lia.
    + destruct (decide (m + 1 ≤ v < m + 1 + Z.of_nat n)%Z);
        [rewrite decide_True by lia | rewrite decide_False by lia]; [|done].
      f_equal. lia.
Qed.

(** The multi-index [np.unravel_index] gives to an in-range flat index lies
    in the grid, and flattens back to it. *)
Lemma np_unravel_index3_spec (L R C n : nat) :
  n < L * R * C →
  let '(l, r, c) := np_unravel_index3 (L, R, C) n in
  (0 ≤ l < Z.of_nat L ∧ 0 ≤ r < Z.of_nat R ∧ 0 ≤ c < Z.of_nat C)%Z ∧
  Z.of_nat n = (l * (Z.of_nat R * Z.of_nat C) + r * Z.of_nat C + c)%Z.
Proof.
  intros Hn. simpl.
  assert (HC : C ≠ 0) by (intros ->; lia).
  assert (HR : R ≠ 0) by (intros ->; lia).
  pose proof (Nat.div_mod_eq n C) as E1. pose proof (Nat.mod_upper_bound n C HC).
  pose proof (Nat.div_mod_eq (n / C) R) as E2.
  pose proof (Nat.mod_upper_bound (n / C) R HR).
  assert (Hq : n / C / R < L).
  { rewrite Nat.Div0.div_div. apply Nat.Div0.div_lt_upper_bound. nia. }
  rewrite (Nat.mod_small (n / C / R) L Hq). split; [lia|]. nia.
Qed.

(** ** Indexing at in-range positions *)

Section Indexing.
Context {A : Type}.

Lemma py_index_nat (n i : nat) : i < n → py_index n (Z.of_nat i) = Ok i.
Proof. intros Hi. unfold py_index. rewrite decide_True by lia. f_equal. lia. Qed.

Lemma py_index_out (n : nat) (i : Z) :
  (i < - Z.of_nat n ∨ Z.of_nat n ≤ i)%Z → py_index n i = Err IndexError.
Proof. intros Hi. unfold py_index. by rewrite !decide_False by lia. Qed.

Lemma insert_as_alter (f : A → A) (l : list A) (i : nat) (x : A) :
  l !! i = Some x → <[i := f x]> l = alter f i l.
Proof.
  intros Hx. apply list_eq. intros j. rewrite list_lookup_alter.
  destruct (decide (i = j)) as [<-|Hne].
  - rewrite list_lookup_insert_eq, Hx by (eapply lookup_lt_Some; eauto). done.
  - by rewrite list_lookup_insert_ne.
Qed.

Lemma py_get_nat (l : list A) (i : nat) (x : A) :
  l !! i = Some x → py_get l (Z.of_nat i) = Ok x.
Proof.
  intros Hx. unfold py_get. rewrite py_index_nat by (eapply lookup_lt_Some; eauto).
  simpl. by rewrite Hx.
Qed.

Lemma py_modify_nat (f : A → result A) (g : A → A) (l : list A) (i : nat) (x : A) :
  l !! i = Some x → f x = Ok (g x) → py_modify f l (Z.of_nat i) = Ok (alter g i l).
Proof.
  intros Hx Hf. unfold py_modify.
  rewrite py_index_nat by (eapply lookup_lt_Some; eauto). simpl.
  rewrite Hx. simpl. rewrite Hf. simpl. by rewrite (insert_as_alter g l i x).
Qed.

Lemma at3_alter3 (f : A → A) (a : array3 A) (i j k i' j' k' : nat) :
  at3 (alter3 f i j k a) i' j' k' =
  if decide ((i', j', k') = (i, j, k)) then f <$> at3 a i j k else at3 a i' j' k'.
Proof.
  unfold at3, alter3. rewrite list_lookup_alter.
  destruct (decide (i = i')) as [<-|Hi]; [|rewrite decide_False by congruence; done].
  destruct (a !! i) as [pl|]; simpl; [|by case_decide].
  rewrite list_lookup_alter.
  destruct (decide (j = j')) as [<-|Hj]; [|rewrite decide_False by congruence; done].
  destruct (pl !! j) as [row|]; simpl; [|by case_decide].
  rewrite list_lookup_alter.
  destruct (decide (k = k')) as [<-|Hk]; [by rewrite decide_True|].
  by rewrite decide_False by congruence.
Qed.

Lemma shape3_alter3 (f : A → A) L R C (a : array3 A) i j k :
  shape3 L R C a → shape3 L R C (alter3 f i j k a).
Proof.
  intros [HL HF]. unfold alter3. split; [by rewrite length_alter|].
  apply Forall_alter; [done|]. intros pl _ [HR HFr].
  split; [by rewrite length_alter|]. apply Forall_alter; [done|].
  intros row _ HC. by rewrite length_alter.
Qed.

(** In a well-shaped array the element at [(i, j, k)] exists exactly
    when the position is inside the shape. *)
Lemma at3_shape L R C (a : array3 A) i j k :
  shape3 L R C a → i < L → j < R → k < C → ∃ x, at3 a i j k = Some x.
Proof.
  intros [HL HF] Hi Hj Hk. unfold at3.
  destruct (lookup_lt_is_Some_2 a i) as [pl Hpl]; [lia|]. rewrite Hpl. simpl.
  destruct (Forall_lookup_1 _ _ _ _ HF Hpl) as [HR HFr].
  destruct (lookup_lt_is_Some_2 pl j) as [row Hrow]; [lia|]. rewrite Hrow. simpl.
  pose proof (Forall_lookup_1 _ _ _ _ HFr Hrow) as HC. simpl in HC.
  apply lookup_lt_is_Some_2. lia.
Qed.
End Indexing.

(** [a[i, j, k] += x] at an existing position adds [x] on the right of the
    element there and changes nothing else. *)
Lemma iadd3_alter3 `{Num V} (a : array3 V) (i j k : nat) (x v : V) :
  at3 a i j k = Some v →
  iadd3 a (Z.of_nat i, Z.of_nat j, Z.of_nat k) x = Ok (alter3 (λ w, w ⊕ x) i j k a).
Proof.
  unfold at3, iadd3, alter3. intros Hv.
  destruct (a !! i) as [pl|] eqn:Hpl; simpl in Hv; [|done].
  destruct (pl !! j) as [row|] eqn:Hrow; simpl in Hv; [|done].
  eapply py_modify_nat; [exact Hpl|]. eapply py_modify_nat; [exact Hrow|].
  by eapply py_modify_nat.
Qed.

Lemma at3_zeros `{Num V} (L R C i j k : nat) :
  i < L → j < R → k < C → at3 (np_zeros3 (V:=V) L R C) i j k = Some 𝟎.
Proof.
  intros. unfold at3, np_zeros3. rewrite lookup_replicate_2 by done. simpl.
  rewrite lookup_replicate_2 by done. simpl. by rewrite lookup_replicate_2.
Qed.

Lemma shape3_zeros `{Num V} (L R C : nat) : shape3 L R C (np_zeros3 (V:=V) L R C).
Proof.
  unfold np_zeros3. split; [apply length_replicate|].
  apply Forall_replicate. split; [apply length_replicate|].
  apply Forall_replicate. apply length_replicate.
Qed.

(** What a successful [l[i] = f(l[i])] did: [f] ran on one existing element
    and its result replaced it. *)
Lemma py_modify_Ok {A} (f : A → result A) (l l' : list A) (i : Z) :
  py_modify f l i = Ok l' → ∃ n x y, l !! n = Some x ∧ f x = Ok y ∧ l' = <[n := y]> l.
Proof.
  unfold py_modify. destruct (py_index _ i) as [n|]; [|done]. cbn [mbind result_bind].
  destruct (l !! n) as [x|] eqn:Hx; [|done]. cbn. destruct (f x) as [y|] eqn:Hy; [|done].
  intros [= <-]. by exists n, x, y.
Qed.

(** [a[l, r, c] += x] never changes the shape of [a], wherever it writes
    (negative indices included). *)
Lemma iadd3_shape3 `{Num V} L R C (a a' : array3 V) (ix : coord) (x : V) :
  iadd3 a ix x = Ok a' → shape3 L R C a → shape3 L R C a'.
Proof.
  destruct ix as [[l r] c]. unfold iadd3. intros Hm [HL HF].
  apply py_modify_Ok in Hm as (n & pl & pl' & Hpl & Hm & ->).
  apply py_modify_Ok in Hm as (m & row & row' & Hrow & Hm & ->).
  apply py_modify_Ok in Hm as (o & v & v' & Hv & _ & ->).
  split; [by rewrite length_insert|]. apply Forall_insert; [done|].
  destruct (Forall_lookup_1 _ _ _ _ HF Hpl) as [HR HFr].
  split; [by rewrite length_insert|]. apply Forall_insert; [done|].
  rewrite length_insert. exact (Forall_lookup_1 _ _ _ _ HFr Hrow).
Qed.

#[export] Hint Resolve shape3_zeros shape3_alter3 np_eq3_shape : flux.
