(* ===== verification/PyObjects.v ===== *)
(** * Python objects by address

    numpy arrays are mutable objects that Python names and lists refer to.
    [riv_flx_step[lay, row, col] += flx] and [a[a == 0] = np.nan] write
    into an object in place; [np.zeros] and [.copy()] make a new one;
    [rivflx.append(riv_flx_step)] stores a reference, not a copy.  A
    [store] maps addresses to objects and knows the next free address;
    [alloc] is object creation, [store_write] an in-place update.  The
    lemmas are the frame rules the clients use: a new object takes an
    address no other object has, and writing one object changes no other. *)
From S2P Require Import Prelude.
From stdpp Require Import base list gmap.

Abbreviation loc := nat.

Record store (A : Type) := mk_store {
  objs : gmap loc A;
  next_free : loc
}.
Arguments mk_store {A} objs next_free.
Arguments objs {A} _.
Arguments next_free {A} _.

(** Every object sits below the next free address. *)
Definition store_wf {A} (s : store A) : Prop := map_Forall (λ l _, l < next_free s) (objs s).

#[export] Instance store_wf_dec {A} (s : store A) : Decision (store_wf s).
Proof. unfold store_wf. apply _. Defined.

(** A new object holding [a]. *)
Definition alloc {A} (s : store A) (a : A) : loc * store A :=
  (next_free s, mk_store (<[next_free s := a]> (objs s)) (S (next_free s))).

(** The object at [l] overwritten with [a], in place. *)
Definition store_write {A} (s : store A) (l : loc) (a : A) : store A :=
  mk_store (<[l := a]> (objs s)) (next_free s).

(** New objects for the values [xs], in order. *)
Fixpoint alloc_list {A} (s : store A) (xs : list A) : store A :=
  match xs with
  | [] => s
  | x :: xs' => alloc_list (alloc s x).2 xs'
  end.

Section StoreLemmas.
Context {A : Type}.
Implicit Types (s : store A) (a : A) (l : loc).

Lemma store_fresh s : store_wf s → objs s !! next_free s = None.
Proof.
  intros Hwf. destruct (objs s !! next_free s) as [a|] eqn:E; [|done].
  pose proof (Hwf _ _ E) as Hlt. cbn in Hlt. lia.
Qed.

Lemma store_below s l a : store_wf s → objs s !! l = Some a → l < next_free s.
Proof. intros Hwf Hl. exact (Hwf _ _ Hl). Qed.

Lemma alloc_store_wf s a : store_wf s → store_wf (alloc s a).2.
Proof.
  intros Hwf. apply map_Forall_insert_2; cbn; [lia|].
  intros l b Hl. pose proof (Hwf _ _ Hl) as Hlt. cbn in Hlt. lia.
Qed.

(** Allocation leaves every existing object alone. *)
Lemma alloc_lookup_old s a l : l < next_free s → objs (alloc s a).2 !! l = objs s !! l.
Proof. intros Hl. cbn. apply lookup_insert_ne. lia. Qed.

Lemma alloc_lookup_new s a : objs (alloc s a).2 !! (alloc s a).1 = Some a.
Proof. cbn. apply lookup_insert_eq. Qed.

Lemma store_write_wf s l a : store_wf s → l < next_free s → store_wf (store_write s l a).
Proof.
  intros Hwf Hl. apply map_Forall_insert_2; [done|]. intros l' b Hl'. exact (Hwf _ _ Hl').
Qed.

Lemma store_write_lookup_ne s l l' a : l' ≠ l → objs (store_write s l a) !! l' = objs s !! l'.
Proof. intros Hne. cbn. by apply lookup_insert_ne. Qed.

Lemma store_write_write s l a b : store_write (store_write s l a) l b = store_write s l b.
Proof. unfold store_write. cbn. by rewrite insert_insert_eq. Qed.

(** Writing into the object just made is making it with the written value. *)
Lemma alloc_write s a b : store_write (alloc s a).2 (alloc s a).1 b = (alloc s b).2.
Proof. unfold store_write, alloc. cbn. by rewrite insert_insert_eq. Qed.

(** Writing back what an object holds changes nothing. *)
Lemma store_write_id s l a : objs s !! l = Some a → store_write s l a = s.
Proof. destruct s as [m n]. unfold store_write. cbn. intros Hl. by rewrite insert_id. Qed.

Lemma alloc_list_next_free s xs : next_free (alloc_list s xs) = next_free s + length xs.
Proof.
  revert s. induction xs as [|x xs IH]; intros s; cbn; [lia|]. rewrite IH. cbn. lia.
Qed.

Lemma alloc_list_lookup_old s xs l : l < next_free s → objs (alloc_list s xs) !! l = objs s !! l.
Proof.
  revert s. induction xs as [|x xs IH]; intros s Hl; cbn; [done|].
  rewrite IH by (cbn; lia). by apply alloc_lookup_old.
Qed.

(** The [i]-th new object holds the [i]-th value. *)
Lemma alloc_list_lookup_new s xs i : objs (alloc_list s xs) !! (next_free s + i) = xs !! i ∨ length xs ≤ i.
Proof.
  revert s i. induction xs as [|x xs IH]; intros s i; cbn; [right; lia|].
  destruct i as [|i].
  - left. rewrite alloc_list_lookup_old by (cbn; lia). rewrite Nat.add_0_r. apply lookup_insert_eq.
  - destruct (IH (alloc s x).2 i) as [Hi|Hi]; [left|right; lia].
    cbn in Hi. by replace (next_free s + S i) with (S (next_free s) + i) by lia.
Qed.

(** Reading the new objects back gives the values. *)
Lemma alloc_list_contents s xs :
  mapM (λ l, objs (alloc_list s xs) !! l) (seq (next_free s) (length xs)) = Some xs.
Proof.
  apply mapM_Some, Forall2_lookup. intros i.
  destruct (decide (i < length xs)) as [Hi|Hi].
  - rewrite lookup_seq_lt by done. destruct (lookup_lt_is_Some_2 xs i Hi) as [x Hx].
    rewrite Hx. constructor. destruct (alloc_list_lookup_new s xs i) as [->|]; [done|lia].
  - rewrite lookup_seq_ge, lookup_ge_None_2 by lia. constructor.
Qed.

Lemma alloc_list_wf s xs : store_wf s → store_wf (alloc_list s xs).
Proof.
  revert s. induction xs as [|x xs IH]; intros s Hwf; cbn; [done|]. by apply IH, alloc_store_wf.
Qed.
End StoreLemmas.

#[export] Hint Resolve alloc_store_wf store_write_wf : flux.
