(* ===== verification/PyStrings.v ===== *)
(** * Python's string operations the script and flopy use

    [str.upper] and [str.lower] on ASCII characters, [needle in hay],
    [startswith] and [endswith], on Rocq strings (lists of 8-bit
    characters; the texts and paths of the script are ASCII).  flopy's text
    lookup (line 51) uses [upper] and [in]; [os.path.join] (line 14) uses
    the others. *)
From Stdlib Require Import Ascii String Bool Arith.
From Stdlib Require List.

(** [c.upper()] and [c.lower()] on an ASCII character. *)
Definition ascii_upper (c : ascii) : ascii :=
  let n := nat_of_ascii c in
  if (97 <=? n) && (n <=? 122) then ascii_of_nat (n - 32) else c.

Definition ascii_lower (c : ascii) : ascii :=
  let n := nat_of_ascii c in
  if (65 <=? n) && (n <=? 90) then ascii_of_nat (n + 32) else c.

Fixpoint py_upper (s : string) : string :=
  match s with
  | EmptyString => EmptyString
  | String c s' => String (ascii_upper c) (py_upper s')
  end.

Fixpoint py_lower (s : string) : string :=
  match s with
  | EmptyString => EmptyString
  | String c s' => String (ascii_lower c) (py_lower s')
  end.

(** [needle in hay]: [needle] is a prefix of some suffix of [hay]. *)
Fixpoint py_str_in (needle hay : string) : bool :=
  String.prefix needle hay ||
  match hay with
  | EmptyString => false
  | String _ hay' => py_str_in needle hay'
  end.

(** [s.startswith(p)] *)
Definition py_startswith (p s : string) : bool := String.prefix p s.

(** The last character of [s], if any ([s[-1]]). *)
Fixpoint str_last (s : string) : option ascii :=
  match s with
  | EmptyString => None
  | String c EmptyString => Some c
  | String _ s' => str_last s'
  end.

(** [s[-1] in chars], false on the empty string. *)
Definition py_last_in (chars s : string) : bool :=
  match str_last s with
  | Some c => py_str_in (String c EmptyString) chars
  | None => false
  end.

(** ** Lemmas on strings *)

Local Open Scope string_scope.

Lemma str_app_nil_r (s : string) : s ++ "" = s.
Proof. induction s as [|c s IH]; cbn; [reflexivity|rewrite IH; reflexivity]. Qed.

Lemma str_app_assoc (s t u : string) : (s ++ t) ++ u = s ++ (t ++ u).
Proof. induction s as [|c s IH]; cbn; [reflexivity|rewrite IH; reflexivity]. Qed.

Lemma prefix_empty (s : string) : prefix "" s = true.
Proof. destruct s; reflexivity. Qed.

(** A one-character needle is in [hay] when it equals one of its characters. *)
Lemma py_str_in_char (c : ascii) (hay : string) :
  py_str_in (String c EmptyString) hay = List.existsb (Ascii.eqb c) (list_ascii_of_string hay).
Proof.
  induction hay as [|d hay IH]; cbn; [reflexivity|]. rewrite IH.
  destruct (ascii_dec c d) as [->|Hne]; cbn; rewrite ?prefix_empty;
    [rewrite Ascii.eqb_refl; reflexivity|].
  apply Ascii.eqb_neq in Hne as ->. reflexivity.
Qed.

Lemma str_last_app (s t : string) : t <> "" -> str_last (s ++ t) = str_last t.
Proof.
  intros Ht. induction s as [|c s IH]; cbn; [reflexivity|].
  destruct s; cbn in *; [destruct t; [contradiction|reflexivity]|]. exact IH.
Qed.

Lemma substring_full (s : string) : substring 0 (length s) s = s.
Proof. induction s as [|c s IH]; cbn; [reflexivity|rewrite IH; reflexivity]. Qed.

(** [s[:n] + s[n:] == s] *)
Lemma substring_app (n : nat) (s : string) :
  n <= length s -> substring 0 n s ++ substring n (length s - n) s = s.
Proof.
  revert n. induction s as [|c s IH]; intros [|n] Hn; cbn in *;
    [reflexivity|inversion Hn|rewrite substring_full; reflexivity|].
  f_equal. apply IH. apply le_S_n, Hn.
Qed.

(** [s[n:] == s[n] + s[n+1:]] *)
Lemma substring_split1 (n : nat) (s : string) :
  n < length s ->
  substring n 1 s ++ substring (S n) (length s - S n) s = substring n (length s - n) s.
Proof.
  revert n. induction s as [|c s IH]; intros [|n] Hn; cbn in *; [inversion Hn..| |].
  - rewrite Nat.sub_0_r, substring_full. destruct s; reflexivity.
  - apply IH, Nat.succ_lt_mono, Hn.
Qed.

Lemma substring_beyond (n k : nat) (s : string) : length s <= n -> substring n k s = "".
Proof.
  revert n. induction s as [|c s IH]; intros [|n] Hn; cbn in *.
  - destruct k; reflexivity.
  - reflexivity.
  - inversion Hn.
  - apply IH, le_S_n, Hn.
Qed.

Lemma py_last_in_app (chars s t : string) : t <> "" -> py_last_in chars (s ++ t) = py_last_in chars t.
Proof. intros Ht. unfold py_last_in. rewrite str_last_app by exact Ht. reflexivity. Qed.

Lemma substring_one_ne (n : nat) (s : string) : n < length s -> substring n 1 s <> "".
Proof.
  revert n. induction s as [|c s IH]; intros [|n] Hn; cbn in *;
    [inversion Hn|inversion Hn|discriminate|apply IH, Nat.succ_lt_mono, Hn].
Qed.

Lemma str_app_ne_r (s t : string) : t <> "" -> s ++ t <> "".
Proof. destruct s; cbn; [exact (fun H => H)|discriminate]. Qed.
