(* ===== verification/CoordinateIndex.v ===== *)
(** * The cell-id table (script lines 29-39)

    The script builds [id_dict] by searching the reshaped [np.arange] for
    every id with [np.argwhere].  The spec (section 4.1) asks for the direct
    decomposition [resolve].  This file holds both, the interface
    [CellIndex] an accumulator needs from a cell table, and the theorems that
    the searched table is exactly the arithmetic one, that [resolve] and the
    row-major [flatten] are inverse bijections between the ids [0, L*R*C)
    and the grid, and that every id outside the range is a [KeyError]. *)
From S2P Require Import Prelude NdArray.
From stdpp Require Import base list gmap sets.
From Stdlib Require Import ZArith Lia.

Local Open Scope Z_scope.

(** ** The spec's arithmetic *)

(** Row-major flattening of a (layer, row, col) position. *)
Definition flatten (R C : nat) (ix : coord) : Z :=
  let '(l, r, c) := ix in l * (Z.of_nat R * Z.of_nat C) + r * Z.of_nat C + c.

(** The position is inside the (L, R, C) grid. *)
Definition in_grid (L R C : nat) (ix : coord) : Prop :=
  let '(l, r, c) := ix in
  0 ≤ l < Z.of_nat L ∧ 0 ≤ r < Z.of_nat R ∧ 0 ≤ c < Z.of_nat C.

#[export] Instance in_grid_dec L R C ix : Decision (in_grid L R C ix).
Proof. destruct ix as [[l r] c]. unfold in_grid. apply _. Defined.

(** layer = id div (R*C); remainder = id mod (R*C); row = remainder div C;
    col = remainder mod C. *)
Definition decompose (R C : nat) (cellID : Z) : coord :=
  let rc := Z.of_nat R * Z.of_nat C in
  let rem := cellID mod rc in
  (cellID / rc, rem / Z.of_nat C, rem mod Z.of_nat C).

(** [resolve(cellID)]; [None] is the spec's OutOfRange error. *)
Definition resolve (L R C : nat) (cellID : Z) : option coord :=
  if decide (0 ≤ cellID < Z.of_nat (L * R * C)) then Some (decompose R C cellID) else None.

(** ** The script's table *)

Section Table.
Context (L R C : nat).

(** [cell_list = np.arange(0, L*R*C)] *)
Definition cell_list : list Z := np_arange 0 (Z.of_nat (L * R * C)).

(** [cell_list_arr = cell_list.reshape((L, R, C))] *)
Definition cell_list_arr : result (array3 Z) := np_reshape3 L R C cell_list.

(** The loop body: [address = np.argwhere(cell_list_arr == val)[0]], then
    [id_dict.update({val: (lay, row, col)})]. *)
Definition id_dict_step (arr : array3 Z) (id_dict : gmap Z coord) (val : Z)
    : result (gmap Z coord) :=
  address ← py_get (np_argwhere3 (np_eq3 arr val)) 0;
  let '(lay, row, col) := address in
  Ok (<[val := (lay, row, col)]> id_dict).

(** Lines 30-39. *)
Definition build_id_dict : result (gmap Z coord) :=
  arr ← cell_list_arr;
  foldM (id_dict_step arr) ∅ cell_list.
End Table.

(** [id_dict[cellID]] (line 63). *)
Definition id_dict_lookup (id_dict : gmap Z coord) (cellID : Z) : result coord :=
  of_option KeyError (id_dict !! cellID).

(** The O(1) lookup the spec asks for in place of the table. *)
Definition resolve_lookup (L R C : nat) (cellID : Z) : result coord :=
  of_option KeyError (resolve L R C cellID).

(** ** The interface a cell table offers the accumulator *)

(** A lookup function is a cell index of the (L, R, C) grid when it
    resolves every id as the spec's [resolve] does, raising [KeyError]
    where [resolve] reports an id out of range. *)
Class CellIndex (L R C : nat) (lookup : Z → result coord) : Prop :=
  cell_index_spec : ∀ cellID, lookup cellID = of_option KeyError (resolve L R C cellID).

(** ** Arithmetic of the decomposition *)

Section Decompose.
Context (L R C : nat).

(** The decomposition of the flattening of a grid position is that
    position: the quotient and remainders are unique. *)
Lemma decompose_flatten (ix : coord) :
  in_grid L R C ix → decompose R C (flatten R C ix) = ix.
Proof.
  destruct ix as [[l r] c]. unfold in_grid, flatten, decompose. intros (Hl & Hr & Hc).
  assert (Hm : (l * (Z.of_nat R * Z.of_nat C) + r * Z.of_nat C + c)
                 mod (Z.of_nat R * Z.of_nat C) = r * Z.of_nat C + c).
  { symmetry. apply Z.mod_unique with (q := l); [left; nia | lia]. }
  rewrite Hm. f_equal; [f_equal|].
  - symmetry. apply Z.div_unique with (r := r * Z.of_nat C + c); [left; nia | lia].
  - symmetry. apply Z.div_unique with (r := c); [left; lia | lia].
  - symmetry. apply Z.mod_unique with (q := r); [left; lia | lia].
Qed.

(** An id in range decomposes to a grid position that flattens back. *)
Lemma decompose_in_grid (k : Z) :
  0 ≤ k < Z.of_nat (L * R * C) →
  in_grid L R C (decompose R C k) ∧ flatten R C (decompose R C k) = k.
Proof.
  intros Hk. rewrite !Nat2Z.inj_mul in Hk.
  assert (HRC : 0 < Z.of_nat R * Z.of_nat C) by nia.
  assert (HC : 0 < Z.of_nat C) by nia.
  unfold decompose, in_grid, flatten.
  pose proof (Z.div_mod k _ (Z.neq_sym _ _ (Z.lt_neq _ _ HRC))) as E1.
  pose proof (Z.mod_pos_bound k _ HRC) as B1.
  pose proof (Z.div_mod (k mod (Z.of_nat R * Z.of_nat C)) _ (Z.neq_sym _ _ (Z.lt_neq _ _ HC))) as E2.
  pose proof (Z.mod_pos_bound (k mod (Z.of_nat R * Z.of_nat C)) _ HC) as B2.
  assert (0 ≤ k / (Z.of_nat R * Z.of_nat C)) by (apply Z.div_pos; lia).
  assert (k / (Z.of_nat R * Z.of_nat C) < Z.of_nat L)
    by (apply Z.div_lt_upper_bound; nia).
  assert (0 ≤ k mod (Z.of_nat R * Z.of_nat C) / Z.of_nat C) by (apply Z.div_pos; lia).
  assert (k mod (Z.of_nat R * Z.of_nat C) / Z.of_nat C < Z.of_nat R)
    by (apply Z.div_lt_upper_bound; nia).
  split; [lia | nia].
Qed.

Lemma flatten_range (ix : coord) :
  in_grid L R C ix → 0 ≤ flatten R C ix < Z.of_nat (L * R * C).
Proof.
  destruct ix as [[l r] c]. unfold in_grid, flatten. intros (Hl & Hr & Hc).
  rewrite !Nat2Z.inj_mul.
  assert (l * (Z.of_nat R * Z.of_nat C) ≤ (Z.of_nat L - 1) * (Z.of_nat R * Z.of_nat C))
    by (apply Z.mul_le_mono_nonneg_r; lia).
  assert (r * Z.of_nat C ≤ (Z.of_nat R - 1) * Z.of_nat C)
    by (apply Z.mul_le_mono_nonneg_r; lia).
  nia.
Qed.

(** numpy's [unravel_index] and the spec's decomposition agree. *)
Lemma np_unravel_index3_decompose (n : nat) :
  (n < L * R * C)%nat → np_unravel_index3 (L, R, C) n = decompose R C (Z.of_nat n).
Proof.
  intros Hn. pose proof (np_unravel_index3_spec L R C n Hn) as Hs.
  destruct (np_unravel_index3 (L, R, C) n) as [[l r] c]. destruct Hs as [Hg Hf].
  rewrite Hf. symmetry. by apply (decompose_flatten (l, r, c)).
Qed.
(** An id in range resolves to list positions inside the grid. *)
Lemma resolve_nat (k : Z) :
  0 ≤ k < Z.of_nat (L * R * C) →
  ∃ i j c, resolve L R C k = Some (Z.of_nat i, Z.of_nat j, Z.of_nat c) ∧
           (i < L ∧ j < R ∧ c < C)%nat.
Proof.
  intros Hk. unfold resolve. rewrite decide_True by done.
  destruct (decompose_in_grid k Hk) as [Hg _].
  destruct (decompose R C k) as [[l r] c]. unfold in_grid in Hg.
  exists (Z.to_nat l), (Z.to_nat r), (Z.to_nat c). split; [repeat f_equal; lia | lia].
Qed.

(** The ids that flatten from a grid position: exactly the one that
    resolves to it. *)
Lemma resolve_nat_flatten (k : Z) (i0 j0 c0 i j c : nat) :
  resolve L R C k = Some (Z.of_nat i0, Z.of_nat j0, Z.of_nat c0) →
  (i < L ∧ j < R ∧ c < C)%nat →
  k = flatten R C (Z.of_nat i, Z.of_nat j, Z.of_nat c) ↔ (i, j, c) = (i0, j0, c0).
Proof.
  unfold resolve. case_decide as Hk; [|done]. intros HS Hb.
  assert (Hd : decompose R C k = (Z.of_nat i0, Z.of_nat j0, Z.of_nat c0)) by congruence.
  split.
  - intros ->. rewrite decompose_flatten in Hd by (unfold in_grid; lia).
    injection Hd as Hi Hj Hc. repeat f_equal; lia.
  - intros [= -> -> ->]. rewrite <- Hd. symmetry. by apply decompose_in_grid.
Qed.
End Decompose.

(** ** The searched table *)

Section TableLemmas.
Context (L R C : nat).

Lemma length_cell_list : length (cell_list L R C) = (L * R * C)%nat.
Proof. unfold cell_list, np_arange. rewrite length_seqZ. lia. Qed.

Lemma elem_of_cell_list (k : Z) : k ∈ cell_list L R C ↔ 0 ≤ k < Z.of_nat (L * R * C).
Proof. unfold cell_list, np_arange. rewrite elem_of_seqZ. lia. Qed.

Lemma cell_list_arr_ok :
  cell_list_arr L R C = Ok (chunks R C <$> chunks L (R * C) (cell_list L R C)).
Proof. apply np_reshape3_ok, length_cell_list. Qed.

(** [np.argwhere(cell_list_arr == val)] finds one address: [val]'s
    decomposition. *)
Lemma argwhere_cell_list_arr (arr : array3 Z) (v : Z) :
  cell_list_arr L R C = Ok arr → 0 ≤ v < Z.of_nat (L * R * C) →
  np_argwhere3 (np_eq3 arr v) = [decompose R C v].
Proof.
  intros Harr Hv. unfold np_argwhere3.
  assert (Hpos : (0 < L ∧ 0 < R ∧ 0 < L * R * C)%nat) by (rewrite !Nat2Z.inj_mul in Hv; nia).
  rewrite (dims3_shape L R C) by (try apply np_eq3_shape; try eapply np_reshape3_shape; eauto; lia).
  unfold np_eq3. rewrite np_ravel3_map, (np_ravel3_reshape3 _ _ _ _ _ Harr).
  unfold cell_list. rewrite <- (Z.add_0_l (Z.of_nat (L * R * C))).
  rewrite flatnonzero_arange, decide_True by lia.
  rewrite Nat.add_0_l, fmap_cons, fmap_nil, np_unravel_index3_decompose by lia.
  do 3 f_equal. lia.
Qed.

Lemma foldl_insert_lookup (f : Z → coord) (m : gmap Z coord) (l : list Z) (k : Z) :
  foldl (λ d v, <[v := f v]> d) m l !! k = if decide (k ∈ l) then Some (f k) else m !! k.
Proof.
  revert m. induction l as [|x l IH]; intros m; cbn [foldl].
  - by rewrite decide_False by set_solver.
  - rewrite IH. destruct (decide (k ∈ l)).
    + by rewrite decide_True by set_solver.
    + destruct (decide (x = k)) as [<-|Hne].
      * by rewrite lookup_insert_eq, decide_True by set_solver.
      * rewrite lookup_insert_ne by done. by rewrite decide_False by set_solver.
Qed.
End TableLemmas.

(** ** The spec's direct lookup *)

#[export] Instance resolve_lookup_cell_index L R C : CellIndex L R C (resolve_lookup L R C).
Proof. intros k. done. Qed.

(** The table the loop builds, written as the fold it computes. *)
Lemma build_id_dict_ok (L R C : nat) :
  build_id_dict L R C =
  Ok (foldl (λ d v, <[v := decompose R C v]> d) ∅ (cell_list L R C)).
Proof.
  unfold build_id_dict. rewrite cell_list_arr_ok. cbn [mbind result_bind].
  apply foldM_total. intros acc x Hx. apply elem_of_cell_list in Hx. unfold id_dict_step.
  rewrite (argwhere_cell_list_arr L R C) by (done || apply cell_list_arr_ok).
  by destruct (decompose R C x) as [[l r] c].
Qed.

Lemma decompose_table_lookup (L R C : nat) (cellID : Z) :
  foldl (λ (d : gmap Z coord) v, <[v := decompose R C v]> d) ∅ (cell_list L R C) !! cellID =
  resolve L R C cellID.
Proof.
  rewrite foldl_insert_lookup, lookup_empty. unfold resolve.
  destruct (decide (cellID ∈ cell_list L R C)) as [Hk|Hk];
    rewrite elem_of_cell_list in Hk; [by rewrite decide_True|by rewrite decide_False].
Qed.

(** Looking up the table the script builds answers as [resolve_lookup]. *)
Lemma table_lookup_resolve (L R C : nat) :
  pointwise_relation Z eq
    (id_dict_lookup (foldl (λ (d : gmap Z coord) v, <[v := decompose R C v]> d) ∅ (cell_list L R C)))
    (resolve_lookup L R C).
Proof. intros k. unfold id_dict_lookup, resolve_lookup. by rewrite decompose_table_lookup. Qed.

(** The searched table offers the accumulator the interface [CellIndex]. *)
Lemma id_dict_cell_index (L R C : nat) (id_dict : gmap Z coord) :
  build_id_dict L R C = Ok id_dict → CellIndex L R C (id_dict_lookup id_dict).
Proof.
  rewrite build_id_dict_ok. intros [= <-] k. unfold id_dict_lookup.
  by rewrite decompose_table_lookup.
Qed.

(** [resolve] is the inverse of the row-major flattening on the grid. *)
Lemma resolve_Some_iff (L R C : nat) (cellID : Z) (ix : coord) :
  resolve L R C cellID = Some ix ↔ in_grid L R C ix ∧ flatten R C ix = cellID.
Proof.
  unfold resolve. case_decide as Hk.
  - split.
    + intros [= <-]. by apply decompose_in_grid.
    + intros [Hg <-]. f_equal. by apply (decompose_flatten L).
  - split; [done|]. intros [Hg <-]. by apply flatten_range in Hg.
Qed.

(** ** Theorems *)

(** C1. Refinement of the O(n^2) table by the arithmetic: the script's
    loop (lines 30-39) terminates without raising on every grid, and the
    table it builds maps every id to exactly what the spec's [resolve]
    gives, and holds no other key. *)
Theorem build_id_dict_refines_resolve (L R C : nat) :
  ∃ id_dict, build_id_dict L R C = Ok id_dict ∧
             ∀ cellID, id_dict !! cellID = resolve L R C cellID.
Proof.
  eexists; split; [apply build_id_dict_ok|]. apply decompose_table_lookup.
Qed.

(** C2. The script's table is a bijection between the ids and the grid:
    [id_dict[cellID]] returns a position exactly when that position lies in
    the (L, R, C) grid and flattens (row-major) to [cellID], and raises
    [KeyError] exactly for the ids outside [0, L*R*C). *)
Theorem id_dict_lookup_bijection (L R C : nat) (id_dict : gmap Z coord) :
  build_id_dict L R C = Ok id_dict →
  (∀ cellID ix, id_dict_lookup id_dict cellID = Ok ix ↔
                in_grid L R C ix ∧ flatten R C ix = cellID) ∧
  (∀ cellID, id_dict_lookup id_dict cellID = Err KeyError ↔
             ¬ (0 ≤ cellID < Z.of_nat (L * R * C))).
Proof.
  rewrite build_id_dict_ok. intros [= <-]. unfold id_dict_lookup.
  split; intros k; rewrite decompose_table_lookup.
  - intros ix. rewrite <- resolve_Some_iff.
    destruct (resolve L R C k); simpl; split; intros; simplify_eq; done.
  - unfold resolve. case_decide; split; intros; simplify_eq/=; done.
Qed.

(** The hypothesis holds for the table of a 2 x 3 x 4 grid. *)
Lemma id_dict_lookup_bijection_witness :
  build_id_dict 2 3 4 = Ok (foldl (λ (d : gmap Z coord) v, <[v := decompose 3 4 v]> d) ∅ (cell_list 2 3 4)) ∧
  (∀ cellID ix,
     id_dict_lookup (foldl (λ (d : gmap Z coord) v, <[v := decompose 3 4 v]> d) ∅ (cell_list 2 3 4)) cellID = Ok ix ↔
     in_grid 2 3 4 ix ∧ flatten 3 4 ix = cellID) ∧
  (∀ cellID,
     id_dict_lookup (foldl (λ (d : gmap Z coord) v, <[v := decompose 3 4 v]> d) ∅ (cell_list 2 3 4)) cellID = Err KeyError ↔
     ¬ (0 ≤ cellID < Z.of_nat (2 * 3 * 4))).
Proof.
  split; [vm_compute; reflexivity|]. apply id_dict_lookup_bijection. vm_compute. reflexivity.
Defined.

(** C12. What the table does with an id one too large, as MODFLOW's
    1-based node number of a cell is: it resolves to the next cell in
    row-major order (one column to the right, or the start of the next row
    or layer), and the node number of the last cell raises [KeyError]. *)
Theorem id_dict_one_based_shift (L R C : nat) (id_dict : gmap Z coord) (l r c : nat) :
  build_id_dict L R C = Ok id_dict → (l < L)%nat → (r < R)%nat → (c < C)%nat →
  id_dict_lookup id_dict (flatten R C (Z.of_nat l, Z.of_nat r, Z.of_nat c) + 1) =
    if decide (c + 1 < C)%nat then Ok (Z.of_nat l, Z.of_nat r, Z.of_nat c + 1)
    else if decide (r + 1 < R)%nat then Ok (Z.of_nat l, Z.of_nat r + 1, 0)
    else if decide (l + 1 < L)%nat then Ok (Z.of_nat l + 1, 0, 0)
    else Err KeyError.
Proof.
  rewrite build_id_dict_ok. intros [= <-] Hl Hr Hc. unfold id_dict_lookup.
  rewrite decompose_table_lookup. unfold flatten.
  case_decide; [|case_decide; [|case_decide]].
  - rewrite (proj2 (resolve_Some_iff L R C _ (Z.of_nat l, Z.of_nat r, Z.of_nat c + 1))); [done|].
    unfold in_grid, flatten. split; lia.
  - rewrite (proj2 (resolve_Some_iff L R C _ (Z.of_nat l, Z.of_nat r + 1, 0))); [done|].
    unfold in_grid, flatten. split; [lia|]. assert (c + 1 = C)%nat by lia. nia.
  - rewrite (proj2 (resolve_Some_iff L R C _ (Z.of_nat l + 1, 0, 0))); [done|].
    unfold in_grid, flatten. split; [lia|].
    assert (c + 1 = C)%nat by lia. assert (r + 1 = R)%nat by lia. nia.
  - unfold resolve. rewrite decide_False; [done|]. rewrite !Nat2Z.inj_mul.
    assert (c + 1 = C)%nat by lia. assert (r + 1 = R)%nat by lia. assert (l + 1 = L)%nat by lia.
    nia.
Qed.

Lemma id_dict_one_based_shift_witness :
  build_id_dict 2 3 4 = Ok (foldl (λ (d : gmap Z coord) v, <[v := decompose 3 4 v]> d) ∅ (cell_list 2 3 4)) ∧
  (1 < 2)%nat ∧ (2 < 3)%nat ∧ (3 < 4)%nat ∧
  id_dict_lookup (foldl (λ (d : gmap Z coord) v, <[v := decompose 3 4 v]> d) ∅ (cell_list 2 3 4))
    (flatten 3 4 (Z.of_nat 1, Z.of_nat 2, Z.of_nat 3) + 1) =
    if decide (3 + 1 < 4)%nat then Ok (Z.of_nat 1, Z.of_nat 2, Z.of_nat 3 + 1)
    else if decide (2 + 1 < 3)%nat then Ok (Z.of_nat 1, Z.of_nat 2 + 1, 0)
    else if decide (1 + 1 < 2)%nat then Ok (Z.of_nat 1 + 1, 0, 0)
    else Err KeyError.
Proof.
  split_and!; [vm_compute; reflexivity|lia|lia|lia|].
  apply id_dict_one_based_shift; [vm_compute; reflexivity|lia|lia|lia].
Defined.
