(* ===== verification/BudgetFile.v ===== *)
(** * The budget-file reader (flopy's [CellBudgetFile], lines 16-19, 43, 51)

    flopy is a library: the script opens the file (line 16) and calls three
    of its methods: [get_unique_record_names()] (line 19, whose value it
    drops), [get_kstpkper()] (line 43) and [get_data(kstpkper=...,
    text=...)] (line 51).  The class [CellBudgetFile] states what the
    script receives from them, and [CellBudgetFileLaws] what flopy promises
    about the text: [get_data] first looks for the first record name that
    contains [text.upper()] (flopy's [_find_text]) and raises a bare
    [Exception] when there is none; otherwise it returns the data of the
    records of that name at that time step, possibly none.
    [list_unique_records()] (line 18) only prints.

    [archive_file] implements the class on an in-memory list of budget
    records, the way flopy indexes the records of a file: the record names
    and the (kstp, kper) keys in the order they first appear, and for a key
    and a name the data of every record that has both, in file order. *)
From S2P Require Import Prelude PyStrings.
From stdpp Require Import base list strings.
From Stdlib Require Import ZArith Ascii String.

Abbreviation kstpkper := (Z * Z)%type.

(** One entry of a list-type budget record: [entry[0]] is the cell id
    ([node]), [entry[1]] the flow ([q]).  This is the layout of a
    MODFLOW-2005 record of method 2 or 5, the script's river leakage; in a
    MODFLOW 6 record of method 6 [entry[1]] is a second node number, a
    layout the script does not handle and the model does not cover. *)
Record entry (V : Type) := mk_entry { node : Z; q : V }.
Arguments mk_entry {V} node q.
Arguments node {V} _.
Arguments q {V} _.

(** ** The reader's interface *)

Class CellBudgetFile (V : Type) := {
  get_unique_record_names : list string;
  get_kstpkper : list kstpkper;
  get_data : kstpkper → string → result (list (list (entry V)))
}.

(** flopy's [_find_text]: the first record name containing [text.upper()]. *)
Definition find_text (names : list string) (text : string) : result string :=
  of_option PyException (head (filter (λ n, py_str_in (py_upper text) n = true) names)).

(** What flopy promises about the text of [get_data]. *)
Class CellBudgetFileLaws (V : Type) `{CellBudgetFile V} : Prop := {
  get_data_unknown_text k text :
    find_text get_unique_record_names text = Err PyException →
    get_data k text = Err PyException;
  get_data_known_text k text text16 :
    find_text get_unique_record_names text = Ok text16 → is_ok (get_data k text) = true
}.

(** ** An in-memory budget file *)

(** One record of the file: its time step, its 16-character text, its list
    of entries. *)
Record budget_record (V : Type) := mk_record {
  rec_kstpkper : kstpkper;
  rec_text : string;
  rec_data : list (entry V)
}.
Arguments mk_record {V} rec_kstpkper rec_text rec_data.
Arguments rec_kstpkper {V} _.
Arguments rec_text {V} _.
Arguments rec_data {V} _.

(** Keep the first occurrence of each element, in order. *)
Fixpoint dedup_first {A} `{EqDecision A} (seen : list A) (l : list A) : list A :=
  match l with
  | [] => []
  | k :: l' => if decide (k ∈ seen) then dedup_first seen l' else k :: dedup_first (k :: seen) l'
  end.

Definition archive_record_names {V} (recs : list (budget_record V)) : list string :=
  dedup_first [] (rec_text <$> recs).

Definition archive_kstpkper {V} (recs : list (budget_record V)) : list kstpkper :=
  dedup_first [] (rec_kstpkper <$> recs).

Definition archive_get_data {V} (recs : list (budget_record V)) (k : kstpkper) (text : string)
    : result (list (list (entry V))) :=
  text16 ← find_text (archive_record_names recs) text;
  Ok (rec_data <$> filter (λ r, rec_kstpkper r = k ∧ rec_text r = text16) recs).

Definition archive_file {V} (recs : list (budget_record V)) : CellBudgetFile V := {|
  get_unique_record_names := archive_record_names recs;
  get_kstpkper := archive_kstpkper recs;
  get_data := archive_get_data recs
|}.

#[export] Instance archive_file_laws {V} (recs : list (budget_record V)) :
  CellBudgetFileLaws V (H := archive_file recs).
Proof.
  split; intros k text; cbn; unfold archive_get_data.
  - by intros ->.
  - intros text16 ->. done.
Qed.
