(* ===== verification/FluxAccumulator.v ===== *)
(** * The accumulation loop (script lines 42-70)

    For every (kstp, kper) of the file, in the file's order, the script
    takes the first record array of the text '   RIVER LEAKAGE'
    ([np.array(riv_rawdat)[0]]), starts a fresh [np.zeros((2,102,217))],
    and for each entry adds its flow at the cell's (layer, row, col); the
    step arrays are appended to [rivflx].  The cell table is a parameter:
    any lookup that satisfies the interface [CellIndex] (the script's
    [id_dict], or the spec's arithmetic [resolve_lookup]).

    The theorems: the value an accumulated volume holds at each cell is the
    flows of that cell's entries, added in record order onto zero
    ([cell_flux], the abstract specification of a step); the volume keeps
    the grid's shape; duplicates are summed, not overwritten; an id out of
    range, a step with no record of the text, or one whose record arrays
    have different lengths, aborts the run; the loop
    keeps the file's step order and returns a result whenever every step's
    data is well formed. *)
From S2P Require Import Prelude NdArray CoordinateIndex BudgetFile.
From stdpp Require Import base list strings sets.
From Stdlib Require Import ZArith Lia QArith Qcanon.
Local Close Scope Qc_scope.
Local Close Scope Q_scope.

(** [np.array(rows)[0]] for a list of record arrays: numpy stacks them
    (a [ValueError] when their lengths differ, as numpy does from 1.24 on;
    older numpy built an object array and returned its first element) and
    [[0]] raises [IndexError] on the empty stack. *)
Definition np_array_first {A} (rows : list (list A)) : result (list A) :=
  match rows with
  | [] => Err IndexError
  | r :: rs => if decide (Forall (λ r', length r' = length r) rs) then Ok r else Err ValueError
  end.

(** The budget text the script requests (line 51). *)
Definition RIVER_LEAKAGE : string := "   RIVER LEAKAGE".

(** Lines 51-56: [riv_rawdat = modobj.get_data(kstpkper=k, text=text)],
    then [np.array(riv_rawdat)[0]]. *)
Definition fetch_records `{CellBudgetFile V} (text : string) (k : kstpkper) : result (list (entry V)) :=
  riv_rawdat ← get_data k text;
  np_array_first riv_rawdat.

Section Accumulator.
Context `{Num V} `{CellBudgetFile V}.
Context (L R C : nat) (lookup : Z → result coord).

(** Lines 61-64: [cellID = entry[0]], [flx = entry[1]],
    [lay, row, col = id_dict[cellID]], [riv_flx_step[lay, row, col] += flx]. *)
Definition accumulate_entry (riv_flx_step : array3 V) (e : entry V) : result (array3 V) :=
  let cellID := node e in
  let flx := q e in
  ix ← lookup cellID;
  iadd3 riv_flx_step ix flx.

(** Lines 59-64: a fresh zero volume, then the loop over the entries. *)
Definition accumulate_records (riv_np : list (entry V)) : result (array3 V) :=
  foldM accumulate_entry (np_zeros3 L R C) riv_np.

(** Lines 51-64 for one (kstp, kper). *)
Definition process_step (text : string) (k : kstpkper) : result (array3 V) :=
  riv_np ← fetch_records text k;
  accumulate_records riv_np.

(** Lines 46-67: [rivflx.append(riv_flx_step)] for each step, in the order
    of [get_kstpkper()]. *)
Definition collect_steps (text : string) : result (list (array3 V)) :=
  foldM (λ rivflx k, riv_flx_step ← process_step text k; Ok (rivflx ++ [riv_flx_step]))
    [] get_kstpkper.
End Accumulator.

(** The abstract specification of a step: the value of a cell is the flows
    of the entries of that cell, added in record order onto zero. *)
Definition cell_flux `{Num V} (entries : list (entry V)) (cellID : Z) : V :=
  foldl (λ acc e, acc ⊕ q e) 𝟎 (filter (λ e, node e = cellID) entries).

(** Every entry names a cell of the (L, R, C) grid. *)
Definition entries_in_range {V} (L R C : nat) (entries : list (entry V)) : Prop :=
  Forall (λ e, 0 ≤ node e < Z.of_nat (L * R * C))%Z entries.

#[export] Instance entries_in_range_dec {V} L R C (es : list (entry V)) :
  Decision (entries_in_range L R C es).
Proof. unfold entries_in_range. apply _. Defined.

(** The data of a step is usable: a first record array, others of the
    same length, every id in range. *)
Definition step_data_ok `{CellBudgetFile V} (L R C : nat) (text : string) (k : kstpkper) : Prop :=
  ∃ es rest, get_data k text = Ok (es :: rest) ∧
    Forall (λ r, length r = length es) rest ∧ entries_in_range L R C es.

Section AccumulatorLemmas.
Context `{Num V} (L R C : nat) (lookup : Z → result coord) `{!CellIndex L R C lookup}.

Abbreviation flat_at i j k := (flatten R C (Z.of_nat i, Z.of_nat j, Z.of_nat k)).

(** One pass of the loop over the entries, from any volume of the grid's
    shape whose cells hold [g]: the loop does not raise, keeps the shape,
    and each cell ends with its entries' flows added onto [g]. *)
Lemma foldM_accumulate_spec (entries : list (entry V)) (vol0 : array3 V)
      (g : nat → nat → nat → V) :
  entries_in_range L R C entries →
  shape3 L R C vol0 →
  (∀ i j k, i < L → j < R → k < C → at3 vol0 i j k = Some (g i j k)) →
  ∃ vol, foldM (accumulate_entry lookup) vol0 entries = Ok vol ∧ shape3 L R C vol ∧
    ∀ i j k, i < L → j < R → k < C →
      at3 vol i j k =
        Some (foldl (λ acc e, acc ⊕ q e) (g i j k) (filter (λ e, node e = flat_at i j k) entries)).
Proof.
  revert vol0 g. induction entries as [|e es IH]; intros vol0 g Hin Hsh Hg.
  { exists vol0. split_and!; [done|done|]. intros. by rewrite Hg. }
  apply Forall_cons in Hin as [He Hes].
  destruct (resolve_nat L R C (node e) He) as (i0 & j0 & k0 & Hres & Hb).
  destruct (at3_shape L R C vol0 i0 j0 k0) as [v Hv]; [done|lia..|].
  assert (Hstep : accumulate_entry lookup vol0 e = Ok (alter3 (λ w, w ⊕ q e) i0 j0 k0 vol0)).
  { unfold accumulate_entry. rewrite cell_index_spec, Hres. cbn [of_option mbind result_bind].
    by rewrite (iadd3_alter3 _ _ _ _ _ v Hv). }
  rewrite foldM_cons, Hstep. cbn [mbind result_bind].
  destruct (IH (alter3 (λ w, w ⊕ q e) i0 j0 k0 vol0)
               (λ i j k, if decide ((i, j, k) = (i0, j0, k0)) then g i j k ⊕ q e else g i j k))
    as (vol & Hvol & Hsh' & Hat); [done|by apply shape3_alter3| |].
  { intros i j k Hi Hj Hk. rewrite at3_alter3.
    case_decide as Heq; [|by apply Hg]. injection Heq as -> -> ->.
    by rewrite Hv, (Hg i0 j0 k0) in * by lia; simplify_eq. }
  exists vol. split_and!; [done|done|]. intros i j k Hi Hj Hk.
  rewrite Hat by done. rewrite filter_cons.
  pose proof (resolve_nat_flatten L R C (node e) i0 j0 k0 i j k Hres ltac:(lia)) as Hiff.
  case_decide as Heq; case_decide as Hn; try reflexivity; exfalso; naive_solver.
Qed.
End AccumulatorLemmas.

Section StepLemmas.
Context `{Num V} `{CellBudgetFile V}.
Context (L R C : nat) (lookup : Z → result coord) `{!CellIndex L R C lookup}.

Lemma accumulate_records_ok (entries : list (entry V)) :
  entries_in_range L R C entries →
  ∃ vol, accumulate_records L R C lookup entries = Ok vol ∧ shape3 L R C vol ∧
    ∀ i j k, i < L → j < R → k < C →
      at3 vol i j k = Some (cell_flux entries (flatten R C (Z.of_nat i, Z.of_nat j, Z.of_nat k))).
Proof.
  intros Hin. apply foldM_accumulate_spec; [done|done|apply shape3_zeros|].
  intros. by apply at3_zeros.
Qed.

Lemma process_step_ok (text : string) (k : kstpkper) :
  step_data_ok L R C text k → ∃ vol, process_step L R C lookup text k = Ok vol ∧ shape3 L R C vol.
Proof.
  intros (es & rest & Hd & Hlen & Hin). unfold process_step, fetch_records. rewrite Hd.
  cbn [mbind result_bind np_array_first]. rewrite decide_True by done. cbn [mbind result_bind].
  destruct (accumulate_records_ok es Hin) as (vol & ? & ? & _). eauto.
Qed.

Lemma collect_steps_mapM (text : string) :
  collect_steps L R C lookup text = mapM (process_step L R C lookup text) get_kstpkper.
Proof.
  unfold collect_steps. rewrite foldM_append.
  by destruct (mapM (process_step L R C lookup text) get_kstpkper).
Qed.
End StepLemmas.

(** ** Shapes, whatever the cell table answers *)

Section AnyTable.
Context `{Num V} `{CellBudgetFile V} (L R C : nat) (lookup : Z → result coord).

(** One entry of the loop keeps the step's volume in the grid's shape. *)
Lemma accumulate_entry_shape (vol vol' : array3 V) (e : entry V) :
  accumulate_entry lookup vol e = Ok vol' → shape3 L R C vol → shape3 L R C vol'.
Proof.
  unfold accumulate_entry. destruct (lookup (node e)) as [ix|]; cbn;
    [apply iadd3_shape3|intros [= <-]; done].
Qed.

Lemma process_step_shape (text : string) (k : kstpkper) (vol : array3 V) :
  process_step L R C lookup text k = Ok vol → shape3 L R C vol.
Proof.
  unfold process_step. destruct (fetch_records _ _) as [riv_np|]; cbn; [|done].
  apply foldM_invariant; [intros ???; apply accumulate_entry_shape|apply shape3_zeros].
Qed.

(** A successful run returns one volume of the grid's shape per step. *)
Lemma collect_steps_shape (text : string) (vs : list (array3 V)) :
  collect_steps L R C lookup text = Ok vs →
  length vs = length get_kstpkper ∧ Forall (shape3 L R C) vs.
Proof.
  rewrite collect_steps_mapM. intros Hm. split; [by eapply mapM_result_length|].
  eapply mapM_result_Forall_inv; [|exact Hm]. apply process_step_shape.
Qed.
End AnyTable.

(** ** The loop depends on the cell table only through its answers *)

Section TableExtensionality.
Context `{Num V} `{CellBudgetFile V} (L R C : nat).

#[export] Instance accumulate_records_proper :
  Proper (pointwise_relation Z eq ==> eq ==> eq) (accumulate_records (V:=V) L R C).
Proof.
  intros l1 l2 Hl es ? <-. unfold accumulate_records. apply foldM_ext.
  intros vol e. unfold accumulate_entry. by rewrite Hl.
Qed.

#[export] Instance process_step_proper :
  Proper (pointwise_relation Z eq ==> eq ==> eq ==> eq) (process_step (V:=V) L R C).
Proof.
  intros l1 l2 Hl text ? <- k ? <-. unfold process_step.
  destruct (fetch_records _ _); [|done]. cbn [mbind result_bind]. by rewrite Hl.
Qed.

#[export] Instance collect_steps_proper :
  Proper (pointwise_relation Z eq ==> eq ==> eq) (collect_steps (V:=V) L R C).
Proof.
  intros l1 l2 Hl text ? <-. unfold collect_steps. apply foldM_ext.
  intros acc k. by rewrite Hl.
Qed.
End TableExtensionality.

(** ** Theorems *)

Section FluxTheorems.
Context `{Num V} `{CellBudgetFile V}.
Context (L R C : nat) (lookup : Z → result coord) `{!CellIndex L R C lookup}.

(** C3. One step computes the spec's volume: when the step's data has a
    first record array whose ids are in range, [process_step] returns a
    volume of the grid's shape whose cell at every grid position holds
    [cell_flux]: the flows of that cell's entries added in record order
    onto zero. *)
Theorem process_step_spec (text : string) (k : kstpkper) (es : list (entry V))
        (rest : list (list (entry V))) :
  get_data k text = Ok (es :: rest) →
  Forall (λ r, length r = length es) rest →
  entries_in_range L R C es →
  ∃ vol, process_step L R C lookup text k = Ok vol ∧ shape3 L R C vol ∧
    ∀ i j c, i < L → j < R → c < C →
      at3 vol i j c = Some (cell_flux es (flatten R C (Z.of_nat i, Z.of_nat j, Z.of_nat c))).
Proof.
  intros Hd Hlen Hin. unfold process_step, fetch_records. rewrite Hd.
  cbn [mbind result_bind np_array_first].
  rewrite decide_True by done. cbn [mbind result_bind]. by apply accumulate_records_ok.
Qed.

(** C4. Entries that share a cell are summed, not overwritten: with two
    entries for one cell (flows [a] then [b]) among entries for other
    cells, that cell ends with [0 + a + b], added in this order. *)
Theorem accumulate_duplicates_sum (es1 es2 es3 : list (entry V)) (a b : V) (i j c : nat) :
  i < L → j < R → c < C →
  Forall (λ e, node e ≠ flatten R C (Z.of_nat i, Z.of_nat j, Z.of_nat c)) (es1 ++ es2 ++ es3) →
  entries_in_range L R C (es1 ++ es2 ++ es3) →
  ∃ vol, accumulate_records L R C lookup
           (es1 ++ mk_entry (flatten R C (Z.of_nat i, Z.of_nat j, Z.of_nat c)) a :: es2 ++
            mk_entry (flatten R C (Z.of_nat i, Z.of_nat j, Z.of_nat c)) b :: es3) = Ok vol ∧
         at3 vol i j c = Some (𝟎 ⊕ a ⊕ b).
Proof.
  intros Hi Hj Hc Hne Hin.
  assert (Hid := flatten_range L R C (Z.of_nat i, Z.of_nat j, Z.of_nat c) ltac:(unfold in_grid; lia)).
  unfold entries_in_range in Hin. rewrite !Forall_app in Hne, Hin.
  destruct (accumulate_records_ok L R C lookup
              (es1 ++ mk_entry (flatten R C (Z.of_nat i, Z.of_nat j, Z.of_nat c)) a :: es2 ++
               mk_entry (flatten R C (Z.of_nat i, Z.of_nat j, Z.of_nat c)) b :: es3))
    as (vol & Hvol & _ & Hat).
  { unfold entries_in_range. repeat rewrite ?Forall_app, ?Forall_cons. cbn [node]. naive_solver. }
  exists vol. split; [done|]. rewrite Hat by done. unfold cell_flux.
  destruct Hne as (H1 & H2 & H3).
  rewrite filter_app, (filter_none _ es1 H1), filter_cons_True by done.
  rewrite filter_app, (filter_none _ es2 H2), filter_cons_True by done.
  by rewrite (filter_none _ es3 H3).
Qed.

(** C5. An id outside [0, L*R*C) aborts the step with [KeyError] (the
    spec's OutOfRange), whatever follows it, once the entries before it
    are in range. *)
Theorem accumulate_out_of_range (es1 es2 : list (entry V)) (e : entry V) :
  entries_in_range L R C es1 →
  ¬ (0 ≤ node e < Z.of_nat (L * R * C))%Z →
  accumulate_records L R C lookup (es1 ++ e :: es2) = Err KeyError.
Proof.
  intros Hin Hout. unfold accumulate_records. rewrite foldM_app.
  destruct (foldM_accumulate_spec L R C lookup es1 (np_zeros3 L R C) (λ _ _ _, 𝟎))
    as (vol & -> & _); [done|apply shape3_zeros|intros; by apply at3_zeros|].
  cbn [mbind result_bind].
  assert (He : accumulate_entry lookup vol e = Err KeyError).
  { unfold accumulate_entry. rewrite cell_index_spec. unfold resolve.
    by rewrite decide_False. }
  by rewrite foldM_cons, He.
Qed.

(** C6. A step with no record of the requested text aborts the whole run
    with [IndexError] ([np.array([])[0]]), once the steps before it
    succeed. *)
Theorem collect_steps_missing_text (text : string) (ks1 ks2 : list kstpkper) (k : kstpkper) :
  get_kstpkper = ks1 ++ k :: ks2 →
  Forall (step_data_ok L R C text) ks1 →
  get_data k text = Ok [] →
  collect_steps L R C lookup text = Err IndexError.
Proof.
  intros Hks Hok Hd. rewrite collect_steps_mapM, Hks. apply mapM_result_raise.
  - intros y Hy. rewrite Forall_forall in Hok.
    destruct (process_step_ok L R C lookup text y (Hok y Hy)) as (v & ? & _). eauto.
  - unfold process_step, fetch_records. by rewrite Hd.
Qed.

(** C7. The run keeps the file's step order: its result has one volume per
    (kstp, kper) of [get_kstpkper()], the n-th being the n-th step's. *)
Theorem collect_steps_order (text : string) (vs : list (array3 V)) :
  collect_steps L R C lookup text = Ok vs →
  length vs = length get_kstpkper ∧
  ∀ n k, get_kstpkper !! n = Some k →
    ∃ v, process_step L R C lookup text k = Ok v ∧ vs !! n = Some v.
Proof.
  rewrite collect_steps_mapM. intros Hm. split.
  - by apply mapM_result_length in Hm.
  - intros n k Hk. by eapply mapM_result_lookup.
Qed.

(** C8. The run returns: when every step's data is usable it produces one
    volume of the grid's shape per step, and on an empty step list the
    empty list. *)
Theorem collect_steps_total (text : string) :
  Forall (step_data_ok L R C text) get_kstpkper →
  ∃ vs, collect_steps L R C lookup text = Ok vs ∧
        length vs = length get_kstpkper ∧ Forall (shape3 L R C) vs.
Proof.
  intros Hok. rewrite collect_steps_mapM.
  destruct (mapM_result_Forall (process_step L R C lookup text) (shape3 L R C) get_kstpkper)
    as (vs & Hvs & Hsh).
  { intros k Hk. rewrite Forall_forall in Hok. by apply process_step_ok, Hok. }
  exists vs. split_and!; [done| |done]. by apply mapM_result_length in Hvs.
Qed.
(** C23. A step whose text appears in two record arrays of different
    lengths (two river packages, say) raises [ValueError] at line 54:
    [np.array] of ragged arrays fails (numpy 1.24 and later), although line
    56 would keep only the first array. *)
Theorem process_step_ragged (text : string) (k : kstpkper) (r1 r2 : list (entry V))
        (rest : list (list (entry V))) :
  get_data k text = Ok (r1 :: r2 :: rest) → length r2 ≠ length r1 →
  process_step L R C lookup text k = Err ValueError.
Proof.
  intros Hd Hne. unfold process_step, fetch_records. rewrite Hd.
  cbn [mbind result_bind np_array_first].
  rewrite decide_False; [done|]. by intros [? _]%Forall_cons.
Qed.
End FluxTheorems.

(** ** Witnesses on a 2 x 3 x 4 grid: id 5 is (0,1,1), id 17 is (1,1,1) *)

Lemma process_step_spec_witness :
  CellIndex 2 3 4 (resolve_lookup 2 3 4) ∧
  entries_in_range 2 3 4 [mk_entry 5 (Q2Qc 10); mk_entry 17 (Q2Qc 7); mk_entry 5 (Q2Qc (-2))] ∧
  ∃ vol, process_step (H0 := archive_file
           [mk_record (1, 1)%Z RIVER_LEAKAGE
              [mk_entry 5 (Q2Qc 10); mk_entry 17 (Q2Qc 7); mk_entry 5 (Q2Qc (-2))]])
           2 3 4 (resolve_lookup 2 3 4) RIVER_LEAKAGE (1, 1)%Z = Ok vol ∧ shape3 2 3 4 vol ∧
    ∀ i j c, i < 2 → j < 3 → c < 4 →
      at3 vol i j c = Some (cell_flux
        [mk_entry 5 (Q2Qc 10); mk_entry 17 (Q2Qc 7); mk_entry 5 (Q2Qc (-2))]
        (flatten 3 4 (Z.of_nat i, Z.of_nat j, Z.of_nat c))).
Proof.
  split; [apply _|]. split; [repeat constructor; simpl; lia|].
  apply (process_step_spec (H0 := archive_file _) 2 3 4 (resolve_lookup 2 3 4) RIVER_LEAKAGE
           (1, 1)%Z _ []); [reflexivity|constructor|repeat constructor; simpl; lia].
Defined.

Lemma accumulate_duplicates_sum_witness :
  CellIndex 2 3 4 (resolve_lookup 2 3 4) ∧ 0 < 2 ∧ 1 < 3 ∧ 1 < 4 ∧
  Forall (λ e : entry Qc, node e ≠ flatten 3 4 (Z.of_nat 0, Z.of_nat 1, Z.of_nat 1))
    ([mk_entry 17 (Q2Qc 7)] ++ [] ++ [mk_entry 0 (Q2Qc 1)]) ∧
  entries_in_range 2 3 4 ([mk_entry 17 (Q2Qc 7)] ++ [] ++ [mk_entry 0 (Q2Qc 1)]) ∧
  ∃ vol, accumulate_records 2 3 4 (resolve_lookup 2 3 4)
           ([mk_entry 17 (Q2Qc 7)] ++
            mk_entry (flatten 3 4 (Z.of_nat 0, Z.of_nat 1, Z.of_nat 1)) (Q2Qc 10) :: [] ++
            mk_entry (flatten 3 4 (Z.of_nat 0, Z.of_nat 1, Z.of_nat 1)) (Q2Qc (-2)) ::
            [mk_entry 0 (Q2Qc 1)]) = Ok vol ∧
         at3 vol 0 1 1 = Some (𝟎 ⊕ Q2Qc 10 ⊕ Q2Qc (-2)).
Proof.
  split; [apply _|]. split_and!; [lia|lia|lia|repeat constructor; simpl; lia
                                 |repeat constructor; simpl; lia|].
  apply (accumulate_duplicates_sum 2 3 4 (resolve_lookup 2 3 4)); try lia;
    repeat constructor; simpl; lia.
Defined.

Lemma accumulate_out_of_range_witness :
  CellIndex 2 3 4 (resolve_lookup 2 3 4) ∧
  entries_in_range 2 3 4 [mk_entry 5 (Q2Qc 1)] ∧
  ¬ (0 ≤ node (mk_entry 24 (Q2Qc 3)) < Z.of_nat (2 * 3 * 4))%Z ∧
  accumulate_records 2 3 4 (resolve_lookup 2 3 4)
    ([mk_entry 5 (Q2Qc 1)] ++ mk_entry 24 (Q2Qc 3) :: [mk_entry 6 (Q2Qc 1)]) = Err KeyError.
Proof.
  split; [apply _|]. split_and!; [repeat constructor; simpl; lia|simpl; lia|].
  apply (accumulate_out_of_range 2 3 4 (resolve_lookup 2 3 4));
    [repeat constructor; simpl; lia|simpl; lia].
Defined.

Lemma collect_steps_missing_text_witness :
  CellIndex 2 3 4 (resolve_lookup 2 3 4) ∧
  collect_steps (H0 := archive_file
      [mk_record (0, 0)%Z RIVER_LEAKAGE [mk_entry 5 (Q2Qc 1)];
       mk_record (0, 1)%Z "           WELLS" [mk_entry 6 (Q2Qc 2)]])
    2 3 4 (resolve_lookup 2 3 4) RIVER_LEAKAGE = Err IndexError.
Proof.
  split; [apply _|].
  apply (collect_steps_missing_text (H0 := archive_file _) 2 3 4 (resolve_lookup 2 3 4)
           RIVER_LEAKAGE [(0, 0)%Z] [] (0, 1)%Z); [reflexivity| |reflexivity].
  repeat constructor. exists [mk_entry 5 (Q2Qc 1)], [].
  split_and!; [reflexivity|constructor|repeat constructor; simpl; lia].
Defined.

Lemma collect_steps_order_witness :
  CellIndex 2 3 4 (resolve_lookup 2 3 4) ∧
  ∃ vs, collect_steps (H0 := archive_file
           [mk_record (0, 0)%Z RIVER_LEAKAGE [mk_entry 5 (Q2Qc 1)];
            mk_record (0, 1)%Z RIVER_LEAKAGE [mk_entry 6 (Q2Qc 2)]])
           2 3 4 (resolve_lookup 2 3 4) RIVER_LEAKAGE = Ok vs ∧
    length vs = length (get_kstpkper (CellBudgetFile := archive_file
           [mk_record (0, 0)%Z RIVER_LEAKAGE [mk_entry 5 (Q2Qc 1)];
            mk_record (0, 1)%Z RIVER_LEAKAGE [mk_entry 6 (Q2Qc 2)]])) ∧
    ∀ n k, get_kstpkper (CellBudgetFile := archive_file
           [mk_record (0, 0)%Z RIVER_LEAKAGE [mk_entry 5 (Q2Qc 1)];
            mk_record (0, 1)%Z RIVER_LEAKAGE [mk_entry 6 (Q2Qc 2)]]) !! n = Some k →
      ∃ v, process_step (H0 := archive_file
           [mk_record (0, 0)%Z RIVER_LEAKAGE [mk_entry 5 (Q2Qc 1)];
            mk_record (0, 1)%Z RIVER_LEAKAGE [mk_entry 6 (Q2Qc 2)]])
           2 3 4 (resolve_lookup 2 3 4) RIVER_LEAKAGE k = Ok v ∧ vs !! n = Some v.
Proof.
  split; [apply _|]. eexists. split; [vm_compute; reflexivity|].
  apply (collect_steps_order (H0 := archive_file _) 2 3 4 (resolve_lookup 2 3 4) RIVER_LEAKAGE).
  vm_compute. reflexivity.
Defined.

Lemma collect_steps_total_witness :
  CellIndex 2 3 4 (resolve_lookup 2 3 4) ∧
  ∃ vs, collect_steps (H0 := archive_file
           [mk_record (0, 0)%Z RIVER_LEAKAGE [mk_entry 5 (Q2Qc 1)];
            mk_record (0, 1)%Z RIVER_LEAKAGE []])
           2 3 4 (resolve_lookup 2 3 4) RIVER_LEAKAGE = Ok vs ∧
    length vs = length (get_kstpkper (CellBudgetFile := archive_file
           [mk_record (0, 0)%Z RIVER_LEAKAGE [mk_entry 5 (Q2Qc 1)];
            mk_record (0, 1)%Z RIVER_LEAKAGE []])) ∧ Forall (shape3 2 3 4) vs.
Proof.
  split; [apply _|].
  apply (collect_steps_total (H0 := archive_file _) 2 3 4 (resolve_lookup 2 3 4) RIVER_LEAKAGE).
  repeat constructor.
  - exists [mk_entry 5 (Q2Qc 1)], []. split_and!; [reflexivity|constructor|repeat constructor; simpl; lia].
  - exists [], []. split_and!; [reflexivity|constructor|constructor].
Defined.

Lemma process_step_ragged_witness :
  get_data (CellBudgetFile := archive_file
      [mk_record (0, 0)%Z RIVER_LEAKAGE [mk_entry 5 (Q2Qc 1)];
       mk_record (0, 0)%Z RIVER_LEAKAGE [mk_entry 6 (Q2Qc 2); mk_entry 7 (Q2Qc 3)]])
    (0, 0)%Z RIVER_LEAKAGE =
    Ok [[mk_entry 5 (Q2Qc 1)]; [mk_entry 6 (Q2Qc 2); mk_entry 7 (Q2Qc 3)]] ∧
  length [mk_entry 6 (Q2Qc 2); mk_entry 7 (Q2Qc 3)] ≠ length [mk_entry 5 (Q2Qc 1)] ∧
  process_step (H0 := archive_file
      [mk_record (0, 0)%Z RIVER_LEAKAGE [mk_entry 5 (Q2Qc 1)];
       mk_record (0, 0)%Z RIVER_LEAKAGE [mk_entry 6 (Q2Qc 2); mk_entry 7 (Q2Qc 3)]])
    2 3 4 (resolve_lookup 2 3 4) RIVER_LEAKAGE (0, 0)%Z = Err ValueError.
Proof.
  assert (Hd : get_data (CellBudgetFile := archive_file
      [mk_record (0, 0)%Z RIVER_LEAKAGE [mk_entry 5 (Q2Qc 1)];
       mk_record (0, 0)%Z RIVER_LEAKAGE [mk_entry 6 (Q2Qc 2); mk_entry 7 (Q2Qc 3)]])
    (0, 0)%Z RIVER_LEAKAGE =
    Ok [[mk_entry 5 (Q2Qc 1)]; [mk_entry 6 (Q2Qc 2); mk_entry 7 (Q2Qc 3)]]) by reflexivity.
  assert (Hne : length [mk_entry 6 (Q2Qc 2); mk_entry 7 (Q2Qc 3)] ≠ length [mk_entry 5 (Q2Qc 1)])
    by (cbn; lia).
  split_and!; [exact Hd|exact Hne|].
  exact (process_step_ragged (H0 := archive_file _) 2 3 4 (resolve_lookup 2 3 4) _ _ _ _ _ Hd Hne).
Defined.
