(* ===== verification/StepMachine.v ===== *)
(** * The main loop as a state machine (script lines 46-67)

    [collect_steps] gives the loop's result in one go.  Here the same loop
    is a small-step machine whose states are the points of the Python code
    between two statements: at the head of [for current_kstpkper in
    ckstpkper] ([Outer]), inside [for entry in riv_np] ([Inner], with the
    step's [riv_flx_step] and the entries left), after the loop ([Done]),
    or after an exception ([Raised]).  A configuration also carries what the
    script has printed so far: line 67 prints one line per finished step.

    The theorems: the machine is deterministic and its executable step
    function is its step relation; every reachable configuration satisfies
    the loop invariant (the steps done are a prefix of [get_kstpkper], one
    volume and one printed line each, every volume of the grid's shape);
    every configuration runs to a final one; the final configuration is
    [Done] with [collect_steps]'s volumes exactly when [collect_steps]
    succeeds, and [Raised] with its exception otherwise; a run that raises
    has printed exactly the steps before the failing one. *)
From S2P Require Import Prelude NdArray CoordinateIndex BudgetFile FluxAccumulator.
From stdpp Require Import base list strings relations.
From Stdlib Require Import ZArith Lia QArith Qcanon.
Local Close Scope Qc_scope.
Local Close Scope Q_scope.

(** The line printed at line 67, [print('finished processing step: ' +
    str(current_kstpkper))], by the step it names. *)
Inductive event := Finished (k : kstpkper).

#[export] Instance event_eq_dec : EqDecision event.
Proof. solve_decision. Defined.

(** The points of the loop. *)
Inductive state (V : Type) :=
  | Outer (rivflx : list (array3 V)) (ks : list kstpkper)
  | Inner (rivflx : list (array3 V)) (k : kstpkper) (riv_flx_step : array3 V)
          (riv_np : list (entry V)) (ks : list kstpkper)
  | Done (rivflx : list (array3 V))
  | Raised (err : py_error).
Arguments Outer {V} rivflx ks.
Arguments Inner {V} rivflx k riv_flx_step riv_np ks.
Arguments Done {V} rivflx.
Arguments Raised {V} err.

Abbreviation config V := (state V * list event)%type.

Section Machine.
Context `{Num V} `{CellBudgetFile V}.
Context (L R C : nat) (lookup : Z → result coord) (text : string).

(** One statement-level step of lines 46-67. *)
Inductive step : config V → config V → Prop :=
  (** Lines 51-59: fetch the step's records, keep the first array, start
      from [np.zeros]. *)
  | step_fetch rivflx k ks riv_np tr :
      fetch_records text k = Ok riv_np →
      step (Outer rivflx (k :: ks), tr) (Inner rivflx k (np_zeros3 L R C) riv_np ks, tr)
  (** Line 56 raising ([IndexError]) or line 54 ([ValueError]). *)
  | step_fetch_raise rivflx k ks err tr :
      fetch_records text k = Err err →
      step (Outer rivflx (k :: ks), tr) (Raised err, tr)
  (** Lines 61-64 for one entry. *)
  | step_entry rivflx k vol vol' e es ks tr :
      accumulate_entry lookup vol e = Ok vol' →
      step (Inner rivflx k vol (e :: es) ks, tr) (Inner rivflx k vol' es ks, tr)
  (** Line 63 ([KeyError]) or line 64 ([IndexError]) raising. *)
  | step_entry_raise rivflx k vol e es ks err tr :
      accumulate_entry lookup vol e = Err err →
      step (Inner rivflx k vol (e :: es) ks, tr) (Raised err, tr)
  (** Lines 66-67: append the volume, print the step. *)
  | step_append rivflx k vol ks tr :
      step (Inner rivflx k vol [] ks, tr) (Outer (rivflx ++ [vol]) ks, tr ++ [Finished k])
  (** The loop over the steps ends. *)
  | step_exit rivflx tr :
      step (Outer rivflx [], tr) (Done rivflx, tr).

(** Line 43, before the loop: [rivflx = []], nothing printed. *)
Definition init : config V := (Outer [] get_kstpkper, []).

Definition final (c : config V) : bool :=
  match c.1 with Done _ | Raised _ => true | _ => false end.

(** The step as a function. *)
Definition step_fn (c : config V) : option (config V) :=
  let '(s, tr) := c in
  match s with
  | Outer rivflx [] => Some (Done rivflx, tr)
  | Outer rivflx (k :: ks) =>
      Some (match fetch_records text k with
            | Ok riv_np => (Inner rivflx k (np_zeros3 L R C) riv_np ks, tr)
            | Err err => (Raised err, tr)
            end)
  | Inner rivflx k vol [] ks => Some (Outer (rivflx ++ [vol]) ks, tr ++ [Finished k])
  | Inner rivflx k vol (e :: es) ks =>
      Some (match accumulate_entry lookup vol e with
            | Ok vol' => (Inner rivflx k vol' es ks, tr)
            | Err err => (Raised err, tr)
            end)
  | Done _ | Raised _ => None
  end.

(** [n] steps of the machine, or fewer when it stops. *)
Fixpoint exec (n : nat) (c : config V) : config V :=
  match n with
  | 0 => c
  | S n' => match step_fn c with Some c' => exec n' c' | None => c end
  end.

(** The outer loop taken one whole step at a time: what the machine ends
    in from the head of the loop. *)
Fixpoint run_steps (rivflx : list (array3 V)) (ks : list kstpkper) (tr : list event) : config V :=
  match ks with
  | [] => (Done rivflx, tr)
  | k :: ks' =>
      match process_step L R C lookup text k with
      | Ok vol => run_steps (rivflx ++ [vol]) ks' (tr ++ [Finished k])
      | Err err => (Raised err, tr)
      end
  end.

(** The loop invariant, at each point of the loop. *)
Definition loop_inv (c : config V) : Prop :=
  match c with
  | (Outer rivflx ks, tr) =>
      ∃ done, get_kstpkper = done ++ ks ∧ tr = Finished <$> done ∧
        length rivflx = length done ∧ Forall (shape3 L R C) rivflx
  | (Inner rivflx k vol _ ks, tr) =>
      ∃ done, get_kstpkper = done ++ k :: ks ∧ tr = Finished <$> done ∧
        length rivflx = length done ∧ Forall (shape3 L R C) rivflx ∧ shape3 L R C vol
  | (Done rivflx, tr) =>
      tr = Finished <$> get_kstpkper ∧
        length rivflx = length get_kstpkper ∧ Forall (shape3 L R C) rivflx
  | (Raised _, tr) => ∃ done k rest, get_kstpkper = done ++ k :: rest ∧ tr = Finished <$> done
  end.
End Machine.

(** ** Deterministic relations *)

Section Deterministic.
Context {A : Type} (Rel : relation A).
Context (Hdet : ∀ x y z, Rel x y → Rel x z → y = z).

(** A deterministic relation reaches at most one normal form. *)
Lemma rtc_det_nf (x y z : A) : rtc Rel x y → rtc Rel x z → nf Rel y → nf Rel z → y = z.
Proof.
  intros Hy. revert z. induction Hy as [x|x x1 y Hx1 _ IH]; intros z Hz Hny Hnz.
  - apply rtc_inv in Hz as [->|(x2 & Hx2 & _)]; [done|]. destruct Hny. by exists x2.
  - apply rtc_inv in Hz as [<-|(x2 & Hx2 & Hz)]; [destruct Hnz; by exists x1|].
    rewrite (Hdet _ _ _ Hx1 Hx2) in IH. by apply IH.
Qed.
End Deterministic.

(** ** The step function, reachability, and the final configuration *)

Section MachineLemmas.
Context `{Num V} `{CellBudgetFile V}.
Context (L R C : nat) (lookup : Z → result coord) (text : string).

Abbreviation step' := (step L R C lookup text).

Lemma step_fn_spec (c c' : config V) : step' c c' ↔ step_fn L R C lookup text c = Some c'.
Proof.
  split.
  - destruct 1; cbn; repeat match goal with Hx : _ = _ |- _ => rewrite Hx end; done.
  - destruct c as [[rivflx [|k ks]|rivflx k vol [|e es] ks|rivflx|err] tr]; cbn; try done;
      repeat case_match; intros [= <-]; by constructor.
Qed.

Lemma step_det (c c1 c2 : config V) : step' c c1 → step' c c2 → c1 = c2.
Proof. rewrite !step_fn_spec. congruence. Qed.

(** The final configurations are exactly those with no step. *)
Lemma final_nf (c : config V) : final c = true ↔ nf step' c.
Proof.
  unfold nf, red. setoid_rewrite step_fn_spec.
  destruct c as [[rivflx [|k ks]|rivflx k vol [|e es] ks|rivflx|err] tr]; cbn;
    split; try done; try (intros _ [c' Hc']; done); intros Hn; destruct Hn; eauto.
Qed.

Lemma exec_rtc (n : nat) (c : config V) : rtc step' c (exec L R C lookup text n c).
Proof.
  revert c. induction n as [|n IH]; intros c; cbn; [done|].
  destruct (step_fn _ _ _ _ _ c) as [c'|] eqn:E; [|done].
  eapply rtc_l; [by apply step_fn_spec|apply IH].
Qed.

(** The loop over the entries of one step. *)
Lemma inner_run rivflx k vol es ks tr :
  rtc step' (Inner rivflx k vol es ks, tr)
    (match foldM (accumulate_entry lookup) vol es with
     | Ok vol' => (Inner rivflx k vol' [] ks, tr)
     | Err err => (Raised err, tr)
     end).
Proof.
  revert vol. induction es as [|e es IH]; intros vol; cbn; [done|].
  destruct (accumulate_entry lookup vol e) as [vol'|err] eqn:E; cbn.
  - eapply rtc_l; [by apply step_entry|apply IH].
  - apply rtc_once. by apply step_entry_raise.
Qed.

(** From the head of the loop the machine reaches [run_steps]. *)
Lemma outer_run rivflx ks tr : rtc step' (Outer rivflx ks, tr) (run_steps L R C lookup text rivflx ks tr).
Proof.
  revert rivflx tr. induction ks as [|k ks IH]; intros rivflx tr; cbn.
  { apply rtc_once. constructor. }
  unfold process_step. destruct (fetch_records text k) as [riv_np|err] eqn:Ef; cbn.
  - eapply rtc_l; [by apply step_fetch|]. etrans; [apply inner_run|].
    unfold accumulate_records. destruct (foldM _ _ _) as [vol|err]; [|done].
    eapply rtc_l; [apply step_append|apply IH].
  - apply rtc_once. by apply step_fetch_raise.
Qed.

Lemma run_steps_final rivflx ks tr : final (run_steps L R C lookup text rivflx ks tr) = true.
Proof.
  revert rivflx tr. induction ks as [|k ks IH]; intros; cbn; [done|]. by case_match.
Qed.

(** Every final configuration reachable from the start is [run_steps]'s. *)
Lemma reachable_final (c : config V) :
  rtc step' (init (V:=V)) c → final c = true → c = run_steps L R C lookup text [] get_kstpkper [].
Proof.
  intros Hc Hf. eapply rtc_det_nf; [apply step_det|exact Hc|apply outer_run| |];
    apply final_nf; [done|apply run_steps_final].
Qed.

Abbreviation process' := (process_step (V:=V) L R C lookup text).

Lemma run_steps_Ok rivflx ks tr vs :
  mapM process' ks = Ok vs →
  run_steps L R C lookup text rivflx ks tr = (Done (rivflx ++ vs), tr ++ (Finished <$> ks)).
Proof.
  revert rivflx tr vs. induction ks as [|k ks IH]; intros rivflx tr vs; cbn.
  - intros [= <-]. by rewrite !app_nil_r.
  - destruct (process' k) as [vol|]; cbn; [|done].
    destruct (mapM process' ks) as [vs'|] eqn:E; cbn; [|done]. intros [= <-].
    rewrite (IH _ _ vs') by done. by rewrite <- !app_assoc.
Qed.

(** A run that raises raised at the first step whose processing raises,
    after printing the steps before it. *)
Lemma run_steps_Raised rivflx ks tr tr' err :
  run_steps L R C lookup text rivflx ks tr = (Raised err, tr') ↔
  ∃ done k rest vs, ks = done ++ k :: rest ∧ tr' = tr ++ (Finished <$> done) ∧
    mapM process' done = Ok vs ∧ process' k = Err err.
Proof.
  revert rivflx tr. induction ks as [|k ks IH]; intros rivflx tr; cbn.
  { split; [done|]. intros ([|??] & ? & ? & ? & ? & _); done. }
  destruct (process' k) as [vol|err'] eqn:Ek.
  - rewrite IH. split.
    + intros (done & k' & rest & vs & -> & -> & Hd & Hk').
      exists (k :: done), k', rest, (vol :: vs). cbn. rewrite Ek, Hd. by rewrite <- app_assoc.
    + intros ([|k0 done] & k' & rest & vs & Hks & -> & Hd & Hk'); simplify_eq/=; [congruence|].
      rewrite Ek in Hd. cbn in Hd. destruct (mapM process' done) as [vs'|] eqn:E; [|done].
      exists done, k', rest, vs'. by rewrite <- app_assoc.
  - split.
    + intros [= -> <-]. exists [], k, ks, []. rewrite app_nil_r. done.
    + intros ([|k0 done] & k' & rest & vs & Hks & -> & Hd & Hk'); simplify_eq/=.
      * rewrite Ek in Hk'. simplify_eq. by rewrite app_nil_r.
      * by rewrite Ek in Hd.
Qed.

Lemma run_steps_Err rivflx ks tr err :
  mapM process' ks = Err err → ∃ tr', run_steps L R C lookup text rivflx ks tr = (Raised err, tr').
Proof.
  revert rivflx tr. induction ks as [|k ks IH]; intros rivflx tr; cbn; [done|].
  destruct (process' k) as [vol|]; cbn; [|intros [= ->]; eauto].
  destruct (mapM process' ks) eqn:E; cbn; [done|]. intros [= ->]. by apply IH.
Qed.

Lemma loop_inv_step (c c' : config V) : step' c c' → loop_inv L R C c → loop_inv L R C c'.
Proof.
  destruct 1 as [rivflx k ks riv_np tr Hf|rivflx k ks err tr Hf|rivflx k vol vol' e es ks tr He
                |rivflx k vol e es ks err tr He|rivflx k vol ks tr|rivflx tr]; cbn.
  - intros (done & Hk & -> & Hl & Hs). exists done. split_and!; auto with flux.
  - intros (done & Hk & -> & _). by exists done, k, ks.
  - intros (done & Hk & -> & Hl & Hs & Hv). exists done.
    split_and!; try done. by eapply accumulate_entry_shape.
  - intros (done & Hk & -> & _). by exists done, k, ks.
  - intros (done & Hk & -> & Hl & Hs & Hv). exists (done ++ [k]).
    rewrite fmap_app, length_app, length_app, Hl, <- app_assoc.
    split_and!; [done|done|done|]. apply Forall_app. by split; [|constructor].
  - intros (done & Hk & -> & Hl & Hs). rewrite app_nil_r in Hk. subst. done.
Qed.

Lemma loop_inv_init : loop_inv (V:=V) L R C init.
Proof. exists []. done. Qed.
End MachineLemmas.

(** ** Theorems *)

Section MachineTheorems.
Context `{Num V} `{CellBudgetFile V}.
Context (L R C : nat) (lookup : Z → result coord) (text : string).

Abbreviation step' := (step L R C lookup text).

(** C15. Loop invariant: every configuration the loop reaches from its
    start satisfies [loop_inv]: the steps processed so far are a prefix of
    [get_kstpkper()], [rivflx] holds one volume and the console one
    [finished processing step] line for each of them, in that order, and
    every volume (the one being filled included) has the grid's shape.  It
    holds whatever the cell table answers. *)
Theorem loop_invariant (c : config V) : rtc step' init c → loop_inv L R C c.
Proof.
  intros Hc. cut (∀ c1 c2, rtc step' c1 c2 → loop_inv L R C c1 → loop_inv L R C c2).
  { intros Hgen. eapply Hgen; [exact Hc|apply loop_inv_init]. }
  induction 1; eauto using loop_inv_step.
Qed.

(** Liveness: from every configuration, whatever the budget file and
    the cell table, the loop reaches a final one ([Done] or [Raised]). *)
Lemma machine_terminates (c : config V) : ∃ c', rtc step' c c' ∧ final c' = true.
Proof.
  destruct c as [[rivflx ks|rivflx k vol es ks|rivflx|err] tr].
  - eexists. split; [apply outer_run|apply run_steps_final].
  - pose proof (inner_run L R C lookup text rivflx k vol es ks tr) as Hin.
    destruct (foldM _ vol es) as [vol'|err]; [|by eexists; split].
    eexists. split; [|apply (run_steps_final L R C lookup text (rivflx ++ [vol']) ks)].
    etrans; [exact Hin|]. eapply rtc_l; [apply step_append|apply outer_run].
  - by eexists; split.
  - by eexists; split.
Qed.

(** C16. Refinement: the machine ends in [Done vs] exactly when
    [collect_steps] returns [vs], having printed one line per step of
    [get_kstpkper()] in order; it ends in [Raised err] exactly when
    [collect_steps] raises [err]. *)
Theorem machine_refines_collect_steps :
  (∀ vs tr, rtc step' init (Done vs, tr) ↔
            collect_steps L R C lookup text = Ok vs ∧ tr = Finished <$> get_kstpkper) ∧
  (∀ err, (∃ tr, rtc step' init (Raised err, tr)) ↔ collect_steps L R C lookup text = Err err).
Proof.
  rewrite collect_steps_mapM. split.
  - intros vs tr. split.
    + intros Hr. apply reachable_final in Hr; [|done].
      destruct (mapM _ _) as [vs'|err] eqn:E.
      * rewrite (run_steps_Ok _ _ _ _ _ _ _ _ vs' E) in Hr. by simplify_eq.
      * destruct (run_steps_Err L R C lookup text [] _ [] err E) as [tr' Htr]. congruence.
    + intros [Hm ->]. rewrite <- (app_nil_l vs), <- (app_nil_l (Finished <$> _)).
      rewrite <- (run_steps_Ok L R C lookup text [] _ [] vs Hm). apply outer_run.
  - intros err. split.
    + intros [tr Hr]. apply reachable_final in Hr; [|done].
      destruct (mapM _ _) as [vs'|err'] eqn:E.
      * rewrite (run_steps_Ok _ _ _ _ _ _ _ _ vs' E) in Hr. done.
      * destruct (run_steps_Err L R C lookup text [] _ [] err' E) as [tr' Htr]. congruence.
    + intros Hm. destruct (run_steps_Err L R C lookup text [] _ [] err Hm) as [tr' Htr].
      exists tr'. rewrite <- Htr. apply outer_run.
Qed.

(** C17. Ordering of output and failure: when the loop raises, the steps it
    printed as finished are exactly the steps before the failing one, each
    of which was processed without error, and the exception is the one the
    failing step's processing raises. *)
Theorem raise_prints_prefix (err : py_error) (tr : list event) :
  rtc step' init (Raised err, tr) →
  ∃ done k rest vs, get_kstpkper = done ++ k :: rest ∧ tr = Finished <$> done ∧
    mapM (process_step L R C lookup text) done = Ok vs ∧
    process_step L R C lookup text k = Err err.
Proof.
  intros Hr. apply reachable_final in Hr; [|done].
  symmetry in Hr. apply run_steps_Raised in Hr as (done & k & rest & vs & ? & -> & ? & ?).
  by exists done, k, rest, vs.
Qed.
End MachineTheorems.

(** ** Witnesses on a 2 x 3 x 4 grid *)

(** Two steps; the second holds id 24, outside the 24 cells. *)
Definition sample_file : CellBudgetFile Qc := archive_file
  [mk_record (0, 0)%Z RIVER_LEAKAGE [mk_entry 5 (Q2Qc 10); mk_entry 5 (Q2Qc 2)];
   mk_record (0, 1)%Z RIVER_LEAKAGE [mk_entry 7 (Q2Qc 1); mk_entry 24 (Q2Qc 3)]].

Lemma loop_invariant_witness :
  rtc (step (H0 := sample_file) 2 3 4 (resolve_lookup 2 3 4) RIVER_LEAKAGE) (init (H0 := sample_file))
      (exec (H0 := sample_file) 2 3 4 (resolve_lookup 2 3 4) RIVER_LEAKAGE 4 (init (H0 := sample_file))) ∧
  loop_inv (H0 := sample_file) 2 3 4
      (exec (H0 := sample_file) 2 3 4 (resolve_lookup 2 3 4) RIVER_LEAKAGE 4 (init (H0 := sample_file))).
Proof.
  assert (Hr := exec_rtc (H0 := sample_file) 2 3 4 (resolve_lookup 2 3 4) RIVER_LEAKAGE 4 (init (H0 := sample_file))).
  split; [exact Hr|]. exact (loop_invariant (H0 := sample_file) 2 3 4 _ _ _ Hr).
Defined.

Lemma raise_prints_prefix_witness :
  rtc (step (H0 := sample_file) 2 3 4 (resolve_lookup 2 3 4) RIVER_LEAKAGE) (init (H0 := sample_file))
      (Raised KeyError, [Finished (0, 0)%Z]) ∧
  ∃ done k rest vs, get_kstpkper (CellBudgetFile := sample_file) = done ++ k :: rest ∧
    [Finished (0, 0)%Z] = Finished <$> done ∧
    mapM (process_step (H0 := sample_file) 2 3 4 (resolve_lookup 2 3 4) RIVER_LEAKAGE) done = Ok vs ∧
    process_step (H0 := sample_file) 2 3 4 (resolve_lookup 2 3 4) RIVER_LEAKAGE k = Err KeyError.
Proof.
  assert (Hr : rtc (step (H0 := sample_file) 2 3 4 (resolve_lookup 2 3 4) RIVER_LEAKAGE) (init (H0 := sample_file))
                 (Raised KeyError, [Finished (0, 0)%Z])).
  { replace (Raised KeyError, [Finished (0, 0)%Z])
      with (exec (H0 := sample_file) 2 3 4 (resolve_lookup 2 3 4) RIVER_LEAKAGE 10 (init (H0 := sample_file)))
      by (vm_compute; reflexivity).
    apply exec_rtc. }
  split; [exact Hr|]. exact (raise_prints_prefix (H0 := sample_file) 2 3 4 _ _ _ _ Hr).
Defined.
