(* ===== verification/HeapLoop.v ===== *)
(** * The main loop over array objects (script lines 46-70)

    [collect_steps] treats the step volumes as values.  In Python they are
    objects: line 59 makes a new array, line 64 writes into it in place,
    line 66 appends a reference to it to [rivflx], and line 70 copies the
    objects [rivflx] refers to into the 4-D array.  [heap_collect_steps]
    runs the loop over a [store] of 3-D arrays, the way the interpreter
    does.

    The theorem: on a well-formed store, the object loop raises exactly when
    [collect_steps] raises, with the same exception; when it returns, the
    references in [rivflx] are pairwise distinct new objects, every object
    that existed before is untouched, and the objects referred to hold
    exactly [collect_steps]'s volumes.  So no volume is shared between two
    steps or changed after its step, which the spec requires (sections 3
    and 5) and which holds because line 59 allocates inside the loop. *)
From S2P Require Import Prelude NdArray CoordinateIndex BudgetFile FluxAccumulator PyObjects.
From stdpp Require Import base list gmap strings.
From Stdlib Require Import ZArith Lia QArith Qcanon.
Local Close Scope Qc_scope.
Local Close Scope Q_scope.

Section HeapLoop.
Context `{Num V} `{CellBudgetFile V}.
Context (L R C : nat) (lookup : Z → result coord) (text : string).

(** Lines 61-64 on the object [l] that [riv_flx_step] names:
    [id_dict[cellID]] first, then [riv_flx_step[lay, row, col] += flx]
    in place. *)
Definition heap_accumulate_entry (l : loc) (s : store (array3 V)) (e : entry V)
    : result (store (array3 V)) :=
  let cellID := node e in
  let flx := q e in
  ix ← lookup cellID;
  vol ← of_option NameError (objs s !! l);
  vol' ← iadd3 vol ix flx;
  Ok (store_write s l vol').

(** Lines 51-64: the step's records, then a new zero array (line 59), then
    the entries written into it. *)
Definition heap_process_step (s : store (array3 V)) (k : kstpkper) : result (loc * store (array3 V)) :=
  riv_np ← fetch_records text k;
  let '(l, s1) := alloc s (np_zeros3 L R C) in
  s2 ← foldM (heap_accumulate_entry l) s1 riv_np;
  Ok (l, s2).

(** Lines 46-66: [rivflx] holds references. *)
Definition heap_collect_steps (s : store (array3 V)) : result (list loc * store (array3 V)) :=
  foldM (λ acc k,
           let '(rivflx, s) := acc in
           '(l, s') ← heap_process_step s k;
           Ok (rivflx ++ [l], s'))
        ([], s) get_kstpkper.

(** Line 70 reads the objects [rivflx] refers to. *)
Definition heap_contents (s : store (array3 V)) (rivflx : list loc) : option (list (array3 V)) :=
  mapM (λ l, objs s !! l) rivflx.
End HeapLoop.

(** ** The object loop computes the value loop *)

Section HeapLemmas.
Context `{Num V} `{CellBudgetFile V}.
Context (L R C : nat) (lookup : Z → result coord) (text : string).

(** The entries written in place into the object at [l] give, in that
    object, what the value loop gives. *)
Lemma heap_entries_run (l : loc) (s : store (array3 V)) (vol : array3 V) (es : list (entry V)) :
  objs s !! l = Some vol →
  foldM (heap_accumulate_entry lookup l) s es =
  (vol' ← foldM (accumulate_entry lookup) vol es; Ok (store_write s l vol')).
Proof.
  revert s vol. induction es as [|e es IH]; intros s vol Hl; cbn.
  { by rewrite store_write_id. }
  unfold heap_accumulate_entry, accumulate_entry.
  destruct (lookup (node e)) as [ix|]; cbn; [|done]. rewrite Hl. cbn.
  destruct (iadd3 vol ix (q e)) as [vol1|]; cbn; [|done].
  rewrite (IH _ vol1) by apply lookup_insert_eq.
  destruct (foldM _ vol1 es); cbn; [|done]. by rewrite store_write_write.
Qed.

(** One step makes one new object, holding [process_step]'s volume. *)
Lemma heap_process_step_eq (s : store (array3 V)) (k : kstpkper) :
  heap_process_step L R C lookup text s k =
  (vol ← process_step L R C lookup text k; Ok (alloc s vol)).
Proof.
  unfold heap_process_step, process_step, accumulate_records.
  destruct (fetch_records _ _) as [riv_np|]; cbn [mbind result_bind]; [|done].
  pose proof (alloc_lookup_new s (np_zeros3 L R C)) as Hnew.
  pose proof (λ vol, alloc_write s (np_zeros3 L R C) vol) as Hw.
  destruct (alloc s _) as [l s1] eqn:Ea. cbn in Hnew, Hw.
  rewrite (heap_entries_run _ _ _ _ Hnew).
  destruct (foldM _ _ _) as [vol|]; cbn [mbind result_bind]; [|done].
  rewrite Hw. unfold alloc. cbn. by injection Ea as <- _.
Qed.

Lemma heap_foldM_steps (rivflx : list loc) (s : store (array3 V)) (ks : list kstpkper) :
  foldM (λ acc k, let '(rivflx, s) := acc in
                  '(l, s') ← heap_process_step L R C lookup text s k; Ok (rivflx ++ [l], s'))
        (rivflx, s) ks =
  (vs ← mapM (process_step L R C lookup text) ks;
   Ok (rivflx ++ seq (next_free s) (length vs), alloc_list s vs)).
Proof.
  revert rivflx s. induction ks as [|k ks IH]; intros rivflx s; cbn.
  { by rewrite app_nil_r. }
  rewrite heap_process_step_eq. destruct (process_step _ _ _ _ _ _) as [vol|]; cbn; [|done].
  rewrite IH. destruct (mapM _ ks) as [vs|]; cbn; [|done].
  by rewrite <- app_assoc.
Qed.

(** The object loop is the value loop followed by one allocation per
    volume, in order. *)
Lemma heap_collect_steps_eq (s : store (array3 V)) :
  heap_collect_steps L R C lookup text s =
  (vs ← collect_steps L R C lookup text; Ok (seq (next_free s) (length vs), alloc_list s vs)).
Proof. unfold heap_collect_steps. by rewrite heap_foldM_steps, collect_steps_mapM. Qed.
End HeapLemmas.

(** ** Theorems *)

Section HeapTheorems.
Context `{Num V} `{CellBudgetFile V}.
Context (L R C : nat) (lookup : Z → result coord) (text : string).

(** C22. No volume is shared between steps: on a well-formed store the
    object loop raises exactly when [collect_steps] raises, with the same
    exception; when it returns, [rivflx] refers to pairwise distinct
    objects that did not exist before the loop, every older object is
    untouched, the store stays well formed, and the objects [rivflx]
    refers to hold exactly [collect_steps]'s volumes, in order (line 70
    stacks these). *)
Theorem heap_loop_no_sharing (s : store (array3 V)) :
  store_wf s →
  match heap_collect_steps L R C lookup text s with
  | Ok (rivflx, s') =>
      NoDup rivflx ∧ Forall (λ l, next_free s ≤ l) rivflx ∧ store_wf s' ∧
      (∀ l, l < next_free s → objs s' !! l = objs s !! l) ∧
      ∃ vs, collect_steps L R C lookup text = Ok vs ∧ heap_contents s' rivflx = Some vs
  | Err err => collect_steps L R C lookup text = Err err
  end.
Proof.
  intros Hwf. rewrite heap_collect_steps_eq.
  destruct (collect_steps L R C lookup text) as [vs|err]; cbn; [|done]. split_and!.
  - apply NoDup_seq.
  - apply Forall_forall. intros l Hl%elem_of_seq. lia.
  - by apply alloc_list_wf.
  - intros l Hl. by apply alloc_list_lookup_old.
  - exists vs. split; [done|]. apply alloc_list_contents.
Qed.
End HeapTheorems.

(** Two steps writing cell 5 of a 2 x 3 x 4 grid. *)
Definition two_step_file : CellBudgetFile Qc := archive_file
  [mk_record (0, 0)%Z RIVER_LEAKAGE [mk_entry 5 (Q2Qc 10)];
   mk_record (0, 1)%Z RIVER_LEAKAGE [mk_entry 5 (Q2Qc 2)]].

Lemma heap_loop_no_sharing_witness :
  store_wf (mk_store (A := array3 Qc) ∅ 0) ∧
  match heap_collect_steps (H0 := two_step_file) 2 3 4 (resolve_lookup 2 3 4) RIVER_LEAKAGE
          (mk_store ∅ 0) with
  | Ok (rivflx, s') =>
      NoDup rivflx ∧ Forall (λ l, next_free (mk_store (A := array3 Qc) ∅ 0) ≤ l) rivflx ∧
      store_wf s' ∧
      (∀ l, l < next_free (mk_store (A := array3 Qc) ∅ 0) →
            objs s' !! l = objs (mk_store (A := array3 Qc) ∅ 0) !! l) ∧
      ∃ vs, collect_steps (H0 := two_step_file) 2 3 4 (resolve_lookup 2 3 4) RIVER_LEAKAGE = Ok vs ∧
            heap_contents s' rivflx = Some vs
  | Err err => collect_steps (H0 := two_step_file) 2 3 4 (resolve_lookup 2 3 4) RIVER_LEAKAGE = Err err
  end.
Proof.
  assert (Hwf : store_wf (mk_store (A := array3 Qc) ∅ 0)) by eval_decide.
  split; [exact Hwf|].
  exact (heap_loop_no_sharing (H0 := two_step_file) 2 3 4 (resolve_lookup 2 3 4) RIVER_LEAKAGE _ Hwf).
Defined.
