(* ===== verification/Aggregation.v ===== *)
(** * The queries on the stacked array (script lines 70-115)

    [rivflx = np.array(rivflx)] stacks the step volumes into a 4-D array of
    shape (T, L, R, C); on an empty list numpy gives a 1-D array of shape
    (0,) instead, on which a 4-index subscript raises [IndexError].  On the
    stack the script computes the layer sum averaged over time (line 79),
    the grand total (line 85), the total in acre-feet (line 90), and the
    layer-0 sum over the half-open step range [10:20] (lines 111, 114).

    The theorems: the grand total equals the sum of the step totals and the
    total of the all-time sum (three paths agree); the all-time mean map
    times T is the total; the script's [10:20] query sums layer 0 of steps
    10..19 cell by cell, and on a run of at most 10 steps returns the zero
    map; the maps of lines 79 and 111 have the grid's (R, C). *)
From S2P Require Import Prelude NdArray.
From stdpp Require Import base list sets.
From Stdlib Require Import ZArith Lia QArith Qcanon.
Local Close Scope Qc_scope.
Local Close Scope Q_scope.

Abbreviation array2 A := (list (list A)).

(** What [np.array(list_of_volumes)] returns. *)
Inductive ndarray (V : Type) : Type :=
  | Dense4 (t : list (array3 V))   (** shape (T, L, R, C), T >= 1 *)
  | Empty1.                        (** [np.array([])], shape (0,) *)
Arguments Dense4 {V} t.
Arguments Empty1 {V}.

(** [rivflx = np.array(rivflx)] (line 70). *)
Definition np_array_stack {V} (vols : list (array3 V)) : ndarray V :=
  match vols with [] => Empty1 | _ => Dense4 vols end.

(** [rivflx.shape] (line 73): numpy's shape of the stacked steps, taken
    from the first volume, or [(0,)] for [np.array([])]. *)
Definition ndarray_shape {V} (a : ndarray V) : list nat :=
  match a with
  | Dense4 t => let '(l, r, c) := dims3 (default [] (head t)) in [length t; l; r; c]
  | Empty1 => [0]
  end.

(** [a.shape == (R, C)] *)
Definition shape2 {A} (R C : nat) (p : array2 A) : Prop :=
  length p = R ∧ Forall (λ row, length row = C) p.

(** [p[r, c]], when there is an element there. *)
Definition at2 {A} (p : array2 A) (r c : nat) : option A := p !! r ≫= λ row, row !! c.

#[export] Instance shape2_dec {A} R C (p : array2 A) : Decision (shape2 R C p).
Proof. unfold shape2. apply _. Defined.

(** Python's clamping of a slice bound into [0, n]. *)
Definition py_slice_bound (n : nat) (i : Z) : nat :=
  if decide (i < 0)%Z then Z.to_nat (Z.max 0 (i + Z.of_nat n)) else Z.to_nat (Z.min i (Z.of_nat n)).

(** [l[start:stop]]: half-open, clamped, empty when [stop <= start]. *)
Definition py_slice {A} (l : list A) (start stop : Z) : list A :=
  let s := py_slice_bound (length l) start in
  let e := py_slice_bound (length l) stop in
  take (e - s) (drop s l).

Section Queries.
Context `{Num V}.

(** Element-wise [+] of two arrays of the same shape. *)
Definition row_add (r1 r2 : list V) : list V := zip_with num_add r1 r2.
Definition plane_add (p1 p2 : array2 V) : array2 V := zip_with row_add p1 p2.

Definition np_zeros2 (R C : nat) : array2 V := replicate R (replicate C 𝟎).

(** [a.sum()] of a 2-D and of a 3-D array. *)
Definition plane_total (p : array2 V) : V := np_sum (concat p).
Definition vol_total (v : array3 V) : V := np_sum (np_ravel3 v).

(** [v.sum(axis=0)] of one (L, R, C) volume: the layer sum. *)
Definition sum_layers (R C : nat) (v : array3 V) : array2 V :=
  np_reduce plane_add (np_zeros2 R C) v.

(** [a.sum(axis=0)] of a (T, R, C) stack of planes. *)
Definition sum_planes (R C : nat) (ps : list (array2 V)) : array2 V :=
  np_reduce plane_add (np_zeros2 R C) ps.

(** [a.mean(axis=0)] of a (T, R, C) stack: the sum divided by T. *)
Definition mean_planes (R C : nat) (ps : list (array2 V)) : array2 V :=
  map (map (λ x, x ⊘ num_of_Z (Z.of_nat (length ps)))) (sum_planes R C ps).

(** [rivflx[:,:,:,:]] *)
Definition full_index4 (a : ndarray V) : result (list (array3 V)) :=
  match a with Dense4 t => Ok t | Empty1 => Err IndexError end.

(** Line 79: [rivflx[:,:,:,:].sum(axis=1).mean(axis=0)]. *)
Definition rivflx_2D_all_time (R C : nat) (a : ndarray V) : result (array2 V) :=
  t ← full_index4 a;
  Ok (mean_planes R C (sum_layers R C <$> t)).

(** Line 85: [rivflx.sum()]; the sum of the empty 1-D array is 0.  The
    elements are added left to right ([np_sum]); numpy adds runs of eight
    or more contiguous floats by partial pairwise summation, which equals
    this order in exact arithmetic only (see the Prelude header). *)
Definition rivflx_total (a : ndarray V) : V :=
  match a with Dense4 t => np_sum (concat (np_ravel3 <$> t)) | Empty1 => 𝟎 end.

(** The float literal 35.315 (cubic feet per cubic metre) and 43560
    (cubic feet per acre-foot) of line 90. *)
Definition FT3_PER_M3 : V := num_of_Z 35315 ⊘ num_of_Z 1000.
Definition FT3_PER_ACRE_FT : V := num_of_Z 43560.

(** Line 90: [rivflx.sum() * 35.315 / 43560], evaluated left to right. *)
Definition total_acre_ft (a : ndarray V) : V :=
  rivflx_total a ⊗ FT3_PER_M3 ⊘ FT3_PER_ACRE_FT.

(** The single factor the spec asks for (section 4.3, convertUnits). *)
Definition M3_TO_ACRE_FT : V := FT3_PER_M3 ⊘ FT3_PER_ACRE_FT.

(** [rivflx[start:stop, lay, :, :]]: the planes of layer [lay] of the steps
    in [start, stop).  numpy checks [lay] against axis 1 of the stack (the
    layers of its volumes) before it slices, so an out-of-range layer
    raises [IndexError] even when the time slice is empty. *)
Definition slice_layer (a : ndarray V) (start stop lay : Z) : result (list (array2 V)) :=
  t ← full_index4 a;
  _ ← py_index (length (default [] (head t))) lay;
  mapM (λ v, py_get v lay) (py_slice t start stop).

(** Line 111: [rivflx[10:20, 0, :, :].sum(axis=0)]. *)
Definition lay1_total_rivflx_10days (R C : nat) (a : ndarray V) : result (array2 V) :=
  ps ← slice_layer a 10 20 0;
  Ok (sum_planes R C ps).
End Queries.

(** ** Shapes and element-wise addition *)

Section Elementwise.
Context `{Num V}.

Lemma length_row_add (r1 r2 : list V) :
  length r1 = length r2 → length (row_add r1 r2) = length r1.
Proof. intros. unfold row_add. rewrite length_zip_with. lia. Qed.

Lemma shape2_plane_add (R C : nat) (p1 p2 : array2 V) :
  shape2 R C p1 → shape2 R C p2 → shape2 R C (plane_add p1 p2).
Proof.
  unfold shape2, plane_add. intros [H1 F1] [H2 F2]. split; [rewrite length_zip_with; lia|].
  clear H1 H2. revert p2 F2. induction F1 as [|r1 p1 Hr1 F1 IH]; intros [|r2 p2] F2;
    simpl; [constructor|constructor|constructor|].
  apply Forall_cons in F2 as [Hr2 F2]. constructor; [rewrite length_row_add; lia|].
  by apply IH.
Qed.

Lemma shape2_zeros (R C : nat) : shape2 R C (np_zeros2 (V:=V) R C).
Proof.
  unfold shape2, np_zeros2. split; [apply length_replicate|].
  apply Forall_replicate, length_replicate.
Qed.

Lemma shape2_foldl_add (R C : nat) (p : array2 V) (ps : list (array2 V)) :
  shape2 R C p → Forall (shape2 R C) ps → shape2 R C (foldl plane_add p ps).
Proof.
  intros Hp Hps. revert p Hp. induction Hps; intros p Hp; simpl; [done|].
  apply IHHps. by apply shape2_plane_add.
Qed.

Lemma shape2_sum_planes (R C : nat) (ps : list (array2 V)) :
  Forall (shape2 R C) ps → shape2 R C (sum_planes R C ps).
Proof.
  unfold sum_planes. destruct ps as [|p ps]; simpl; [intros; apply shape2_zeros|].
  intros [Hp Hps]%Forall_cons. by apply shape2_foldl_add.
Qed.

Lemma shape3_layers (L R C : nat) (v : array3 V) :
  shape3 L R C v → Forall (shape2 R C) v.
Proof. intros [_ HF]. exact HF. Qed.
End Elementwise.

#[export] Hint Resolve shape2_plane_add shape2_zeros shape2_sum_planes shape3_layers : flux.

(** ** Totals *)

Section Totals.
Context `{Num V} `{!AddLaws V}.

Lemma np_sum_row_add (r1 r2 : list V) :
  length r1 = length r2 → np_sum (row_add r1 r2) = np_sum r1 ⊕ np_sum r2.
Proof.
  revert r2. induction r1 as [|x r1 IH]; intros [|y r2] Hl; cbn [length] in *; try lia.
  - unfold row_add. simpl. by rewrite add_zero_l_law.
  - unfold row_add in *. cbn [zip_with]. rewrite !np_sum_cons, IH by lia.
    apply add_swap_middle.
Qed.

Lemma plane_total_cons (row : list V) (p : array2 V) :
  plane_total (row :: p) = np_sum row ⊕ plane_total p.
Proof. unfold plane_total. by rewrite concat_cons, np_sum_app. Qed.

Lemma plane_total_add (R C : nat) (p1 p2 : array2 V) :
  shape2 R C p1 → shape2 R C p2 → plane_total (plane_add p1 p2) = plane_total p1 ⊕ plane_total p2.
Proof.
  unfold shape2, plane_add. intros [H1 F1] [H2 F2].
  assert (Hl : length p1 = length p2) by lia. clear H1 H2. revert p2 Hl F2.
  induction F1 as [|r1 p1 Hr1 F1 IH]; intros [|r2 p2] Hl F2; cbn [length zip_with] in *; try lia.
  - unfold plane_total. simpl. by rewrite add_zero_l_law.
  - apply Forall_cons in F2 as [Hr2 F2]. rewrite !plane_total_cons, (IH p2) by (lia || done).
    rewrite np_sum_row_add by lia. apply add_swap_middle.
Qed.

Lemma plane_total_zeros (R C : nat) : plane_total (np_zeros2 (V:=V) R C) = 𝟎.
Proof.
  unfold plane_total, np_zeros2. rewrite np_sum_concat, fmap_replicate, np_sum_zeros.
  apply np_sum_zeros.
Qed.

(** The total of an element-wise reduction is the sum of the totals. *)
Lemma plane_total_sum_planes (R C : nat) (ps : list (array2 V)) :
  Forall (shape2 R C) ps → plane_total (sum_planes R C ps) = np_sum (plane_total <$> ps).
Proof.
  unfold sum_planes. destruct ps as [|p ps]; [intros _; apply plane_total_zeros|].
  intros [Hp Hps]%Forall_cons. unfold np_reduce. rewrite fmap_cons, np_sum_cons.
  revert p Hp. induction Hps as [|q ps Hq Hps IH]; intros p Hp; cbn [foldl].
  - by rewrite fmap_nil, np_sum_nil, add_comm_law, add_zero_l_law.
  - rewrite IH by eauto with flux. rewrite (plane_total_add R C) by done.
    by rewrite fmap_cons, np_sum_cons, add_assoc_law.
Qed.

Lemma vol_total_planes (v : array3 V) : vol_total v = np_sum (plane_total <$> v).
Proof.
  unfold vol_total, np_ravel3, plane_total. induction v as [|p v IH]; [done|].
  by rewrite concat_cons, concat_app, np_sum_app, fmap_cons, np_sum_cons, IH.
Qed.

(** The total of a volume's layer sum is the volume's total. *)
Lemma plane_total_sum_layers (L R C : nat) (v : array3 V) :
  shape3 L R C v → plane_total (sum_layers R C v) = vol_total v.
Proof.
  intros Hv. unfold sum_layers. rewrite vol_total_planes.
  apply (plane_total_sum_planes R C). eauto with flux.
Qed.

Lemma rivflx_total_steps (t : list (array3 V)) :
  rivflx_total (np_array_stack t) = np_sum (vol_total <$> t).
Proof.
  destruct t as [|v t]; [done|]. unfold np_array_stack, rivflx_total.
  rewrite np_sum_concat, <- list_fmap_compose. done.
Qed.
End Totals.

(** ** Slices *)

Section Slicing.
Context {A : Type}.

Lemma py_slice_bound_nonneg (n : nat) (i : Z) :
  (0 ≤ i)%Z → py_slice_bound n i = Nat.min (Z.to_nat i) n.
Proof. intros. unfold py_slice_bound. rewrite decide_False by lia. lia. Qed.

Lemma length_py_slice (l : list A) (a b : Z) :
  (0 ≤ a)%Z → (0 ≤ b)%Z →
  length (py_slice l a b) = Nat.min (Z.to_nat b) (length l) - Nat.min (Z.to_nat a) (length l).
Proof.
  intros. unfold py_slice. rewrite !py_slice_bound_nonneg by done.
  rewrite length_take, length_drop. lia.
Qed.

Lemma py_slice_full (l : list A) : py_slice l 0 (Z.of_nat (length l)) = l.
Proof.
  unfold py_slice. rewrite !py_slice_bound_nonneg by lia.
  rewrite Nat2Z.id, Nat.min_id, Nat.min_0_l, Nat.sub_0_r, drop_0. apply firstn_all.
Qed.
End Slicing.

(** ** Cell by cell *)

Section Cells.
Context `{Num V}.

Lemma at2_plane_add (p1 p2 : array2 V) (r c : nat) :
  at2 (plane_add p1 p2) r c = (x ← at2 p1 r c; y ← at2 p2 r c; Some (x ⊕ y)).
Proof.
  unfold at2, plane_add, row_add. rewrite lookup_zip_with.
  destruct (p1 !! r) as [r1|]; destruct (p2 !! r) as [r2|]; simpl; try done.
  - rewrite lookup_zip_with. done.
  - by destruct (r1 !! c).
Qed.

Lemma at2_shape (R C : nat) (p : array2 V) (r c : nat) :
  shape2 R C p → r < R → c < C → ∃ x, at2 p r c = Some x.
Proof.
  intros [HR HF] Hr Hc. unfold at2.
  destruct (lookup_lt_is_Some_2 p r) as [row Hrow]; [lia|]. rewrite Hrow. simpl.
  pose proof (Forall_lookup_1 _ _ _ _ HF Hrow) as HC. simpl in HC.
  apply lookup_lt_is_Some_2. lia.
Qed.

Lemma at2_zeros (R C r c : nat) : r < R → c < C → at2 (np_zeros2 (V:=V) R C) r c = Some 𝟎.
Proof.
  intros. unfold at2, np_zeros2. rewrite lookup_replicate_2 by done. simpl.
  by rewrite lookup_replicate_2.
Qed.

(** The value [ps.sum(axis=0)] has at [(r, c)] is numpy's reduction of
    the values the planes have there. *)
Lemma at2_sum_planes (R C : nat) (ps : list (array2 V)) (r c : nat) :
  Forall (shape2 R C) ps → r < R → c < C →
  at2 (sum_planes R C ps) r c =
  Some (np_reduce num_add 𝟎 ((λ p, default 𝟎 (at2 p r c)) <$> ps)).
Proof.
  intros Hps Hr Hc. unfold sum_planes, np_reduce.
  destruct ps as [|p ps]; [by apply at2_zeros|].
  apply Forall_cons in Hps as [Hp Hps]. rewrite fmap_cons.
  destruct (at2_shape R C p r c Hp Hr Hc) as [x Hx]. rewrite Hx. cbn [default].
  revert p x Hp Hx. induction Hps as [|q ps Hq Hps IH]; intros p x Hp Hx; [done|].
  destruct (at2_shape R C q r c Hq Hr Hc) as [y Hy].
  cbn [foldl]. rewrite fmap_cons, Hy. cbn [default foldl].
  apply IH; [by apply shape2_plane_add|]. by rewrite at2_plane_add, Hx, Hy.
Qed.
End Cells.

(** ** Means *)

Section Means.
Context `{Num V} `{!AddLaws V} `{!FieldLaws V}.

Lemma np_sum_div (l : list V) (z : V) : np_sum ((λ x, x ⊘ z) <$> l) = np_sum l ⊘ z.
Proof.
  induction l as [|x l IH].
  - by rewrite fmap_nil, np_sum_nil, zero_div_law.
  - by rewrite fmap_cons, !np_sum_cons, IH, div_add_distr_law.
Qed.

Lemma plane_total_div (p : array2 V) (z : V) :
  plane_total (map (map (λ x, x ⊘ z)) p) = plane_total p ⊘ z.
Proof.
  unfold plane_total. rewrite <- np_sum_div. f_equal.
  induction p as [|row p IH]; [done|]. simpl. by rewrite IH, map_app.
Qed.
End Means.

(** ** Slicing a stack of volumes *)

Lemma elem_of_py_slice {A} (l : list A) (a b : Z) (x : A) : x ∈ py_slice l a b → x ∈ l.
Proof.
  unfold py_slice. intros Hx. eapply elem_of_sublist; [|apply sublist_drop].
  eapply elem_of_sublist; [exact Hx|apply sublist_take].
Qed.

Lemma slice_layer_ok `{Num V} (L R C : nat) (t : list (array3 V)) (a b lay : Z) :
  t ≠ [] → (0 ≤ lay)%Z → Z.to_nat lay < L → Forall (shape3 L R C) t →
  slice_layer (np_array_stack t) a b lay =
  Ok ((λ v, default [] (v !! Z.to_nat lay)) <$> py_slice t a b).
Proof.
  intros Ht Hl0 Hl Hsh. destruct t as [|v0 t0]; [done|].
  unfold slice_layer. cbn [np_array_stack full_index4 mbind result_bind head default id].
  pose proof Hsh as [[Hlen0 _] _]%Forall_cons.
  rewrite <- (Z2Nat.id lay) at 1 by done. rewrite py_index_nat by lia.
  cbn [mbind result_bind]. apply mapM_result_Ok. intros v Hv%elem_of_py_slice.
  rewrite Forall_forall in Hsh. destruct (Hsh v Hv) as [Hlen _].
  destruct (lookup_lt_is_Some_2 v (Z.to_nat lay)) as [p Hp]; [lia|].
  rewrite <- (Z2Nat.id lay) at 1 by done. rewrite (py_get_nat v _ p Hp), Hp. done.
Qed.

Lemma full_index4_stack `{Num V} (t : list (array3 V)) :
  t ≠ [] → full_index4 (np_array_stack t) = Ok t.
Proof. by destruct t. Qed.

Lemma shape2_layer `{Num V} (L R C : nat) (v : array3 V) (lay : nat) :
  shape3 L R C v → lay < L → shape2 R C (default [] (v !! lay)).
Proof.
  intros [Hlen HF] Hl. destruct (lookup_lt_is_Some_2 v lay) as [p Hp]; [lia|].
  rewrite Hp. exact (Forall_lookup_1 _ _ _ _ HF Hp).
Qed.

Lemma shape2_map `{Num V} (R C : nat) (f : V → V) (p : array2 V) :
  shape2 R C p → shape2 R C (map (map f) p).
Proof.
  intros [HR HF]. split; [by rewrite length_map|]. apply Forall_map.
  eapply Forall_impl; [exact HF|]. intros row Hr. by rewrite length_map.
Qed.

Lemma layer_totals `{Num V} `{!AddLaws V} (L R C : nat) (t : list (array3 V)) :
  Forall (shape3 L R C) t → plane_total <$> (sum_layers R C <$> t) = vol_total <$> t.
Proof.
  intros Hsh. rewrite <- list_fmap_compose. apply Forall_fmap_ext_1.
  eapply Forall_impl; [exact Hsh|]. intros v Hv. by apply (plane_total_sum_layers L).
Qed.

Lemma shape2_layer_sums `{Num V} (L R C : nat) (t : list (array3 V)) :
  Forall (shape3 L R C) t → Forall (shape2 R C) (sum_layers R C <$> t).
Proof.
  intros Hsh. apply Forall_fmap. eapply Forall_impl; [exact Hsh|]. intros v Hv.
  apply shape2_sum_planes. by apply (shape3_layers L).
Qed.

(** The map of line 79 and the map of line 111 have the grid's (R, C). *)
Lemma rivflx_2D_all_time_shape `{Num V} (L R C : nat) (t : list (array3 V)) (m : array2 V) :
  Forall (shape3 L R C) t → rivflx_2D_all_time R C (np_array_stack t) = Ok m → shape2 R C m.
Proof.
  intros Hsh. destruct t as [|v t']; [cbn; congruence|].
  unfold rivflx_2D_all_time. rewrite full_index4_stack by done. cbn [mbind result_bind].
  intros [= <-]. unfold mean_planes. apply shape2_map, shape2_sum_planes.
  exact (shape2_layer_sums L R C _ Hsh).
Qed.

Lemma lay1_total_rivflx_10days_shape `{Num V} (L R C : nat) (t : list (array3 V)) (p : array2 V) :
  0 < L → Forall (shape3 L R C) t →
  lay1_total_rivflx_10days R C (np_array_stack t) = Ok p → shape2 R C p.
Proof.
  intros HL Hsh. destruct t as [|v t']; [cbn; congruence|].
  unfold lay1_total_rivflx_10days. rewrite (slice_layer_ok L R C) by (done || lia).
  cbn [mbind result_bind]. intros [= <-]. apply shape2_sum_planes, Forall_fmap, Forall_forall.
  intros w Hw%elem_of_py_slice. rewrite Forall_forall in Hsh.
  apply (shape2_layer L); [by apply Hsh|lia].
Qed.

(** ** Theorems *)

Section AggregationTheorems.
Context `{Num V}.

(** C9. Three ways to the grand total agree in exact arithmetic: the
    script's [rivflx.sum()] equals the sum of the step totals, and equals
    the total of the time sum over the full slice [0:T] of the layer sums. *)
Theorem total_three_paths `{!AddLaws V} (L R C : nat) (t : list (array3 V)) :
  Forall (shape3 L R C) t →
  rivflx_total (np_array_stack t) = np_sum (vol_total <$> t) ∧
  rivflx_total (np_array_stack t) =
    plane_total (sum_planes R C (sum_layers R C <$> py_slice t 0 (Z.of_nat (length t)))).
Proof.
  intros Hsh. rewrite rivflx_total_steps, py_slice_full. split; [done|].
  rewrite (plane_total_sum_planes R C) by (by apply (shape2_layer_sums L)).
  by rewrite (layer_totals L).
Qed.

(** C10. The script's query [rivflx[10:20, 0, :, :].sum(axis=0)] (line
    111) returns an (R, C) plane whose cell (r, c) is numpy's reduction of
    the layer-0 values at (r, c) of the steps in [10, 20). *)
Theorem lay1_total_rivflx_10days_spec (L R C : nat) (t : list (array3 V)) :
  t ≠ [] → 0 < L → Forall (shape3 L R C) t →
  ∃ p, lay1_total_rivflx_10days R C (np_array_stack t) = Ok p ∧ shape2 R C p ∧
    ∀ r c, r < R → c < C →
      at2 p r c = Some (np_reduce num_add 𝟎 ((λ v, default 𝟎 (at3 v 0 r c)) <$> py_slice t 10 20)).
Proof.
  intros Ht HL Hsh. unfold lay1_total_rivflx_10days.
  rewrite (slice_layer_ok L R C t 10 20 0) by (done || lia). cbn [mbind result_bind].
  assert (Hin : ∀ v, v ∈ py_slice t 10 20 → shape3 L R C v).
  { intros v Hv%elem_of_py_slice. rewrite Forall_forall in Hsh. by apply Hsh. }
  assert (Hps : Forall (shape2 R C) ((λ v, default [] (v !! Z.to_nat 0)) <$> py_slice t 10 20)).
  { apply Forall_fmap, Forall_forall. intros v Hv. apply (shape2_layer L); [by apply Hin|lia]. }
  eexists; split_and!; [done|by apply shape2_sum_planes|]. intros r c Hr Hc.
  rewrite (at2_sum_planes R C) by done. do 2 f_equal.
  rewrite <- list_fmap_compose. apply Forall_fmap_ext_1, Forall_forall. intros v Hv.
  destruct (Hin v Hv) as [Hlen _]. destruct (lookup_lt_is_Some_2 v 0) as [pl Hpl]; [lia|].
  unfold at3, compose. change (Z.to_nat 0) with 0. rewrite Hpl. done.
Qed.

(** C11. The all-time mean map of line 79 sums to the grand total divided
    by the number of steps: its total times T is [rivflx.sum()]. *)
Theorem mean_map_total `{!AddLaws V} `{!FieldLaws V} (L R C : nat) (t : list (array3 V)) :
  t ≠ [] → Forall (shape3 L R C) t →
  ∃ p, rivflx_2D_all_time R C (np_array_stack t) = Ok p ∧ shape2 R C p ∧
       plane_total p ⊗ num_of_Z (Z.of_nat (length t)) = rivflx_total (np_array_stack t).
Proof.
  intros Ht Hsh. unfold rivflx_2D_all_time. rewrite full_index4_stack by done.
  cbn [mbind result_bind]. eexists; split_and!; [done| |].
  - apply shape2_map, shape2_sum_planes. by apply (shape2_layer_sums L).
  - unfold mean_planes. rewrite plane_total_div, (plane_total_sum_planes R C)
      by (by apply (shape2_layer_sums L)).
    rewrite (layer_totals L), length_fmap, rivflx_total_steps by done.
    apply div_mul_cancel_law. destruct t; [done|]. simpl. lia.
Qed.

(** C21. The bounds of the [10:20] query: on a run of at most 10 steps the
    slice is empty and line 111 returns the all-zero (R, C) map, without an
    error, although the comment above it says it sums stress periods 11 to
    20; on any run it sums [min(T, 20) - min(T, 10)] steps, at most 10. *)
Theorem lay1_10days_short_run (L R C : nat) (t : list (array3 V)) :
  t ≠ [] → 0 < L → Forall (shape3 L R C) t →
  length (py_slice t 10 20) = Nat.min 20 (length t) - Nat.min 10 (length t) ∧
  (length t ≤ 10 → lay1_total_rivflx_10days R C (np_array_stack t) = Ok (np_zeros2 R C)).
Proof.
  intros Ht HL Hsh. split; [by rewrite length_py_slice|].
  intros Hlen. unfold lay1_total_rivflx_10days.
  rewrite (slice_layer_ok L R C t 10 20 0) by (done || lia).
  assert (Hnil : py_slice t 10 20 = []).
  { apply nil_length_inv. rewrite length_py_slice by lia. cbn [Z.to_nat Pos.to_nat]. lia. }
  by rewrite Hnil.
Qed.
End AggregationTheorems.

(** ** Witnesses: two-layer, one-row, two-column volumes of exact rationals *)

Lemma total_three_paths_witness :
  Forall (shape3 2 1 2) [[[[Q2Qc 1; Q2Qc 2]]; [[Q2Qc 3; Q2Qc 4]]]; [[[Q2Qc 5; Q2Qc 6]]; [[Q2Qc 7; Q2Qc 8]]]] ∧
  rivflx_total (np_array_stack [[[[Q2Qc 1; Q2Qc 2]]; [[Q2Qc 3; Q2Qc 4]]]; [[[Q2Qc 5; Q2Qc 6]]; [[Q2Qc 7; Q2Qc 8]]]]) = np_sum (vol_total <$> [[[[Q2Qc 1; Q2Qc 2]]; [[Q2Qc 3; Q2Qc 4]]]; [[[Q2Qc 5; Q2Qc 6]]; [[Q2Qc 7; Q2Qc 8]]]]) ∧
  rivflx_total (np_array_stack [[[[Q2Qc 1; Q2Qc 2]]; [[Q2Qc 3; Q2Qc 4]]]; [[[Q2Qc 5; Q2Qc 6]]; [[Q2Qc 7; Q2Qc 8]]]]) =
    plane_total (sum_planes 1 2 (sum_layers 1 2 <$> py_slice [[[[Q2Qc 1; Q2Qc 2]]; [[Q2Qc 3; Q2Qc 4]]]; [[[Q2Qc 5; Q2Qc 6]]; [[Q2Qc 7; Q2Qc 8]]]] 0 (Z.of_nat 2))).
Proof. split; [eval_decide|]. apply (total_three_paths 2 1 2). eval_decide. Defined.

Lemma lay1_total_rivflx_10days_spec_witness :
  replicate 12 [[[Q2Qc 1; Q2Qc 2]]; [[Q2Qc 3; Q2Qc 4]]] ≠ [] ∧ 0 < 2 ∧ Forall (shape3 2 1 2) (replicate 12 [[[Q2Qc 1; Q2Qc 2]]; [[Q2Qc 3; Q2Qc 4]]]) ∧
  ∃ p, lay1_total_rivflx_10days 1 2 (np_array_stack (replicate 12 [[[Q2Qc 1; Q2Qc 2]]; [[Q2Qc 3; Q2Qc 4]]])) = Ok p ∧ shape2 1 2 p ∧
    ∀ r c, r < 1 → c < 2 →
      at2 p r c = Some (np_reduce num_add 𝟎
                          ((λ v, default 𝟎 (at3 v 0 r c)) <$> py_slice (replicate 12 [[[Q2Qc 1; Q2Qc 2]]; [[Q2Qc 3; Q2Qc 4]]]) 10 20)).
Proof.
  split_and!; [done|lia|eval_decide|].
  apply (lay1_total_rivflx_10days_spec 2 1 2); [done|lia|eval_decide].
Defined.

Lemma mean_map_total_witness :
  [[[[Q2Qc 1; Q2Qc 2]]; [[Q2Qc 3; Q2Qc 4]]]; [[[Q2Qc 5; Q2Qc 6]]; [[Q2Qc 7; Q2Qc 8]]]] ≠ [] ∧ Forall (shape3 2 1 2) [[[[Q2Qc 1; Q2Qc 2]]; [[Q2Qc 3; Q2Qc 4]]]; [[[Q2Qc 5; Q2Qc 6]]; [[Q2Qc 7; Q2Qc 8]]]] ∧
  ∃ p, rivflx_2D_all_time 1 2 (np_array_stack [[[[Q2Qc 1; Q2Qc 2]]; [[Q2Qc 3; Q2Qc 4]]]; [[[Q2Qc 5; Q2Qc 6]]; [[Q2Qc 7; Q2Qc 8]]]]) = Ok p ∧ shape2 1 2 p ∧
       plane_total p ⊗ num_of_Z (Z.of_nat (length [[[[Q2Qc 1; Q2Qc 2]]; [[Q2Qc 3; Q2Qc 4]]]; [[[Q2Qc 5; Q2Qc 6]]; [[Q2Qc 7; Q2Qc 8]]]])) =
       rivflx_total (np_array_stack [[[[Q2Qc 1; Q2Qc 2]]; [[Q2Qc 3; Q2Qc 4]]]; [[[Q2Qc 5; Q2Qc 6]]; [[Q2Qc 7; Q2Qc 8]]]]).
Proof.
  split_and!; [done|eval_decide|]. apply (mean_map_total 2 1 2); [done|eval_decide].
Defined.

Lemma lay1_10days_short_run_witness :
  [[[[Q2Qc 1; Q2Qc 2]]; [[Q2Qc 3; Q2Qc 4]]]] ≠ [] ∧ 0 < 2 ∧
  Forall (shape3 2 1 2) [[[[Q2Qc 1; Q2Qc 2]]; [[Q2Qc 3; Q2Qc 4]]]] ∧
  length (py_slice [[[[Q2Qc 1; Q2Qc 2]]; [[Q2Qc 3; Q2Qc 4]]]] 10 20) = Nat.min 20 1 - Nat.min 10 1 ∧
  (1 ≤ 10 → lay1_total_rivflx_10days 1 2 (np_array_stack [[[[Q2Qc 1; Q2Qc 2]]; [[Q2Qc 3; Q2Qc 4]]]]) =
            Ok (np_zeros2 1 2)).
Proof.
  assert (Hsh : Forall (shape3 2 1 2) [[[[Q2Qc 1; Q2Qc 2]]; [[Q2Qc 3; Q2Qc 4]]]]) by eval_decide.
  split; [done|]. split; [lia|]. split; [exact Hsh|].
  apply (lay1_10days_short_run 2 1 2); [done|lia|exact Hsh].
Defined.
