(* ===== verification/Float64.v ===== *)
(** * The flux values as numpy float64

    The script's arrays hold IEEE binary64 values ([np.zeros] is float64,
    the budget flows are float32 or float64 read as float64).  [float_num]
    instantiates the numeric interface with Rocq's primitive binary64
    floats, whose [+], [*] and [/] are IEEE's, rounded to nearest even.

    numpy sums a contiguous float array sequentially when it has fewer than
    eight elements and by partial pairwise summation above; the model's
    left reduction [np_sum] is numpy's order on the arrays of the theorems
    here, all of fewer than eight elements.

    The checks here are evaluations on fixed inputs, which the findings on
    lines 85 and 90 rest on: on the total the script's comment records (line 86), the
    modelled conversion of line 90 returns, bit for bit, the acre-feet value
    its comment records (line 91); with float64 values the conversion by one
    factor, which the spec asks for, is not the script's two roundings; and
    the grand total is not the sum of the step totals, so the equalities of
    [Aggregation] proved under [AddLaws] hold in exact arithmetic only. *)
From S2P Require Import Prelude NdArray Aggregation.
From stdpp Require Import base list.
From Stdlib Require Import ZArith PrimFloat Uint63.

(** Python's [float(n)] of an integer: the conversion of [n], rounded to
    nearest (exact below 2^53; the script converts only small literals
    and step counts). *)
Definition float_of_Z (z : Z) : float :=
  if (z <? 0)%Z then PrimFloat.opp (PrimFloat.of_uint63 (Uint63.of_Z (- z)))
  else PrimFloat.of_uint63 (Uint63.of_Z z).

#[export] Instance float_num : Num float := {|
  num_zero := 0%float;
  num_add := PrimFloat.add;
  num_mul := PrimFloat.mul;
  num_div := PrimFloat.div;
  num_of_Z := float_of_Z
|}.

(** A one-step, one-cell stack holding [x]. *)
Definition single_cell (x : float) : ndarray float := Dense4 [[[[x]]]].

(** ** Float64 checks behind the findings *)

(** The script's own record: whenever [rivflx.sum()] is the value its
    comment gives at line 86, -149439884.06629434, the modelled line 90
    [rivflx.sum() * 35.315 / 43560] is, bit for bit, the value its comment
    gives at line 91, -121154.0290587967. *)
Lemma total_acre_ft_line91 (a : ndarray float) :
  rivflx_total (H := float_num) a = (-149439884.06629434)%float →
  total_acre_ft (H := float_num) a = (-121154.0290587967)%float.
Proof. intros Ha. unfold total_acre_ft. rewrite Ha. vm_compute. reflexivity. Qed.

(** On float64 the script's two roundings are not the spec's single
    conversion factor: for a total of 7.0 m3, [total * 35.315 / 43560]
    differs from [total * (35.315 / 43560)] in the last bit. *)
Example acre_ft_single_factor_differs :
  total_acre_ft (single_cell 7) ≠ rivflx_total (single_cell 7) ⊗ M3_TO_ACRE_FT.
Proof.
  intros Heq. apply (f_equal (λ x, PrimFloat.Leibniz.eqb x (total_acre_ft (single_cell 7)))) in Heq.
  vm_compute in Heq. discriminate.
Qed.

(** On float64 [rivflx.sum()] is not the sum of the step totals: for
    two steps of a 1 x 1 x 2 grid holding (1e16, 1) and (-1e16, 1), the
    grand total is 1 and the sum of the step totals 0. *)
Example total_paths_differ :
  let t := [[[[1e16; 1]]]; [[[-1e16; 1]]]]%float in
  rivflx_total (H := float_num) (np_array_stack t) = 1%float ∧
  np_sum (vol_total (H := float_num) <$> t) = 0%float.
Proof. split; vm_compute; reflexivity. Qed.

