(* ===== verification/PlotPrep.v ===== *)
(** * Preparing the mean map for the plot (script lines 118-119)

    [rivflx_2D_all_time_plt = rivflx_2D_all_time.copy()] makes a new array
    object; [rivflx_2D_all_time_plt[rivflx_2D_all_time_plt == 0] = np.nan]
    writes NaN, in place, into every element of that object that compares
    equal to 0.  Python variables name objects, so whether the mean map
    itself survives the masking depends on [copy] giving a new object:
    the model keeps the variables ([env]), the objects at their addresses
    ([mem]) and the next free address, as a Python interpreter does.

    The theorems: the two lines never change the mean map or any other
    variable but [rivflx_2D_all_time_plt], keep the store well formed, and
    bind [rivflx_2D_all_time_plt] to the masked copy; the masked map has
    the mean map's shape, no element that compares equal to 0, and every
    other element unchanged.  [plt.imshow] and [plt.show] (lines 120-121)
    only draw. *)
From S2P Require Import Prelude PyObjects Aggregation Float64.
From stdpp Require Import base list gmap strings.
From Stdlib Require Import ZArith PrimFloat.

(** The variables and the 2-D float arrays they name. *)
Record pystate := mk_pystate {
  env : gmap string loc;
  mem : store (array2 float)
}.

(** Every variable names an object of a well-formed store. *)
Definition heap_wf (st : pystate) : Prop :=
  map_Forall (λ _ l, is_Some (objs (mem st) !! l)) (env st) ∧ store_wf (mem st).

#[export] Instance heap_wf_dec st : Decision (heap_wf st).
Proof. unfold heap_wf. apply _. Defined.

(** The value a variable names, if it is bound. *)
Definition py_value (st : pystate) (x : string) : option (array2 float) :=
  env st !! x ≫= λ l, objs (mem st) !! l.

(** Reading variable [x]: its object's address and contents. *)
Definition py_deref (st : pystate) (x : string) : result (loc * array2 float) :=
  l ← of_option NameError (env st !! x);
  a ← of_option NameError (objs (mem st) !! l);
  Ok (l, a).

(** [a == 0] then [a[mask] = np.nan]: IEEE [==], so -0.0 is masked too and
    a NaN is kept. *)
Definition mask_zeros (a : array2 float) : array2 float :=
  map (map (λ x, if PrimFloat.eqb x 0 then nan else x)) a.

(** Line 118: [dst = src.copy()]: a new object with [src]'s contents. *)
Definition np_copy_assign (st : pystate) (dst src : string) : result pystate :=
  '(_, a) ← py_deref st src;
  let '(l, m) := alloc (mem st) a in
  Ok (mk_pystate (<[dst := l]> (env st)) m).

(** Line 119: [x[x == 0] = np.nan], on the object [x] names. *)
Definition mask_assign_nan (st : pystate) (x : string) : result pystate :=
  '(l, a) ← py_deref st x;
  Ok (mk_pystate (env st) (store_write (mem st) l (mask_zeros a))).

(** Lines 118-119. *)
Definition plot_prep (st : pystate) : result pystate :=
  st1 ← np_copy_assign st "rivflx_2D_all_time_plt" "rivflx_2D_all_time";
  mask_assign_nan st1 "rivflx_2D_all_time_plt".

(** ** Lemmas *)

Section Bindings.
Context (st : pystate) (Hwf : heap_wf st).

(** An object a variable names is below the next free address. *)
Lemma env_below (x : string) (l : loc) : env st !! x = Some l → l < next_free (mem st).
Proof.
  intros Hx. destruct (proj1 Hwf _ _ Hx) as [a Ha]. exact (store_below _ _ _ (proj2 Hwf) Ha).
Qed.

(** Binding [dst] to a new object holding [a] changes no other variable's
    value and keeps the store well formed. *)
Lemma alloc_frame (dst y : string) (a : array2 float) :
  y ≠ dst →
  py_value (mk_pystate (<[dst := (alloc (mem st) a).1]> (env st)) (alloc (mem st) a).2) y =
  py_value st y.
Proof.
  intros Hy. unfold py_value. cbn [env mem]. rewrite lookup_insert_ne by congruence.
  destruct (env st !! y) as [l|] eqn:E; cbn [mbind option_bind]; [|done].
  apply alloc_lookup_old, (env_below y l E).
Qed.

Lemma alloc_wf (dst : string) (a : array2 float) :
  heap_wf (mk_pystate (<[dst := (alloc (mem st) a).1]> (env st)) (alloc (mem st) a).2).
Proof.
  split; cbn [env mem]; [|by apply alloc_store_wf, Hwf].
  apply map_Forall_insert_2; [rewrite alloc_lookup_new; by eexists|].
  intros x l Hx. rewrite alloc_lookup_old by exact (env_below x l Hx). exact (proj1 Hwf _ _ Hx).
Qed.
End Bindings.

Lemma elem_of_mask_zeros (a : array2 float) (r c : nat) (x : float) :
  at2 (mask_zeros a) r c = Some x ↔
  ∃ y, at2 a r c = Some y ∧ x = if PrimFloat.eqb y 0 then nan else y.
Proof.
  unfold at2, mask_zeros. rewrite list_lookup_fmap.
  destruct (a !! r) as [row|]; cbn; [|naive_solver].
  rewrite list_lookup_fmap. destruct (row !! c); cbn; naive_solver.
Qed.

(** Lines 118-119 on the state where [rivflx_2D_all_time] names object
    [l] holding [a]: a new object holding the masked copy, bound to
    [rivflx_2D_all_time_plt]. *)
Lemma plot_prep_eq (st : pystate) (l : loc) (a : array2 float) :
  env st !! "rivflx_2D_all_time" = Some l → objs (mem st) !! l = Some a →
  plot_prep st = Ok (mk_pystate (<["rivflx_2D_all_time_plt" := (alloc (mem st) (mask_zeros a)).1]> (env st))
                                (alloc (mem st) (mask_zeros a)).2).
Proof.
  intros El Hv. unfold plot_prep, np_copy_assign, mask_assign_nan, py_deref.
  rewrite El. cbn. rewrite Hv. cbn. rewrite lookup_insert_eq. cbn.
  rewrite lookup_insert_eq. cbn. unfold store_write. cbn. by rewrite insert_insert_eq.
Qed.

(** ** Theorems *)

(** C18. No aliasing: on a well-formed store where [rivflx_2D_all_time]
    names the mean map [a], lines 118-119 run without error, keep the store
    well formed, bind [rivflx_2D_all_time_plt] to the masked copy of [a],
    and leave [rivflx_2D_all_time], and every variable other than
    [rivflx_2D_all_time_plt], naming what it named before: the in-place
    mask reaches only the copy. *)
Theorem plot_prep_no_alias (st : pystate) (a : array2 float) :
  heap_wf st → py_value st "rivflx_2D_all_time" = Some a →
  ∃ st', plot_prep st = Ok st' ∧ heap_wf st' ∧
    py_value st' "rivflx_2D_all_time" = Some a ∧
    py_value st' "rivflx_2D_all_time_plt" = Some (mask_zeros a) ∧
    ∀ y, y ≠ "rivflx_2D_all_time_plt" → py_value st' y = py_value st y.
Proof.
  intros Hwf Hv. unfold py_value in Hv.
  destruct (env st !! "rivflx_2D_all_time") as [l|] eqn:El; [|done]. cbn in Hv.
  exists (mk_pystate (<["rivflx_2D_all_time_plt" := (alloc (mem st) (mask_zeros a)).1]> (env st))
            (alloc (mem st) (mask_zeros a)).2).
  split_and!.
  - by apply (plot_prep_eq _ l).
  - by apply alloc_wf.
  - rewrite (alloc_frame st Hwf); [|discriminate]. unfold py_value. by rewrite El.
  - unfold py_value. cbn [env mem]. rewrite lookup_insert_eq. cbn [mbind option_bind].
    apply alloc_lookup_new.
  - intros y Hy. by apply (alloc_frame st Hwf).
Qed.

(** C19. The plotted map: it has the mean map's shape, none of its
    elements compares equal to 0 (each zero, -0.0 included, became NaN),
    and every element of the mean map that is not equal to 0 is kept. *)
Theorem mask_zeros_spec (R C : nat) (a : array2 float) :
  shape2 R C a →
  shape2 R C (mask_zeros a) ∧
  (∀ r c x, at2 (mask_zeros a) r c = Some x → PrimFloat.eqb x 0 = false) ∧
  (∀ r c x, at2 a r c = Some x → PrimFloat.eqb x 0 = false → at2 (mask_zeros a) r c = Some x).
Proof.
  intros Hsh. split_and!.
  - unfold mask_zeros. apply shape2_map, Hsh.
  - intros r c x (y & _ & ->)%elem_of_mask_zeros. by destruct (PrimFloat.eqb y 0) eqn:E.
  - intros r c x Hx Hne. apply elem_of_mask_zeros. exists x. by rewrite Hne.
Qed.

(** ** Witnesses *)

(** The mean map [[0, 1.5], [-0.0, -2]] bound to [rivflx_2D_all_time]. *)
Definition sample_store : pystate :=
  mk_pystate {["rivflx_2D_all_time" := 0]} (mk_store {[0 := [[0; 1.5]; [-0; -2]]%float]} 1).

Lemma plot_prep_no_alias_witness :
  heap_wf sample_store ∧ py_value sample_store "rivflx_2D_all_time" = Some [[0; 1.5]; [-0; -2]]%float ∧
  ∃ st', plot_prep sample_store = Ok st' ∧ heap_wf st' ∧
    py_value st' "rivflx_2D_all_time" = Some [[0; 1.5]; [-0; -2]]%float ∧
    py_value st' "rivflx_2D_all_time_plt" = Some (mask_zeros [[0; 1.5]; [-0; -2]]%float) ∧
    ∀ y, y ≠ "rivflx_2D_all_time_plt" → py_value st' y = py_value sample_store y.
Proof.
  assert (Hwf : heap_wf sample_store) by eval_decide.
  assert (Hv : py_value sample_store "rivflx_2D_all_time" = Some [[0; 1.5]; [-0; -2]]%float)
    by reflexivity.
  split_and!; [exact Hwf|exact Hv|]. exact (plot_prep_no_alias _ _ Hwf Hv).
Defined.

Lemma mask_zeros_spec_witness :
  shape2 2 2 [[0; 1.5]; [-0; -2]]%float ∧
  shape2 2 2 (mask_zeros [[0; 1.5]; [-0; -2]]%float) ∧
  (∀ r c x, at2 (mask_zeros [[0; 1.5]; [-0; -2]]%float) r c = Some x → PrimFloat.eqb x 0 = false) ∧
  (∀ r c x, at2 [[0; 1.5]; [-0; -2]]%float r c = Some x → PrimFloat.eqb x 0 = false →
     at2 (mask_zeros [[0; 1.5]; [-0; -2]]%float) r c = Some x).
Proof.
  assert (Hsh : shape2 2 2 [[0; 1.5]; [-0; -2]]%float) by eval_decide.
  split; [exact Hsh|]. exact (mask_zeros_spec 2 2 _ Hsh).
Defined.
