(* ===== verification/Plotting.v ===== *)
(** * The plot (script lines 120-121)

    [plt.imshow(rivflx_2D_all_time_plt)] draws the masked mean map into the
    current figure of pyplot, making one when none is open, and
    [plt.show()] displays the open figures; a script's blocking [show]
    returns once their windows are closed, and closed figures are gone.
    matplotlib keeps an image's data as [AxesImage.set_data] stores it:
    [cbook.safe_masked_invalid(A, copy=True)], a copy of the array in which
    every element that is not finite is masked.  A masked element is drawn
    in the colormap's "bad" colour, transparent by default: the zeros the
    script set to NaN at line 119 are left blank.

    [pyplot] is pyplot's state: the open figures (the last one current),
    each with the images of its axes, and what [show] has displayed.  The
    theorem: from a state where [rivflx_2D_all_time] names the mean map and
    no figure is open, lines 118-121 display one figure with one image, in
    which a cell is blank exactly when the mean map holds 0, -0.0, NaN or an
    infinity there and shows the mean map's value otherwise; the mean map
    itself is unchanged and no figure is left open. *)
From S2P Require Import Prelude PyObjects Aggregation Float64 PlotPrep.
From stdpp Require Import base list gmap strings.
From Stdlib Require Import ZArith PrimFloat.

(** An image's data: [None] for a masked element. *)
Abbreviation image := (array2 (option float)).

(** [cbook.safe_masked_invalid(A, copy=True)]: a copy of [A], masked where
    [~np.isfinite(A)]. *)
Definition safe_masked_invalid (a : array2 float) : image :=
  map (map (λ x, if PrimFloat.is_finite x then Some x else None)) a.

Record pyplot := mk_pyplot {
  figures : list (list image);          (** open figures, the current last *)
  displayed : list (list (list image))  (** the figures of each [show] *)
}.

(** [plt.imshow(X)]: the image of [X] added to the current figure's axes,
    in a new figure when none is open. *)
Definition plt_imshow (p : pyplot) (a : array2 float) : pyplot :=
  let img := safe_masked_invalid a in
  match figures p with
  | [] => mk_pyplot [[img]] (displayed p)
  | figs => mk_pyplot (removelast figs ++ [default [] (last figs) ++ [img]]) (displayed p)
  end.

(** [plt.show()] with an interactive backend (a window per figure, as the
    script is meant to be run): every open figure is displayed, and is
    closed when its window is.  A non-interactive backend such as Agg
    displays nothing and leaves the figures open; that case is not
    modelled. *)
Definition plt_show (p : pyplot) : pyplot := mk_pyplot [] (displayed p ++ [figures p]).

(** Lines 120-121. *)
Definition plot_show (st : pystate) (p : pyplot) : result pyplot :=
  '(_, a) ← py_deref st "rivflx_2D_all_time_plt";
  Ok (plt_show (plt_imshow p a)).

(** Lines 118-121. *)
Definition plot_lines (st : pystate) (p : pyplot) : result (pystate * pyplot) :=
  st' ← plot_prep st;
  p' ← plot_show st' p;
  Ok (st', p').

(** What a displayed cell shows for a mean-map value [y]: blank ([None])
    for 0, -0.0, NaN and the infinities. *)
Definition shown_cell (y : float) : option float :=
  if PrimFloat.eqb y 0 || negb (PrimFloat.is_finite y) then None else Some y.

(** ** Lemmas *)

Lemma at2_map {A B} (f : A → B) (a : array2 A) (r c : nat) :
  at2 (map (map f) a) r c = f <$> at2 a r c.
Proof.
  unfold at2. rewrite list_lookup_fmap.
  destruct (a !! r) as [row|]; cbn; [|done]. by rewrite list_lookup_fmap.
Qed.

Lemma map_map_compose {A B D} (f : A → B) (g : B → D) (a : array2 A) :
  map (map g) (map (map f) a) = map (map (g ∘ f)) a.
Proof. rewrite map_map. apply map_ext. intros row. by rewrite map_map. Qed.

(** Masking the zeros, then the invalid elements, is [shown_cell]. *)
Lemma safe_masked_invalid_mask_zeros (a : array2 float) :
  safe_masked_invalid (mask_zeros a) = map (map shown_cell) a.
Proof.
  unfold safe_masked_invalid, mask_zeros. rewrite map_map_compose.
  apply map_ext. intros row. apply map_ext. intros y. cbn. unfold shown_cell.
  by destruct (PrimFloat.eqb y 0), (PrimFloat.is_finite y).
Qed.

(** Lines 118-121 on a state where [rivflx_2D_all_time] names object [l]
    holding [a]: the masked copy is bound to [rivflx_2D_all_time_plt],
    drawn, and shown. *)
Lemma plot_lines_eq (st : pystate) (p : pyplot) (l : loc) (a : array2 float) :
  env st !! "rivflx_2D_all_time" = Some l → objs (mem st) !! l = Some a →
  plot_lines st p =
    Ok (mk_pystate (<["rivflx_2D_all_time_plt" := (alloc (mem st) (mask_zeros a)).1]> (env st))
                   (alloc (mem st) (mask_zeros a)).2,
        plt_show (plt_imshow p (mask_zeros a))).
Proof.
  intros El Hv. unfold plot_lines. rewrite (plot_prep_eq _ l a El Hv). cbn [mbind result_bind].
  unfold plot_show, py_deref. cbn [env mem]. rewrite lookup_insert_eq. cbn.
  by rewrite lookup_insert_eq.
Qed.

(** ** Theorems *)

(** C26. What the script displays: from a well-formed state where
    [rivflx_2D_all_time] names the mean map [a] and no figure is open,
    lines 118-121 run without error, display one figure holding one image
    and leave no figure open; a cell of the image is blank exactly where
    [a] holds 0, -0.0, NaN or an infinity and shows [a]'s value elsewhere;
    and [rivflx_2D_all_time] still names [a]. *)
Theorem plot_displays_masked_mean (st : pystate) (p : pyplot) (a : array2 float) :
  heap_wf st → py_value st "rivflx_2D_all_time" = Some a → figures p = [] →
  ∃ st' (img : image), plot_lines st p = Ok (st', mk_pyplot [] (displayed p ++ [[[img]]])) ∧
    py_value st' "rivflx_2D_all_time" = Some a ∧
    ∀ r c, at2 img r c = shown_cell <$> at2 a r c.
Proof.
  intros Hwf Hv Hp. unfold py_value in Hv.
  destruct (env st !! "rivflx_2D_all_time") as [l|] eqn:El; [|done]. cbn in Hv.
  exists (mk_pystate (<["rivflx_2D_all_time_plt" := (alloc (mem st) (mask_zeros a)).1]> (env st))
                     (alloc (mem st) (mask_zeros a)).2), (safe_masked_invalid (mask_zeros a)).
  split_and!.
  - rewrite (plot_lines_eq _ _ l a El Hv). unfold plt_imshow. by rewrite Hp.
  - rewrite (alloc_frame st Hwf); [|discriminate]. unfold py_value. by rewrite El.
  - intros r c. by rewrite safe_masked_invalid_mask_zeros, at2_map.
Qed.

Lemma plot_displays_masked_mean_witness :
  heap_wf sample_store ∧
  py_value sample_store "rivflx_2D_all_time" = Some [[0; 1.5]; [-0; -2]]%float ∧
  figures (mk_pyplot [] []) = [] ∧
  ∃ st' (img : image), plot_lines sample_store (mk_pyplot [] []) = Ok (st', mk_pyplot [] ([] ++ [[[img]]])) ∧
    py_value st' "rivflx_2D_all_time" = Some [[0; 1.5]; [-0; -2]]%float ∧
    ∀ r c, at2 img r c = shown_cell <$> at2 [[0; 1.5]; [-0; -2]]%float r c.
Proof.
  assert (Hwf : heap_wf sample_store) by eval_decide.
  assert (Hv : py_value sample_store "rivflx_2D_all_time" = Some [[0; 1.5]; [-0; -2]]%float)
    by reflexivity.
  assert (Hp : figures (mk_pyplot [] []) = []) by reflexivity.
  split_and!; [exact Hwf|exact Hv|exact Hp|]. exact (plot_displays_masked_mean _ _ _ Hwf Hv Hp).
Defined.
