(* ===== verification/Script.v ===== *)
(** * The script from the cell table on (lines 29-114)

    [script] composes the parts in the script's order: the cell table
    (lines 29-39), the loop over the steps with the text '   RIVER LEAKAGE'
    on the DSModel_09 grid (2, 102, 217) (lines 42-67), the stack (line 70),
    and the queries of lines 79, 85, 90, 111 and 114, whose values it
    returns.  [pipeline] is the same script after line 39, for any cell
    table.

    The theorems: the script computes exactly what the same pipeline
    computes with the spec's O(1) [resolve] in place of the searched table;
    the spec's worked scenario (section 8); a file with no time step makes
    the script raise at line 79; whenever the script returns, its results
    have the shapes the comments of lines 74 and 82 record, and [rivflx]
    the shape of line 73; a file that holds no record of the text makes
    the script raise flopy's [Exception] at line 51 (proved from the
    reader's laws alone).  [PathConfig] adds lines 12-16 in front. *)
From S2P Require Import Prelude NdArray CoordinateIndex BudgetFile FluxAccumulator Aggregation.
From stdpp Require Import base list gmap strings.
From Stdlib Require Import ZArith Lia QArith Qcanon.
Local Close Scope Qc_scope.
Local Close Scope Q_scope.

(** The grid of the model (lines 30, 31, 59). *)
Definition NLAY : nat := 2.
Definition NROW : nat := 102.
Definition NCOL : nat := 217.

(** The values the script computes. *)
Record outputs (V : Type) := mk_outputs {
  out_rivflx : ndarray V;            (** line 70 *)
  out_rivflx_2D_all_time : array2 V; (** line 79 *)
  out_total : V;                     (** line 85 *)
  out_total_acre_ft : V;             (** line 90 *)
  out_lay1_10days : array2 V;        (** line 111 *)
  out_lay1_10days_total : V          (** line 114 *)
}.
Arguments mk_outputs {V}.
Arguments out_rivflx {V} _.
Arguments out_rivflx_2D_all_time {V} _.
Arguments out_total {V} _.
Arguments out_total_acre_ft {V} _.
Arguments out_lay1_10days {V} _.
Arguments out_lay1_10days_total {V} _.

Section Script.
Context `{Num V} `{CellBudgetFile V}.

(** Lines 42-114, with the cell table [lookup]. *)
Definition pipeline (lookup : Z → result coord) : result (outputs V) :=
  steps ← collect_steps NLAY NROW NCOL lookup RIVER_LEAKAGE;
  let rivflx := np_array_stack steps in
  m2d ← rivflx_2D_all_time NROW NCOL rivflx;
  lay1 ← lay1_total_rivflx_10days NROW NCOL rivflx;
  Ok (mk_outputs rivflx m2d (rivflx_total rivflx) (total_acre_ft rivflx) lay1 (plane_total lay1)).

(** Lines 29-114. *)
Definition script : result (outputs V) :=
  id_dict ← build_id_dict NLAY NROW NCOL;
  pipeline (id_dict_lookup id_dict).
End Script.

#[export] Instance pipeline_proper `{Num V} `{CellBudgetFile V} :
  Proper (pointwise_relation Z eq ==> eq) (pipeline (V:=V)).
Proof. intros l1 l2 Hl. unfold pipeline. by rewrite Hl. Qed.

(** ** Theorems *)

(** C13. End-to-end refinement: the script, with its O(n^2) searched
    table, returns exactly what the same pipeline returns with the spec's
    O(1) arithmetic [resolve] (section 9), on every budget file: the same
    values, and the same exceptions. *)
Theorem script_refines_resolve `{Num V} `{CellBudgetFile V} :
  script (V:=V) = pipeline (resolve_lookup NLAY NROW NCOL).
Proof.
  unfold script. rewrite build_id_dict_ok. cbn [mbind result_bind].
  by rewrite table_lookup_resolve.
Qed.

(** The spec's scenario (section 8) on the model's grid: step 0 has
    an empty river record, step 1 the entry (0, 10.0), step 2 the entries
    (217, 5.0) and (217, -2.0).  The script returns three volumes; the
    first is all zero, the second holds 10 at (0, 0, 0), the third 3 at
    (0, 1, 0) (217 = 1 * 217 + 0); the grand total is 13 and the acre-feet
    total 13 * 35.315 / 43560. *)
Example spec_scenario :
  (o ← script (H0 := archive_file
      [mk_record (0, 0)%Z RIVER_LEAKAGE [];
       mk_record (0, 1)%Z RIVER_LEAKAGE [mk_entry 0 (Q2Qc 10)];
       mk_record (0, 2)%Z RIVER_LEAKAGE [mk_entry 217 (Q2Qc 5); mk_entry 217 (Q2Qc (-2))]]);
   vols ← full_index4 (out_rivflx o);
   Ok (length vols,
       bool_decide (vols !! 0 = Some (np_zeros3 NLAY NROW NCOL)),
       vols !! 1 ≫= (λ v, at3 v 0 0 0),
       vols !! 2 ≫= (λ v, at3 v 0 1 0),
       out_total o,
       out_total_acre_ft o)) =
  Ok (3, true, Some (Q2Qc 10), Some (Q2Qc 3), Q2Qc 13, Q2Qc 13 ⊗ FT3_PER_M3 ⊘ FT3_PER_ACRE_FT).
Proof.
  unfold script. rewrite build_id_dict_ok. cbn [mbind result_bind].
  rewrite table_lookup_resolve.
  vm_compute. reflexivity.
Qed.

(** C14. A budget file with no time step makes the script raise
    [IndexError] at line 79 ([rivflx[:,:,:,:]] on the 1-D [np.array([])]),
    where the spec expects an empty result. *)
Theorem script_no_steps `{Num V} `{CellBudgetFile V} :
  get_kstpkper (V:=V) = [] → script (V:=V) = Err IndexError.
Proof.
  intros Hk. unfold script. rewrite build_id_dict_ok. cbn [mbind result_bind].
  unfold pipeline. rewrite collect_steps_mapM, Hk. done.
Qed.

Lemma script_no_steps_witness :
  get_kstpkper (CellBudgetFile := archive_file (V:=Qc) []) = [] ∧
  script (H0 := archive_file (V:=Qc) []) = Err IndexError.
Proof. split; [reflexivity|]. apply script_no_steps. reflexivity. Defined.

(** C20. Shapes of the results: whenever the script returns, [rivflx] is
    the 4-D stack of one (2, 102, 217) volume per step of the file (line 74
    records the shape (292, 2, 102, 217)), and the mean map of line 79 and
    the [10:20] layer map of line 111 are (102, 217) arrays (line 82),
    whatever the file holds. *)
Theorem script_output_shapes `{Num V} `{CellBudgetFile V} (o : outputs V) :
  script = Ok o →
  (∃ t, out_rivflx o = Dense4 t ∧ length t = length get_kstpkper ∧
        Forall (shape3 NLAY NROW NCOL) t) ∧
  shape2 NROW NCOL (out_rivflx_2D_all_time o) ∧ shape2 NROW NCOL (out_lay1_10days o).
Proof.
  unfold script. destruct (build_id_dict _ _ _) as [d|]; cbn [mbind result_bind]; [|done].
  unfold pipeline. destruct (collect_steps _ _ _ _ _) as [vs|] eqn:Ec; cbn [mbind result_bind]; [|done].
  destruct (collect_steps_shape _ _ _ _ _ _ Ec) as [Hlen Hsh].
  destruct (rivflx_2D_all_time _ _ _) as [m|] eqn:Em; cbn [mbind result_bind]; [|done].
  destruct (lay1_total_rivflx_10days _ _ _) as [p|] eqn:Ep; cbn [mbind result_bind]; [|done].
  intros [= <-]. cbn. split_and!.
  - destruct vs as [|v vs']; [discriminate|]. by eexists.
  - exact (rivflx_2D_all_time_shape _ _ _ _ _ Hsh Em).
  - exact (lay1_total_rivflx_10days_shape NLAY _ _ _ _ ltac:(unfold NLAY; lia) Hsh Ep).
Qed.

Lemma script_output_shapes_witness :
  ∃ o, script (H0 := archive_file [mk_record (0, 0)%Z RIVER_LEAKAGE [mk_entry 0 (Q2Qc 1)]]) = Ok o ∧
  (∃ t, out_rivflx o = Dense4 t ∧ length t = 1 ∧ Forall (shape3 NLAY NROW NCOL) t) ∧
  shape2 NROW NCOL (out_rivflx_2D_all_time o) ∧ shape2 NROW NCOL (out_lay1_10days o).
Proof.
  assert (Hok : is_ok (script (H0 := archive_file [mk_record (0, 0)%Z RIVER_LEAKAGE
                                                     [mk_entry 0 (Q2Qc 1)]])) = true).
  { unfold script. rewrite build_id_dict_ok. cbn [mbind result_bind].
    rewrite table_lookup_resolve. vm_compute. reflexivity. }
  destruct (is_ok_Ok _ Hok) as [o Ho]. exists o. split; [exact Ho|].
  exact (script_output_shapes (H0 := archive_file _) o Ho).
Defined.

(** C24. A component absent from the whole file: when the file has a time
    step but none of its record names contains '   RIVER LEAKAGE', the
    script raises flopy's [Exception] at line 51 on the first step, after
    building the whole cell table; the spec asks for a
    [ComponentNotFoundError] at start-up.  Proved against the reader's laws
    only. *)
Theorem script_unknown_component `{Num V} `{CellBudgetFile V} `{!CellBudgetFileLaws V} :
  get_kstpkper ≠ [] →
  find_text get_unique_record_names RIVER_LEAKAGE = Err PyException →
  script (V:=V) = Err PyException.
Proof.
  intros Hk Hf. unfold script. rewrite build_id_dict_ok. cbn [mbind result_bind].
  unfold pipeline. rewrite collect_steps_mapM.
  destruct get_kstpkper as [|k ks]; [done|]. rewrite mapM_result_cons.
  unfold process_step, fetch_records. by rewrite (get_data_unknown_text k _ Hf).
Qed.

(** A file whose only records are storage terms. *)
Definition storage_only_file : CellBudgetFile Qc := archive_file
  [mk_record (0, 0)%Z "         STORAGE" [mk_entry 5 (Q2Qc 1)]].

Lemma script_unknown_component_witness :
  get_kstpkper (CellBudgetFile := storage_only_file) ≠ [] ∧
  find_text (get_unique_record_names (CellBudgetFile := storage_only_file)) RIVER_LEAKAGE =
    Err PyException ∧
  script (H0 := storage_only_file) = Err PyException.
Proof.
  assert (Hk : get_kstpkper (CellBudgetFile := storage_only_file) ≠ []) by discriminate.
  assert (Hf : find_text (get_unique_record_names (CellBudgetFile := storage_only_file))
                 RIVER_LEAKAGE = Err PyException) by reflexivity.
  split_and!; [exact Hk|exact Hf|].
  exact (script_unknown_component (H0 := storage_only_file) Hk Hf).
Defined.

(** C25. The shape line 73 echoes: whenever the loop returns, [rivflx.shape]
    is (T, 2, 102, 217) with T the number of time steps of the file (the
    comment at line 74 records (292, 2, 102, 217)), and (0,) for a file
    with no step, where it raises nothing although line 79 then raises.
    It holds whatever the cell table answers. *)
Theorem rivflx_shape_line73 `{Num V} `{CellBudgetFile V} (lookup : Z → result coord)
        (vs : list (array3 V)) :
  collect_steps NLAY NROW NCOL lookup RIVER_LEAKAGE = Ok vs →
  ndarray_shape (np_array_stack vs) =
    match get_kstpkper with [] => [0] | _ => [length get_kstpkper; NLAY; NROW; NCOL] end.
Proof.
  intros Hc. destruct (collect_steps_shape _ _ _ _ _ _ Hc) as [Hlen Hsh].
  destruct vs as [|v vs']; destruct get_kstpkper as [|k ks]; cbn in Hlen; try done.
  apply Forall_cons in Hsh as [Hv _]. unfold ndarray_shape, np_array_stack.
  change (default [] (head (v :: vs'))) with v.
  rewrite (dims3_shape NLAY NROW NCOL v Hv) by (unfold NLAY, NROW; lia). cbn. by rewrite Hlen.
Qed.

(** One step with one entry. *)
Definition one_step_file : CellBudgetFile Qc :=
  archive_file [mk_record (0, 0)%Z RIVER_LEAKAGE [mk_entry 0 (Q2Qc 1)]].

Lemma rivflx_shape_line73_witness :
  ∃ vs, collect_steps (H0 := one_step_file) NLAY NROW NCOL (resolve_lookup NLAY NROW NCOL)
          RIVER_LEAKAGE = Ok vs ∧
        ndarray_shape (np_array_stack vs) = [1; NLAY; NROW; NCOL].
Proof.
  assert (Hok : is_ok (collect_steps (H0 := one_step_file) NLAY NROW NCOL
                         (resolve_lookup NLAY NROW NCOL) RIVER_LEAKAGE) = true)
    by (vm_compute; reflexivity).
  destruct (is_ok_Ok _ Hok) as [vs Hvs]. exists vs. split; [exact Hvs|].
  exact (rivflx_shape_line73 (H0 := one_step_file) _ vs Hvs).
Defined.
