(* ===== verification/PathConfig.v ===== *)
(** * The input path and the budget file (script lines 12-16)

    [out_pth = r'C:\Temp\ibraheem'] (a raw string: its backslashes are
    characters), [ccf_file = 'DSModel_09.ccf'],
    [ccf_out = os.path.join(out_pth, ccf_file)], and
    [bf.CellBudgetFile(ccf_out)], which opens that path.  [os.path] is
    [ntpath] on Windows and [posixpath] elsewhere; both [join]s are written
    out from CPython's [Lib/ntpath.py] and [Lib/posixpath.py] for two
    arguments.  A file system maps path strings to budget files; [program]
    is the script from line 12 on.

    The theorems: joining a directory that does not end in a separator
    with a plain file name puts '\' between them under [ntpath] and '/'
    under [posixpath]; so the script's path is 'C:\Temp\ibraheem\DSModel_09.ccf'
    on Windows and the different name 'C:\Temp\ibraheem/DSModel_09.ccf'
    elsewhere, and a file stored under the Windows name makes the program
    run the script on Windows and raise [FileNotFoundError] at line 16
    elsewhere. *)
From S2P Require Import Prelude PyStrings BudgetFile Script.
From stdpp Require Import base list gmap strings.
From Stdlib Require Import Ascii String.
Local Open Scope string_scope.

Inductive platform := Posix | Windows.

(** Line 12. *)
Definition out_pth : string := "C:\Temp\ibraheem".

(** Line 13. *)
Definition ccf_file : string := "DSModel_09.ccf".

(** [posixpath.join(a, b)] *)
Definition posix_join (a b : string) : string :=
  if py_startswith "/" b then b
  else if String.eqb a "" || py_last_in "/" a then a ++ b
  else a ++ "/" ++ b.

Definition is_nt_sep (c : ascii) : bool := py_str_in (String c EmptyString) "\/".

(** [p.replace('/', '\')], the [normp] of [ntpath.splitroot]. *)
Fixpoint nt_norm (p : string) : string :=
  match p with
  | EmptyString => EmptyString
  | String c p' => String (if Ascii.eqb c "/" then "\"%char else c) (nt_norm p')
  end.

(** The UNC branch of [ntpath.splitroot]: [\\server\share\rest] and
    [\\?\UNC\server\share\rest]. *)
Definition nt_split_unc (p : string) : string * string * string :=
  let normp := nt_norm p in
  let start := if String.eqb (py_upper (substring 0 8 normp)) "\\?\UNC\" then 8 else 2 in
  match index start "\" normp with
  | None => (p, "", "")
  | Some i =>
      match index (S i) "\" normp with
      | None => (p, "", "")
      | Some j => (substring 0 j p, substring j 1 p, substring (S j) (length p - S j) p)
      end
  end.

(** [ntpath.splitroot(p)]: (drive, root, rest). *)
Definition nt_splitroot (p : string) : string * string * string :=
  match p with
  | EmptyString => ("", "", "")
  | String c1 rest =>
      if is_nt_sep c1 then
        match rest with
        | String c2 _ => if is_nt_sep c2 then nt_split_unc p else ("", String c1 "", rest)
        | EmptyString => ("", String c1 "", "")
        end
      else
        match rest with
        | String c2 rest2 =>
            if Ascii.eqb c2 ":" then
              match rest2 with
              | String c3 rest3 =>
                  if is_nt_sep c3 then (String c1 (String c2 ""), String c3 "", rest3)
                  else (String c1 (String c2 ""), "", rest2)
              | EmptyString => (String c1 (String c2 ""), "", "")
              end
            else ("", "", p)
        | EmptyString => ("", "", p)
        end
  end.

(** [ntpath.join(path, p)] *)
Definition nt_join (path p : string) : string :=
  let '(rd, rr, rp) := nt_splitroot path in
  let '(pd, pr, pp) := nt_splitroot p in
  let '(rd, rr, rp) :=
    if negb (String.eqb pr "") then
      ((if negb (String.eqb pd "") || String.eqb rd "" then pd else rd), pr, pp)
    else if negb (String.eqb pd "") && negb (String.eqb pd rd) &&
            negb (String.eqb (py_lower pd) (py_lower rd)) then (pd, pr, pp)
    else ((if negb (String.eqb pd "") then pd else rd), rr,
          (if negb (String.eqb rp "") && negb (py_last_in "\/" rp) then rp ++ "\" else rp) ++ pp) in
  if negb (String.eqb rp "") && String.eqb rr "" && negb (String.eqb rd "") &&
     negb (py_last_in ":\/" rd)
  then rd ++ "\" ++ rp else rd ++ rr ++ rp.

(** [os.path.join] of the platform. *)
Definition os_path_join (plat : platform) (a b : string) : string :=
  match plat with Posix => posix_join a b | Windows => nt_join a b end.

(** Line 14. *)
Definition ccf_out (plat : platform) : string := os_path_join plat out_pth ccf_file.

(** Line 16: [bf.CellBudgetFile(path)] opens the file. *)
Definition open_budget_file {V} (fs : gmap string (list (budget_record V))) (path : string)
    : result (CellBudgetFile V) :=
  recs ← of_option FileNotFoundError (fs !! path);
  Ok (archive_file recs).

(** Lines 12-16 and the script: the budget file is opened at the joined
    path, then the script runs on it. *)
Definition program `{Num V} (plat : platform) (fs : gmap string (list (budget_record V)))
    : result (outputs V) :=
  modobj ← open_budget_file fs (ccf_out plat);
  @script V _ modobj.

(** [f] holds no separator and no colon: a file name, not a path or a drive. *)
Definition plain_name (f : string) : bool :=
  forallb (λ c, negb (is_nt_sep c) && negb (Ascii.eqb c ":")) (list_ascii_of_string f).

(** ** Lemmas *)

Lemma is_nt_sep_eqb (c : ascii) : is_nt_sep c = Ascii.eqb c "\" || Ascii.eqb c "/".
Proof. unfold is_nt_sep. rewrite py_str_in_char. cbn. by rewrite orb_false_r. Qed.

Lemma length_nt_norm (p : string) : length (nt_norm p) = length p.
Proof. induction p as [|c p IH]; cbn; congruence. Qed.

(** A position [index] finds lies inside the string. *)
Lemma index_char_lt (n m : nat) (c : ascii) (s : string) :
  index n (String c "") s = Some m → m < length s.
Proof.
  intros Hi%index_correct1. destruct (decide (m < length s)) as [|Hge]; [done|].
  rewrite substring_beyond in Hi by lia. discriminate.
Qed.

Lemma nt_split_unc_app (p : string) : let '(d, r, t) := nt_split_unc p in d ++ r ++ t = p.
Proof.
  unfold nt_split_unc. cbv zeta.
  destruct (index _ "\" (nt_norm p)) as [i|]; [|apply str_app_nil_r].
  destruct (index (S i) "\" (nt_norm p)) as [j|] eqn:Ej; [|apply str_app_nil_r].
  apply index_char_lt in Ej. rewrite length_nt_norm in Ej.
  rewrite substring_split1 by done. apply substring_app. lia.
Qed.

(** [drive + root + tail == p]: [splitroot] only cuts [p] in three. *)
Lemma nt_splitroot_app (p : string) : let '(d, r, t) := nt_splitroot p in d ++ r ++ t = p.
Proof.
  destruct p as [|c1 [|c2 rest]]; cbn -[nt_split_unc is_nt_sep Ascii.eqb];
    [done|by destruct (is_nt_sep c1)|].
  destruct (is_nt_sep c1); [destruct (is_nt_sep c2); [apply nt_split_unc_app|done]|].
  destruct (Ascii.eqb c2 ":") eqn:E; [|done]. apply Ascii.eqb_eq in E as ->.
  destruct rest as [|c3 rest3]; [done|]. by destruct (is_nt_sep c3).
Qed.

Lemma nt_split_unc_root (p d r t : string) : nt_split_unc p = (d, r, t) → t ≠ "" → r ≠ "".
Proof.
  unfold nt_split_unc. cbv zeta.
  destruct (index _ "\" (nt_norm p)) as [i|]; [|by intros [= _ _ <-]].
  destruct (index (S i) "\" (nt_norm p)) as [j|] eqn:Ej; [|by intros [= _ _ <-]].
  intros [= _ <- _] _. apply substring_one_ne.
  apply index_char_lt in Ej. by rewrite length_nt_norm in Ej.
Qed.

(** When [splitroot] leaves a path part, the drive and root of [p] are
    either a root, no drive, or a drive ending in ':' or a separator. *)
Lemma nt_splitroot_drive (p d r t : string) :
  nt_splitroot p = (d, r, t) → t ≠ "" → r ≠ "" ∨ d = "" ∨ py_last_in ":\/" d = true.
Proof.
  destruct p as [|c1 [|c2 rest]]; cbn -[nt_split_unc is_nt_sep Ascii.eqb];
    [intros [= <- <- <-]; auto|by destruct (is_nt_sep c1); intros [= <- <- <-]; auto|].
  destruct (is_nt_sep c1).
  { destruct (is_nt_sep c2); [intros Hu Ht; left; exact (nt_split_unc_root _ _ _ _ Hu Ht)|].
    intros [= <- <- <-] _. by left. }
  destruct (Ascii.eqb c2 ":") eqn:E; [|intros [= <- <- <-]; auto]. apply Ascii.eqb_eq in E as ->.
  destruct rest as [|c3 r3]; [|destruct (is_nt_sep c3)]; intros [= <- <- <-] _; auto.
Qed.

Lemma plain_name_cons (c : ascii) (f : string) :
  plain_name (String c f) = true →
  is_nt_sep c = false ∧ Ascii.eqb c ":" = false ∧ plain_name f = true.
Proof.
  unfold plain_name. cbn [list_ascii_of_string forallb].
  destruct (is_nt_sep c), (Ascii.eqb c ":"); naive_solver.
Qed.

(** A plain name has neither drive nor root. *)
Lemma nt_splitroot_plain (f : string) : plain_name f = true → nt_splitroot f = ("", "", f).
Proof.
  destruct f as [|c1 [|c2 r]]; [done|..]; intros (Hs1 & _ & Hf)%plain_name_cons;
    cbn -[is_nt_sep Ascii.eqb]; rewrite Hs1; [done|].
  by destruct (plain_name_cons _ _ Hf) as (_ & -> & _).
Qed.

Lemma posix_join_plain (d f : string) :
  d ≠ "" → py_last_in "/" d = false → plain_name f = true → posix_join d f = d ++ "/" ++ f.
Proof.
  intros Hd Hl Hf. unfold posix_join.
  assert (py_startswith "/" f = false) as ->.
  { destruct f as [|c f]; [done|]. destruct (plain_name_cons _ _ Hf) as (Hs & _).
    rewrite is_nt_sep_eqb in Hs. apply orb_false_iff in Hs as [_ Hs%Ascii.eqb_neq].
    unfold py_startswith, prefix. destruct (ascii_dec _ _); [congruence|done]. }
  rewrite Hl, orb_false_r. by apply String.eqb_neq in Hd as ->.
Qed.

Lemma nt_join_plain (d f : string) :
  (nt_splitroot d).2 ≠ "" → py_last_in "\/" d = false → plain_name f = true →
  nt_join d f = d ++ "\" ++ f.
Proof.
  intros Ht Hl Hf. pose proof (nt_splitroot_app d) as Happ. pose proof (nt_splitroot_drive d) as Hdr.
  destruct (nt_splitroot d) as [[rd rr] rp] eqn:E. cbn in Ht.
  rewrite <- Happ, !py_last_in_app in Hl by auto using str_app_ne_r.
  apply String.eqb_neq in Ht as Ht'.
  unfold nt_join. rewrite E, nt_splitroot_plain, String.eqb_refl by done. cbn [negb orb andb].
  rewrite Ht', Hl. cbn [negb andb].
  assert (String.eqb ((rp ++ "\") ++ f) "" = false) as -> by (destruct rp; [done|reflexivity]).
  rewrite <- Happ, !str_app_assoc. cbn [negb andb].
  destruct (Hdr _ _ _ eq_refl Ht) as [Hr%String.eqb_neq|[->|Hd]];
    [rewrite Hr|rewrite String.eqb_refl|rewrite Hd];
    cbn [negb andb]; rewrite ?andb_false_r; done.
Qed.

Lemma py_last_in_slash (s : string) : py_last_in "\/" s = false → py_last_in "/" s = false.
Proof.
  unfold py_last_in. destruct (str_last s) as [c|]; [|done].
  rewrite !py_str_in_char. cbn. by destruct (Ascii.eqb c "\").
Qed.

(** ** The joined path *)

(** [os.path.join] of a directory whose path part (after drive and
    root) is not empty and does not end in a separator, and of a plain
    file name, puts '\' between them under [ntpath] and '/' under
    [posixpath]. *)
Lemma os_path_join_plain (d f : string) :
  (nt_splitroot d).2 ≠ "" → py_last_in "\/" d = false → plain_name f = true →
  os_path_join Windows d f = d ++ "\" ++ f ∧ os_path_join Posix d f = d ++ "/" ++ f.
Proof.
  intros Ht Hl Hf. split; [by apply nt_join_plain|].
  apply posix_join_plain; [|by apply py_last_in_slash|done].
  pose proof (nt_splitroot_app d) as Happ. destruct (nt_splitroot d) as [[rd rr] rp]. cbn in Ht.
  rewrite <- Happ. by do 2 apply str_app_ne_r.
Qed.

(** The input file is found only on Windows: the path of line 14 is
    'C:\Temp\ibraheem\DSModel_09.ccf' under [ntpath] and a different name,
    'C:\Temp\ibraheem/DSModel_09.ccf', under [posixpath]; with the file
    stored under its Windows name, the program runs the script on it on
    Windows and raises [FileNotFoundError] at line 16 elsewhere. *)
Example program_platforms `{Num V} (recs : list (budget_record V)) :
  ccf_out Windows = "C:\Temp\ibraheem\DSModel_09.ccf" ∧
  ccf_out Posix = "C:\Temp\ibraheem/DSModel_09.ccf" ∧
  program Windows {[ccf_out Windows := recs]} = @script V _ (archive_file recs) ∧
  program Posix {[ccf_out Windows := recs]} = Err FileNotFoundError.
Proof.
  split_and!; [done|done|..]; unfold program, open_budget_file.
  - by rewrite lookup_singleton_eq.
  - by rewrite lookup_singleton_ne.
Qed.

