(* ===== verification/Run.v ===== *)
(** * The whole run with what it writes (script lines 12-121)

    [PathConfig.program] gives the values the script computes.  Here the
    run also produces what a user sees, in order: the record table printed
    by [modobj.list_unique_records()] (line 18), the line printed per step
    (line 67) and the figures [plt.show()] displays (line 121).  [io] is a
    writer and error monad: a computation returns what it wrote, and its
    value or the exception that stopped it; what was written before an
    exception stays written.  The loop is [StepMachine]'s, whose
    configurations carry the printed lines, and the plot is [Plotting]'s,
    over the variables of the script that name 2-D arrays.

    The theorems: the run computes exactly [program]'s values and
    exceptions; when the program returns, the user has seen the record
    table, one line per step of the file in order, and one figure with the
    masked mean map; when it raises, the user has seen the record table and
    the lines of a prefix of the steps, and no figure. *)
From S2P Require Import Prelude NdArray CoordinateIndex BudgetFile FluxAccumulator StepMachine.
From S2P Require Import Aggregation Float64 PyObjects PlotPrep Plotting Script PathConfig.
From stdpp Require Import base list gmap strings.
From Stdlib Require Import ZArith PrimFloat.

(** What the user sees. *)
Inductive output :=
  | ListedRecords (names : list string)  (** line 18 *)
  | StepLine (e : event)                 (** line 67 *)
  | Shown (figs : list (list image)).    (** line 121 *)

(** What was written, and the value or the exception. *)
Definition io (A : Type) : Type := list output * result A.

Definition io_ret {A} (a : A) : io A := ([], Ok a).

Definition io_bind {A B} (m : io A) (k : A → io B) : io B :=
  match m with
  | (w, Ok a) => let '(w', r) := k a in (w ++ w', r)
  | (w, Err e) => (w, Err e)
  end.

Definition io_lift {A} (r : result A) : io A := ([], r).

Definition io_write (w : list output) : io unit := (w, Ok ()).

Declare Scope io_scope.
Delimit Scope io_scope with io.
Notation "x ← m ; k" := (io_bind m (λ x, k))
  (at level 20, m at level 100, k at level 200, only parsing) : io_scope.
Notation "' p ← m ; k" := (io_bind m (λ p, k))
  (at level 20, p pattern, m at level 100, k at level 200, only parsing) : io_scope.

(** The loop's final configuration: the lines it printed, and the volumes
    or the exception.  [run_steps] ends in [Done] or [Raised] only
    ([run_steps_final]). *)
Definition loop_io {V} (c : config V) : io (list (array3 V)) :=
  (StepLine <$> c.2,
   match c.1 with
   | Done vs => Ok vs
   | Raised e => Err e
   | Outer _ _ | Inner _ _ _ _ _ => Err IndexError
   end).

(** The script's variables that name 2-D float arrays, at line 118: the
    mean map (line 79) and the [10:20] layer map (line 111), each its own
    object. *)
Definition script_vars (o : outputs float) : pystate :=
  let '(l0, m0) := alloc (mk_store ∅ 0) (out_rivflx_2D_all_time o) in
  let '(l1, m1) := alloc m0 (out_lay1_10days o) in
  mk_pystate (<["lay1_total_rivflx_10days" := l1]> {["rivflx_2D_all_time" := l0]}) m1.

Local Open Scope io_scope.

(** Lines 18-121, on the opened budget file. *)
Definition run_file (modobj : CellBudgetFile float) : io (outputs float) :=
  _ ← io_write [ListedRecords (get_unique_record_names (CellBudgetFile := modobj))];
  id_dict ← io_lift (build_id_dict NLAY NROW NCOL);
  steps ← loop_io (run_steps (H0 := modobj) NLAY NROW NCOL (id_dict_lookup id_dict) RIVER_LEAKAGE
                     [] (get_kstpkper (CellBudgetFile := modobj)) []);
  let rivflx := np_array_stack steps in
  m2d ← io_lift (rivflx_2D_all_time NROW NCOL rivflx);
  lay1 ← io_lift (lay1_total_rivflx_10days NROW NCOL rivflx);
  let o := mk_outputs rivflx m2d (rivflx_total rivflx) (total_acre_ft rivflx) lay1 (plane_total lay1) in
  '(_, p) ← io_lift (plot_lines (script_vars o) (mk_pyplot [] []));
  _ ← io_write (Shown <$> displayed p);
  io_ret o.

(** Lines 12-121. *)
Definition run (plat : platform) (fs : gmap string (list (budget_record float)))
    : io (outputs float) :=
  modobj ← io_lift (open_budget_file fs (ccf_out plat));
  run_file modobj.
Local Close Scope io_scope.

(** ** Lemmas *)

Section Loop.
Context `{Num V} `{CellBudgetFile V} (L R C : nat) (lookup : Z → result coord) (text : string).

(** A loop that returns has printed one line per step. *)
Lemma loop_io_Ok (vs : list (array3 V)) :
  collect_steps L R C lookup text = Ok vs →
  loop_io (run_steps L R C lookup text [] get_kstpkper []) = (StepLine <$> (Finished <$> get_kstpkper), Ok vs).
Proof.
  rewrite collect_steps_mapM. intros Hm. unfold loop_io.
  by rewrite (run_steps_Ok L R C lookup text [] _ [] vs Hm).
Qed.

(** A loop that raises has printed the lines of a prefix of the steps. *)
Lemma loop_io_Err (e : py_error) :
  collect_steps L R C lookup text = Err e →
  ∃ done rest, get_kstpkper = done ++ rest ∧
    loop_io (run_steps L R C lookup text [] get_kstpkper []) = (StepLine <$> (Finished <$> done), Err e).
Proof.
  rewrite collect_steps_mapM. intros Hm.
  destruct (run_steps_Err L R C lookup text [] _ [] e Hm) as [tr Hr].
  pose proof Hr as (done & k & rest & vs & Hks & -> & _)%run_steps_Raised.
  exists done, (k :: rest). unfold loop_io. by rewrite Hr.
Qed.
End Loop.

Lemma script_vars_mean (o : outputs float) :
  env (script_vars o) !! "rivflx_2D_all_time" = Some 0 ∧
  objs (mem (script_vars o)) !! 0 = Some (out_rivflx_2D_all_time o).
Proof.
  cbn. split.
  - rewrite lookup_insert_ne by done. apply lookup_singleton_eq.
  - rewrite lookup_insert_ne by done. apply lookup_insert_eq.
Qed.

(** An exception after the loop: every step has been printed. *)
Local Ltac raised_after_loop :=
  cbn; split_and!; [done|done|]; intros ? [= <-]; exists get_kstpkper, []; by rewrite !app_nil_r.

(** The run on an opened file: [script]'s values and exceptions, and what
    the user sees on each. *)
Lemma run_file_spec (bf : CellBudgetFile float) :
  (run_file bf).2 = script (H0 := bf) ∧
  (∀ o, script (H0 := bf) = Ok o →
     (run_file bf).1 = [ListedRecords (get_unique_record_names (CellBudgetFile := bf))] ++
       (StepLine <$> (Finished <$> get_kstpkper (CellBudgetFile := bf))) ++
       [Shown [[safe_masked_invalid (mask_zeros (out_rivflx_2D_all_time o))]]]) ∧
  (∀ e, script (H0 := bf) = Err e →
     ∃ done rest, get_kstpkper (CellBudgetFile := bf) = done ++ rest ∧
       (run_file bf).1 = [ListedRecords (get_unique_record_names (CellBudgetFile := bf))] ++
         (StepLine <$> (Finished <$> done))).
Proof.
  unfold run_file, script, pipeline. cbn [io_bind io_write io_lift].
  destruct (build_id_dict NLAY NROW NCOL) as [d|e]; cbn [io_bind io_write io_lift mbind result_bind].
  2:{ cbn. split_and!; [done|done|]. intros ? [= <-]. exists [], get_kstpkper. done. }
  destruct (collect_steps NLAY NROW NCOL (id_dict_lookup d) RIVER_LEAKAGE) as [vs|e] eqn:Ec.
  2:{ destruct (loop_io_Err _ _ _ _ _ e Ec) as (done & rest & Hk & ->). cbn.
      split_and!; [done|done|]. intros ? [= <-]. by exists done, rest. }
  rewrite (loop_io_Ok _ _ _ _ _ vs Ec). cbn [io_bind io_write io_lift mbind result_bind].
  destruct (rivflx_2D_all_time NROW NCOL (np_array_stack vs)) as [m|e].
  2:{ raised_after_loop. }
  destruct (lay1_total_rivflx_10days NROW NCOL (np_array_stack vs)) as [p|e].
  2:{ raised_after_loop. }
  match goal with |- context [plot_lines (script_vars ?o) ?pp] =>
    destruct (script_vars_mean o) as [El Hv]; rewrite (plot_lines_eq _ pp 0 _ El Hv) end.
  cbn. split_and!; [done|intros ? [= <-]; reflexivity|intros ? [=]].
Qed.

(** ** Theorems *)

(** C27. The run with its output computes exactly what [program] computes,
    values and exceptions, on every platform and file system; when no file
    has the joined name, it raises [FileNotFoundError] at line 16 before
    writing anything. *)
Theorem run_refines_program (plat : platform) (fs : gmap string (list (budget_record float))) :
  (run plat fs).2 = program plat fs ∧
  (fs !! ccf_out plat = None → run plat fs = ([], Err FileNotFoundError)).
Proof.
  unfold run, program, open_budget_file.
  destruct (fs !! ccf_out plat) as [recs|]; cbn [of_option io_lift io_bind mbind result_bind];
    [|split; reflexivity].
  split; [|intros [=]]. rewrite <- (proj1 (run_file_spec (archive_file recs))).
  destruct (run_file (archive_file recs)) as [w r]. reflexivity.
Qed.

(** C28. What the user sees: with the budget file found at the joined
    path, a run that returns has written the record table of line 18, one
    line per time step of the file in order (line 67), and one figure
    holding one image, the mean map with its zeros and non-finite cells
    masked (line 121); a run that raises has written the record table and
    the lines of a prefix of the steps, and shown no figure. *)
Theorem run_output (plat : platform) (fs : gmap string (list (budget_record float)))
    (recs : list (budget_record float)) :
  fs !! ccf_out plat = Some recs →
  (∀ o, program plat fs = Ok o →
     (run plat fs).1 = [ListedRecords (archive_record_names recs)] ++
       (StepLine <$> (Finished <$> archive_kstpkper recs)) ++
       [Shown [[safe_masked_invalid (mask_zeros (out_rivflx_2D_all_time o))]]]) ∧
  (∀ e, program plat fs = Err e →
     ∃ done rest, archive_kstpkper recs = done ++ rest ∧
       (run plat fs).1 = [ListedRecords (archive_record_names recs)] ++ (StepLine <$> (Finished <$> done))).
Proof.
  intros Hfs. unfold run, program, open_budget_file. rewrite Hfs.
  cbn [of_option io_lift io_bind mbind result_bind].
  destruct (run_file_spec (archive_file recs)) as (_ & Hok & Herr).
  destruct (run_file (archive_file recs)) as [w r]. cbn in *. split; [exact Hok|exact Herr].
Qed.

(** A file system holding an empty archive under the Windows name. *)
Definition windows_fs : gmap string (list (budget_record float)) := {[ccf_out Windows := []]}.

Lemma run_output_witness :
  windows_fs !! ccf_out Windows = Some [] ∧
  (∀ o, program Windows windows_fs = Ok o →
     (run Windows windows_fs).1 = [ListedRecords (archive_record_names (@nil (budget_record float)))] ++
       (StepLine <$> (Finished <$> archive_kstpkper (@nil (budget_record float)))) ++
       [Shown [[safe_masked_invalid (mask_zeros (out_rivflx_2D_all_time o))]]]) ∧
  (∀ e, program Windows windows_fs = Err e →
     ∃ done rest, archive_kstpkper (@nil (budget_record float)) = done ++ rest ∧
       (run Windows windows_fs).1 =
         [ListedRecords (archive_record_names (@nil (budget_record float)))] ++ (StepLine <$> (Finished <$> done))).
Proof.
  assert (Hfs : windows_fs !! ccf_out Windows = Some [])
    by apply lookup_singleton_eq.
  split; [exact Hfs|]. exact (run_output Windows windows_fs [] Hfs).
Defined.

Lemma run_refines_program_witness :
  windows_fs !! ccf_out Posix = None ∧
  (run Posix windows_fs).2 = program Posix windows_fs ∧
  run Posix windows_fs = ([], Err FileNotFoundError).
Proof.
  assert (Hfs : windows_fs !! ccf_out Posix = None)
    by (apply lookup_singleton_ne; vm_compute; discriminate).
  split; [exact Hfs|]. split; [exact (proj1 (run_refines_program Posix windows_fs))|].
  exact (proj2 (run_refines_program Posix windows_fs) Hfs).
Defined.
